(** * The tablet query executor (go/vt/tabletserver/query_executor.go)

    A shallow embedding of [QueryExecutor.Execute] and the functions it
    reaches.  Go code that panics, defers and recovers is written in a
    small monad over an explicit [World]; the collaborators whose code
    lives in other files (pools, transaction pool, consolidator, row
    cache, SQL template expansion) are a record of functions, the stateful
    ones answering from the history of calls made so far. *)

From stdpp Require Import strings gmap list pretty.
From Stdlib Require Import ZArith Lia.

Local Open Scope Z_scope.

(** ** Go runtime: fixed-width integers and slices *)

Module Go.

(** [int] and [int64] are 64-bit two's complement on the platforms the
    tablet server runs on; [uint64] is reduced modulo [2^64]. *)
Definition wrap64 (z : Z) : Z := (z + 2 ^ 63) `mod` 2 ^ 64 - 2 ^ 63.
Definition wrapu64 (z : Z) : Z := z `mod` 2 ^ 64.

Definition int64_add (a b : Z) : Z := wrap64 (a + b).
Definition int64_sub (a b : Z) : Z := wrap64 (a - b).
Definition uint64_add (a b : Z) : Z := wrapu64 (a + b).

Definition len {A} (s : list A) : Z := Z.of_nat (length s).

(** [s[lo:hi]]; [None] is the runtime panic "slice bounds out of range".
    Capacity is taken equal to length. *)
Definition slice {A} (s : list A) (lo hi : Z) : option (list A) :=
  if (0 <=? lo) && (lo <=? hi) && (hi <=? len s)
  then Some (take (Z.to_nat (hi - lo)) (drop (Z.to_nat lo) s))
  else None.

End Go.

(** ** Data *)

(** Modelled from the spec: [sqltypes.Value] is declared outside the
    executor; a typed value is either NULL or carries its text. *)
Inductive Value := VNull | VRaw (text : string).

Definition IsNull (v : Value) : bool :=
  match v with VNull => true | VRaw _ => false end.

Definition Value_String (v : Value) : string :=
  match v with VNull => "" | VRaw s => s end.

Definition Row := list Value.

(** [interface{}] values found in a bind-variable map. *)
Inductive BindValue :=
| BVInt64 (n : Z)
| BVString (s : string)
| BVValue (v : Value)
| BVTupleEqualityList (Columns : list string) (Rows : list Row)
| BVRows (rows : list Row).

Abbreviation BindVars := (gmap string BindValue).

(** A bind-variable map is a Go reference: the request's own map, or one
    allocated while the request runs. *)
Inductive MapRef := QreBindVars | LocalMap (n : nat).

Inductive ErrKind := ErrFail | ErrRetry | ErrFatal | ErrTxPoolFull | ErrNotInTx.

Record TabletError := { ErrorType : ErrKind; Message : string }.

Inductive GoError :=
| ErrConnPoolClosed
| ErrTablet (te : TabletError)
| ErrOther (msg : string).

Inductive PanicVal :=
| PError (e : GoError)
| PString (s : string)
| PRuntime (s : string).

Definition NewTabletError (k : ErrKind) (msg : string) : PanicVal :=
  PError (ErrTablet {| ErrorType := k; Message := msg |}).

Module mproto.
Record Field := { Name : string; Type_ : Z }.
Record QueryResult := {
  Fields : option (list Field);
  RowsAffected : Z;
  InsertId : Z;
  Rows : list Row
}.
Definition empty : QueryResult :=
  {| Fields := None; RowsAffected := 0; InsertId := 0; Rows := [] |}.
Definition set_Fields (f : option (list Field)) (r : QueryResult) :=
  {| Fields := f; RowsAffected := RowsAffected r; InsertId := InsertId r; Rows := Rows r |}.
Definition set_RowsAffected (n : Z) (r : QueryResult) :=
  {| Fields := Fields r; RowsAffected := n; InsertId := InsertId r; Rows := Rows r |}.
Definition set_Rows (rows : list Row) (r : QueryResult) :=
  {| Fields := Fields r; RowsAffected := RowsAffected r; InsertId := InsertId r; Rows := rows |}.
End mproto.

Module schema.
Inductive CacheKind := CACHE_NONE | CACHE_RW | CACHE_R.
Record Index := { Columns : list string }.
Record TableInfo := {
  Name : string;
  CacheType : CacheKind;
  PKColumns : list Z;
  Indexes : list Index
}.
End schema.

Record RCResult := { Row_ : option Row; Cas : Z }.
Definition RCResult_zero : RCResult := {| Row_ := None; Cas := 0 |}.

Module planbuilder.
Inductive PlanType :=
| PLAN_PASS_SELECT | PLAN_PASS_DML | PLAN_PK_IN | PLAN_SELECT_SUBQUERY
| PLAN_DML_PK | PLAN_DML_SUBQUERY | PLAN_INSERT_PK | PLAN_INSERT_SUBQUERY
| PLAN_SET | PLAN_DDL | PLAN_OTHER.
Inductive ReasonType := REASON_DEFAULT | REASON_LOCK.
Record DDLPlan := { Action : string; TableName : string; NewName : string }.
End planbuilder.

Record ParsedQuery := { Query : string }.

Inductive Action := QR_CONTINUE | QR_FAIL | QR_FAIL_RETRY.

(** [plan.SetValue] is an [interface{}]; a float64 is kept as its bit
    pattern, the float arithmetic itself is a collaborator. *)
Inductive SetVal := SVInt64 (n : Z) | SVFloat64 (bits : Z) | SVOther (s : string).

Module ExecPlan.
Record t := {
  PlanId : planbuilder.PlanType;
  Reason : planbuilder.ReasonType;
  TableName : string;
  TableInfo : option schema.TableInfo;
  FullQuery : ParsedQuery;
  OuterQuery : ParsedQuery;
  Subquery : ParsedQuery;
  PKValues : list BindValue;
  SecondaryPKValues : list BindValue;
  SubqueryPKColumns : list Z;
  ColumnNumbers : list Z;
  Fields : option (list mproto.Field);
  Limit : option BindValue;
  SetKey : string;
  SetValue : SetVal;
  (** [Rules] and [Authorized] are objects used through one method
      each: [getAction] and [IsMember]. *)
  Rules_getAction : string -> string -> BindVars -> Action * string;
  Authorized : option (string -> bool)
}.
End ExecPlan.

Record CallInfo := { RemoteAddr : string; Username : string }.

(** [context.Background()] is a distinguished value; any other context may
    carry call info. *)
Inductive Context := Background | RequestContext (ci : option CallInfo).

Definition Conn := nat.
Inductive Pool := connPool | streamConnPool | txPool.

(** A cache invalidator is the dirty-key set of one pinned connection and
    one table. *)
Record Invalidator := { inv_conn : Conn; inv_table : string }.

(** ** Calls made to collaborators *)

Inductive Event :=
| EvPoolGet (p : Pool) (r : GoError + Conn)
| EvTxPoolGet (txid : Z) (r : PanicVal + Conn)
| EvRecycle (c : Conn)
| EvRecordQuery (c : Conn) (q : string)
| EvDirtyKeys (c : Conn) (table : string)
| EvInvalidatorDelete (inv : Invalidator) (key : string)
| EvExec (c : Conn) (sql : string) (maxrows : Z) (wantfields : bool)
         (r : GoError + mproto.QueryResult)
| EvBegin (r : PanicVal + Z)
| EvCommit (txid : Z) (r : option PanicVal)
| EvRollback (txid : Z)
| EvSafeCommit (txid : Z)
| EvConsolidatorCreate (sql : string) (ok : bool)
| EvConsolidatorStore (sql : string) (r : GoError + mproto.QueryResult)
| EvConsolidatorBroadcast (sql : string)
| EvConsolidatorWait (sql : string)
| EvCacheGet (keys : list string)
| EvCacheSet (key : string) (row : Row) (cas : Z)
| EvRand
| EvLaunchRecheck (rc : RCResult) (dbrow : option Row) (pk : Row)
| EvDropTable (name : string)
| EvCreateOrUpdateTable (name : string)
| EvSetCapacity (p : Pool) (n : Z)
| EvSetIdleTimeout (p : Pool) (d : Z)
| EvSetTimeout (d : Z)
| EvSetPoolTimeout (d : Z)
| EvSetReloadTime (d : Z)
| EvSetQueryCacheSize (n : Z)
| EvAccessCheckerLog (msg : string)
| EvQueryStats (planName : string)
| EvPlanStats (queryCount rowCount errorCount : Z)
| EvResultStats (n : Z)
| EvWaitStats (name : string)
| EvSpotCheckCount (n : Z)
| EvTableStats (hits absent misses : Z).

Abbreviation History := (list Event).

(** ** Mutable state of one request *)

Module LogStats.
Record t := {
  OriginalSql : string;
  BindVariables : option MapRef;
  TransactionID : Z;
  PlanType : string;
  RowsAffected : Z;
  Rows : list Row;
  CacheHits : Z;
  CacheAbsent : Z;
  CacheMisses : Z;
  QuerySources : Z;
  rewrittenSqls : list string
}.
Definition zero : t :=
  {| OriginalSql := ""; BindVariables := None; TransactionID := 0;
     PlanType := ""; RowsAffected := 0; Rows := []; CacheHits := 0;
     CacheAbsent := 0; CacheMisses := 0; QuerySources := 0;
     rewrittenSqls := [] |}.
Definition set_header (sql : string) (bv : option MapRef) (txid : Z)
    (planName : string) (s : t) : t :=
  {| OriginalSql := sql; BindVariables := bv; TransactionID := txid;
     PlanType := planName; RowsAffected := RowsAffected s; Rows := Rows s;
     CacheHits := CacheHits s; CacheAbsent := CacheAbsent s;
     CacheMisses := CacheMisses s; QuerySources := QuerySources s;
     rewrittenSqls := rewrittenSqls s |}.
Definition set_result (n : Z) (rows : list Row) (s : t) : t :=
  {| OriginalSql := OriginalSql s; BindVariables := BindVariables s;
     TransactionID := TransactionID s; PlanType := PlanType s;
     RowsAffected := n; Rows := rows;
     CacheHits := CacheHits s; CacheAbsent := CacheAbsent s;
     CacheMisses := CacheMisses s; QuerySources := QuerySources s;
     rewrittenSqls := rewrittenSqls s |}.
Definition set_cache (hits absent misses : Z) (s : t) : t :=
  {| OriginalSql := OriginalSql s; BindVariables := BindVariables s;
     TransactionID := TransactionID s; PlanType := PlanType s;
     RowsAffected := RowsAffected s; Rows := Rows s;
     CacheHits := hits; CacheAbsent := absent; CacheMisses := misses;
     QuerySources := QuerySources s; rewrittenSqls := rewrittenSqls s |}.
Definition or_QuerySources (flag : Z) (s : t) : t :=
  {| OriginalSql := OriginalSql s; BindVariables := BindVariables s;
     TransactionID := TransactionID s; PlanType := PlanType s;
     RowsAffected := RowsAffected s; Rows := Rows s;
     CacheHits := CacheHits s; CacheAbsent := CacheAbsent s;
     CacheMisses := CacheMisses s;
     QuerySources := Z.lor (QuerySources s) flag;
     rewrittenSqls := rewrittenSqls s |}.
(** Modelled from the spec: [AddRewrittenSql] is declared with the stats
    record, outside the executor; it adds one entry to the stats log. *)
Definition AddRewrittenSql (sql : string) (s : t) : t :=
  {| OriginalSql := OriginalSql s; BindVariables := BindVariables s;
     TransactionID := TransactionID s; PlanType := PlanType s;
     RowsAffected := RowsAffected s; Rows := Rows s;
     CacheHits := CacheHits s; CacheAbsent := CacheAbsent s;
     CacheMisses := CacheMisses s; QuerySources := QuerySources s;
     rewrittenSqls := rewrittenSqls s ++ [sql] |}.
End LogStats.

(** The tunables of the query engine (atomic integers in the source). *)
Record Tunables := {
  maxResultSize : Z;
  maxDMLRows : Z;
  streamBufferSize : Z;
  strictMode : Z;
  spotCheckFreq : Z;
  queryTimeout : Z
}.

Record World := {
  history : History;          (* calls to collaborators, oldest first *)
  bindVars : BindVars;        (* the map behind [qre.bindVars] *)
  localMaps : list BindVars;  (* maps allocated during the request *)
  tunables : Tunables;
  logStats : LogStats.t
}.

Definition set_history (h : History) (w : World) : World :=
  {| history := h; bindVars := bindVars w; localMaps := localMaps w;
     tunables := tunables w; logStats := logStats w |}.
Definition set_bindVars (m : BindVars) (w : World) : World :=
  {| history := history w; bindVars := m; localMaps := localMaps w;
     tunables := tunables w; logStats := logStats w |}.
Definition set_localMaps (l : list BindVars) (w : World) : World :=
  {| history := history w; bindVars := bindVars w; localMaps := l;
     tunables := tunables w; logStats := logStats w |}.
Definition set_tunables (t : Tunables) (w : World) : World :=
  {| history := history w; bindVars := bindVars w; localMaps := localMaps w;
     tunables := t; logStats := logStats w |}.
Definition set_logStats (s : LogStats.t) (w : World) : World :=
  {| history := history w; bindVars := bindVars w; localMaps := localMaps w;
     tunables := tunables w; logStats := s |}.

Record QueryEngine := { enableAutoCommit : bool; strictTableAcl : bool }.

Record QueryExecutor := {
  query : string;
  transactionID : Z;
  plan : ExecPlan.t;
  ctx : Context;
  qe : QueryEngine
}.

(** ** Panics, defer and recover *)

Inductive Outcome (A : Type) :=
| Ret (a : A) (w : World)
| Panic (p : PanicVal) (w : World)
| OutOfFuel.
Arguments Ret {A} a w.
Arguments Panic {A} p w.
Arguments OutOfFuel {A}.

Definition M (A : Type) : Type := World -> Outcome A.

Definition ret {A} (a : A) : M A := fun w => Ret a w.
Definition panic {A} (p : PanicVal) : M A := fun w => Panic p w.
Definition bind {A B} (m : M A) (k : A -> M B) : M B := fun w =>
  match m w with
  | Ret a w' => k a w'
  | Panic p w' => Panic p w'
  | OutOfFuel => OutOfFuel
  end.

Declare Scope go_scope.
Delimit Scope go_scope with go.
Notation "'let*' x ':=' m 'in' k" := (bind m (fun x => k))
  (at level 10, x name, m at level 100, k at level 200) : go_scope.
Notation "m ';;;' k" := (bind m (fun _ => k))
  (at level 100, k at level 200, right associativity) : go_scope.
Local Open Scope go_scope.

Definition get_world : M World := fun w => Ret w w.
Definition modify (f : World -> World) : M unit := fun w => Ret tt (f w).

(** [defer d(); rest]: [d] runs when the function leaves, by return or by
    panic; a panic raised by [d] replaces the one in flight. *)
Definition defer_call {A} (d : M unit) (rest : M A) : M A := fun w =>
  match rest w with
  | Ret a w' =>
      match d w' with
      | Ret _ w'' => Ret a w''
      | Panic p w'' => Panic p w''
      | OutOfFuel => OutOfFuel
      end
  | Panic p w' =>
      match d w' with
      | Ret _ w'' => Panic p w''
      | Panic p' w'' => Panic p' w''
      | OutOfFuel => OutOfFuel
      end
  | OutOfFuel => OutOfFuel
  end.

(** A deferred closure that reads the named result: it sees the value
    being returned, or [None] (nil) when the function is panicking. *)
Definition defer_named {A} (d : option A -> M unit) (rest : M (option A)) : M (option A) :=
  fun w =>
  match rest w with
  | Ret a w' =>
      match d a w' with
      | Ret _ w'' => Ret a w''
      | Panic p w'' => Panic p w''
      | OutOfFuel => OutOfFuel
      end
  | Panic p w' =>
      match d None w' with
      | Ret _ w'' => Panic p w''
      | Panic p' w'' => Panic p' w''
      | OutOfFuel => OutOfFuel
      end
  | OutOfFuel => OutOfFuel
  end.

(** A deferred closure that calls [recover()]: it receives the panic in
    flight, if any, and stops it; if it then returns, the function returns
    its named result, which is still [zero]. *)
Definition defer_recover {A} (d : option PanicVal -> M unit) (zero : A) (rest : M A) : M A :=
  fun w =>
  match rest w with
  | Ret a w' =>
      match d None w' with
      | Ret _ w'' => Ret a w''
      | Panic p w'' => Panic p w''
      | OutOfFuel => OutOfFuel
      end
  | Panic p w' =>
      match d (Some p) w' with
      | Ret _ w'' => Ret zero w''
      | Panic p' w'' => Panic p' w''
      | OutOfFuel => OutOfFuel
      end
  | OutOfFuel => OutOfFuel
  end.

(** [for _, x := range l { s = body(s, x) }] *)
Fixpoint for_range {A S} (body : S -> A -> M S) (l : list A) (s : S) : M S :=
  match l with
  | [] => ret s
  | x :: l' => let* s' := body s x in for_range body l' s'
  end.

Definition emit (e : Event) : M unit :=
  modify (fun w => set_history (history w ++ [e]) w).

Definition lift_option {A} (msg : string) (o : option A) : M A :=
  match o with Some a => ret a | None => panic (PRuntime msg) end.

(** Reading and writing through a map reference; a reference to no map
    reads as the empty map and cannot be written. *)
Definition map_load (r : MapRef) : M BindVars := fun w =>
  match r with
  | QreBindVars => Ret (bindVars w) w
  | LocalMap n => Ret (default ∅ (localMaps w !! n)) w
  end.

Definition map_store (r : MapRef) (k : string) (v : BindValue) : M unit := fun w =>
  match r with
  | QreBindVars => Ret tt (set_bindVars (<[k := v]> (bindVars w)) w)
  | LocalMap n =>
      match localMaps w !! n with
      | Some m => Ret tt (set_localMaps (<[n := <[k := v]> m]> (localMaps w)) w)
      | None => Panic (PRuntime "assignment to entry in nil map") w
      end
  end.

Definition map_new (m : BindVars) : M MapRef := fun w =>
  Ret (LocalMap (length (localMaps w))) (set_localMaps (localMaps w ++ [m]) w).

Definition AddRewrittenSql (sql : string) : M unit :=
  modify (fun w => set_logStats (LogStats.AddRewrittenSql sql (logStats w)) w).

(** ** Collaborators

    Code of the package and of its dependencies that the executor calls.
    The pure helpers are plain functions.  The stateful ones (pools,
    backend, consolidator, cache, random source) answer from the history
    of calls, which stands for whatever state they keep. *)

Record Collaborators := {
  buildValueList : option schema.TableInfo -> list BindValue -> BindVars -> GoError + list Row;
  buildSecondaryList : option schema.TableInfo -> list Row -> list BindValue -> BindVars
                       -> GoError + option (list Row);
  buildStreamComment : option schema.TableInfo -> list Row -> option (list Row) -> option string;
  buildKey : Row -> string;
  applyFilter : list Z -> Row -> Row;
  applyFilterWithPKDefaults : option schema.TableInfo -> list Z -> Row -> Row;
  validateRow : option schema.TableInfo -> list Z -> Row -> option GoError;
  getLimit : option BindValue -> BindVars -> PanicVal + Z;
  restoreTrailing : string -> BindVars -> string;
  GenerateQuery : ParsedQuery -> BindVars -> GoError + string;
  DDLParse : string -> planbuilder.DDLPlan;
  NewTabletErrorSql : ErrKind -> GoError -> TabletError;
  Error : GoError -> string;
  PlanId_String : planbuilder.PlanType -> string;
  quote : string -> string;
  spotCheckMultiplier : Z;
  QuerySourceRowcache : Z;
  QuerySourceConsolidator : Z;
  int64_to_float64 : Z -> Z;
  float64_to_duration : Z -> Z;
  float64_to_spotCheckFreq : Z -> Z;
  pool_Get : History -> Pool -> GoError + Conn;
  txPool_Get : History -> Z -> PanicVal + Conn;
  txPool_Begin : History -> PanicVal + Z;
  qe_Commit : History -> Z -> option PanicVal;
  conn_Exec : History -> Conn -> string -> Z -> bool -> GoError + mproto.QueryResult;
  consolidator_Create : History -> string -> bool;
  consolidator_Wait : History -> string -> option GoError * option mproto.QueryResult;
  cache_Get : History -> list string -> gmap string RCResult;
  Rand : History -> Z
}.

Definition set_maxResultSize (v : Z) (t : Tunables) : Tunables :=
  {| maxResultSize := v; maxDMLRows := maxDMLRows t;
     streamBufferSize := streamBufferSize t; strictMode := strictMode t;
     spotCheckFreq := spotCheckFreq t; queryTimeout := queryTimeout t |}.
Definition set_maxDMLRows (v : Z) (t : Tunables) : Tunables :=
  {| maxResultSize := maxResultSize t; maxDMLRows := v;
     streamBufferSize := streamBufferSize t; strictMode := strictMode t;
     spotCheckFreq := spotCheckFreq t; queryTimeout := queryTimeout t |}.
Definition set_streamBufferSize (v : Z) (t : Tunables) : Tunables :=
  {| maxResultSize := maxResultSize t; maxDMLRows := maxDMLRows t;
     streamBufferSize := v; strictMode := strictMode t;
     spotCheckFreq := spotCheckFreq t; queryTimeout := queryTimeout t |}.
Definition set_strictMode (v : Z) (t : Tunables) : Tunables :=
  {| maxResultSize := maxResultSize t; maxDMLRows := maxDMLRows t;
     streamBufferSize := streamBufferSize t; strictMode := v;
     spotCheckFreq := spotCheckFreq t; queryTimeout := queryTimeout t |}.
Definition set_spotCheckFreq (v : Z) (t : Tunables) : Tunables :=
  {| maxResultSize := maxResultSize t; maxDMLRows := maxDMLRows t;
     streamBufferSize := streamBufferSize t; strictMode := strictMode t;
     spotCheckFreq := v; queryTimeout := queryTimeout t |}.
Definition set_queryTimeout (v : Z) (t : Tunables) : Tunables :=
  {| maxResultSize := maxResultSize t; maxDMLRows := maxDMLRows t;
     streamBufferSize := streamBufferSize t; strictMode := strictMode t;
     spotCheckFreq := spotCheckFreq t; queryTimeout := v |}.

Definition getInt64 (v : SetVal) : M Z :=
  match v with
  | SVInt64 n => ret n
  | _ => panic (NewTabletError ErrFail "expecting int")
  end.

Fixpoint rowsAreEqual_from (row1 row2 : Row) : bool :=
  match row1, row2 with
  | v1 :: r1, v2 :: r2 =>
      if IsNull v1 && IsNull v2 then rowsAreEqual_from r1 r2
      else if (IsNull v1 && negb (IsNull v2)) || (negb (IsNull v1) && IsNull v2)
              || negb (String.eqb (Value_String v1) (Value_String v2))
           then false
           else rowsAreEqual_from r1 r2
  | _, _ => true
  end.

Definition rowsAreEqual (row1 row2 : Row) : bool :=
  if negb (Go.len row1 =? Go.len row2) then false else rowsAreEqual_from row1 row2.

(** ** The executor *)

Section Executor.

Variable E : Collaborators.
Variable qre : QueryExecutor.

Let the_plan : ExecPlan.t := plan qre.

(** A call to a stateful collaborator: it answers from the history, and
    the call and its answer are appended to the history. *)
Definition ask {A} (f : History -> A) (ev : A -> Event) : M A := fun w =>
  let r := f (history w) in
  Ret r (set_history (history w ++ [ev r]) w).

Definition Recycle (conn : Conn) : M unit := emit (EvRecycle conn).

Definition txPool_Get_call (txid : Z) : M Conn :=
  let* r := ask (fun h => txPool_Get E h txid) (EvTxPoolGet txid) in
  match r with inl p => panic p | inr conn => ret conn end.

Definition txPool_Begin_call : M Z :=
  let* r := ask (txPool_Begin E) EvBegin in
  match r with inl p => panic p | inr txid => ret txid end.

Definition qe_Commit_call (txid : Z) : M unit :=
  let* r := ask (fun h => qe_Commit E h txid) (EvCommit txid) in
  match r with Some p => panic p | None => ret tt end.

(** Modelled from the spec: [TxPool.Rollback] and [TxPool.SafeCommit] are
    declared with the transaction pool; the outcome of a rollback is
    logged by the pool and [SafeCommit] swallows backend errors, so
    neither raises to the executor. *)
Definition txPool_Rollback (txid : Z) : M unit := emit (EvRollback txid).
Definition txPool_SafeCommit (txid : Z) : M unit := emit (EvSafeCommit txid).

Definition conn_Exec_call (conn : Conn) (sql : string) (maxrows : Z) (wantfields : bool)
  : M (GoError + mproto.QueryResult) :=
  ask (fun h => conn_Exec E h conn sql maxrows wantfields) (EvExec conn sql maxrows wantfields).

Definition tableInfo_deref : M schema.TableInfo :=
  lift_option "invalid memory address or nil pointer dereference" (ExecPlan.TableInfo the_plan).

(** [qre.plan.TableInfo.Indexes[0].Columns] *)
Definition index0_Columns : M (list string) :=
  let* ti := tableInfo_deref in
  let* ix := lift_option "index out of range" (head (schema.Indexes ti)) in
  ret (schema.Columns ix).

Definition getConn (pool : Pool) : M Conn :=
  let* r := ask (fun h => pool_Get E h pool) (EvPoolGet pool) in
  match r with
  | inr conn => ret conn
  | inl ErrConnPoolClosed => panic (PError ErrConnPoolClosed)
  | inl err => panic (PError (ErrTablet (NewTabletErrorSql E ErrFatal err)))
  end.

Definition generateFinalSql (parsedQuery : ParsedQuery) (bindVars : MapRef)
    (buildStreamComment : option string) : M string :=
  let* w := get_world in
  map_store bindVars "#maxLimit" (BVInt64 (Go.int64_add (maxResultSize (tunables w)) 1)) ;;;
  let* bv := map_load bindVars in
  match GenerateQuery E parsedQuery bv with
  | inl err => panic (NewTabletError ErrFail (Error E err))
  | inr sql =>
      let sql := match buildStreamComment with
                 | Some c => sql +:+ c
                 | None => sql
                 end in
      ret (restoreTrailing E sql bv)
  end.

Definition execSQLNoPanic (conn : Conn) (sql : string) (wantfields : bool)
  : M (GoError + mproto.QueryResult) :=
  defer_call (AddRewrittenSql sql)
    (let* w := get_world in
     conn_Exec_call conn sql (maxResultSize (tunables w)) wantfields).

Definition execSQL (conn : Conn) (sql : string) (wantfields : bool) : M mproto.QueryResult :=
  let* r := execSQLNoPanic conn sql true in
  match r with
  | inl err => panic (PError err)
  | inr result => ret result
  end.

Definition directFetch (conn : Conn) (parsedQuery : ParsedQuery) (bindVars : MapRef)
    (buildStreamComment : option string) : M mproto.QueryResult :=
  let* sql := generateFinalSql parsedQuery bindVars buildStreamComment in
  execSQL conn sql false.

Definition fullFetch (conn : Conn) (parsedQuery : ParsedQuery) (bindVars : MapRef)
    (buildStreamComment : option string) : M mproto.QueryResult :=
  let* sql := generateFinalSql parsedQuery bindVars buildStreamComment in
  execSQL conn sql true.

(** What a caller of [qFetch] finds in the consolidator entry. *)
Definition q_finish (q : option GoError * option mproto.QueryResult) : M mproto.QueryResult :=
  match q with
  | (Some err, _) => panic (PError err)
  | (None, Some result) => ret result
  | (None, None) => panic (PRuntime "interface conversion: interface is nil")
  end.

Definition qFetch (parsedQuery : ParsedQuery) (bindVars : MapRef) : M mproto.QueryResult :=
  let* sql := generateFinalSql parsedQuery bindVars None in
  let* ok := ask (fun h => consolidator_Create E h sql) (EvConsolidatorCreate sql) in
  if ok : bool then
    defer_call (emit (EvConsolidatorBroadcast sql))
      (let* r := ask (fun h => pool_Get E h connPool) (EvPoolGet connPool) in
       match r with
       | inl err =>
           let qerr := ErrTablet (NewTabletErrorSql E ErrFatal err) in
           emit (EvConsolidatorStore sql (inl qerr)) ;;;
           q_finish (Some qerr, None)
       | inr conn =>
           defer_call (Recycle conn)
             (let* res := execSQLNoPanic conn sql false in
              emit (EvConsolidatorStore sql res) ;;;
              q_finish (match res with
                        | inl err => (Some err, None)
                        | inr result => (None, Some result)
                        end))
       end)
  else
    modify (fun w => set_logStats
              (LogStats.or_QuerySources (QuerySourceConsolidator E) (logStats w)) w) ;;;
    let* q := ask (fun h => consolidator_Wait E h sql) (fun _ => EvConsolidatorWait sql) in
    emit (EvWaitStats "Consolidations") ;;;
    q_finish q.

Definition checkPermissions : M unit :=
  match ctx qre with
  | Background => ret tt
  | RequestContext ci =>
      let remoteAddr := match ci with Some c => RemoteAddr c | None => "" end in
      let username := match ci with Some c => Username c | None => "" end in
      let* w := get_world in
      let '(action, desc) := ExecPlan.Rules_getAction the_plan remoteAddr username (bindVars w) in
      match action with
      | QR_FAIL => panic (NewTabletError ErrFail ("Query disallowed due to rule: " +:+ desc))
      | QR_FAIL_RETRY => panic (NewTabletError ErrRetry ("Query disallowed due to rule: " +:+ desc))
      | QR_CONTINUE =>
          match ExecPlan.Authorized the_plan with
          | Some IsMember =>
              if negb (IsMember username) then
                let errStr := "table acl error: " +:+ quote E username +:+ " cannot run "
                              +:+ PlanId_String E (ExecPlan.PlanId the_plan) +:+ " on table "
                              +:+ quote E (ExecPlan.TableName the_plan) in
                if strictTableAcl (qe qre)
                then panic (NewTabletError ErrFail errStr)
                else emit (EvAccessCheckerLog errStr)
              else ret tt
          | None => ret tt
          end
      end
  end.

Definition execDDL : M mproto.QueryResult :=
  let ddlPlan := DDLParse E (query qre) in
  if String.eqb (planbuilder.Action ddlPlan) "" then
    panic (NewTabletError ErrFail "DDL is not understood")
  else
    let* txid := txPool_Begin_call in
    defer_call (txPool_SafeCommit txid)
      (let* conn := txPool_Get_call txid in
       defer_call (Recycle conn)
         (let* result := execSQL conn (query qre) false in
          (if negb (String.eqb (planbuilder.TableName ddlPlan) "")
              && negb (String.eqb (planbuilder.TableName ddlPlan) (planbuilder.NewName ddlPlan))
           then emit (EvDropTable (planbuilder.TableName ddlPlan))
           else ret tt) ;;;
          (if negb (String.eqb (planbuilder.NewName ddlPlan) "")
           then emit (EvCreateOrUpdateTable (planbuilder.NewName ddlPlan))
           else ret tt) ;;;
          ret result)).

Definition mustVerify : M bool :=
  let* r := ask (Rand E) (fun _ => EvRand) in
  let* w := get_world in
  if spotCheckMultiplier E =? 0
  then panic (PRuntime "integer divide by zero")
  else ret (Z.rem r (spotCheckMultiplier E) <? spotCheckFreq (tunables w)).

(** [recheckLater] runs on its own goroutine ten seconds later; the
    request only launches it.  [Stream] and its fetch are a separate entry
    point and are not part of this development. *)
Definition spotCheck (rcresult : RCResult) (pk : Row) : M unit :=
  emit (EvSpotCheckCount 1) ;;;
  let* cols := index0_Columns in
  let* bv := map_new {[ "#pk" := BVTupleEqualityList cols [pk] ]} in
  let* resultFromdb := qFetch (ExecPlan.OuterQuery the_plan) bv in
  let dbrow := head (mproto.Rows resultFromdb) in
  match dbrow with
  | Some dbrow' =>
      if negb (rowsAreEqual (default [] (Row_ rcresult)) dbrow')
      then emit (EvLaunchRecheck rcresult dbrow pk)
      else ret tt
  | None => emit (EvLaunchRecheck rcresult dbrow pk)
  end.

Definition lift_error {A} (r : GoError + A) : M A :=
  match r with inl err => panic (PError err) | inr a => ret a end.

(** The first loop of [fetchMulti]: cache hits go to [rows], the others
    to [missingRows]. *)
Definition fetchMulti_hit (rcresults : gmap string RCResult)
    (st : list Row * list Row * Z) (pk : Row) : M (list Row * list Row * Z) :=
  let '(rows, missingRows, hits) := st in
  let rcresult := default RCResult_zero (rcresults !! buildKey E pk) in
  match Row_ rcresult with
  | Some row =>
      let* verify := mustVerify in
      (if verify : bool then spotCheck rcresult pk else ret tt) ;;;
      ret (rows ++ [applyFilter E (ExecPlan.ColumnNumbers the_plan) row],
           missingRows, Go.int64_add hits 1)
  | None => ret (rows, missingRows ++ [pk], hits)
  end.

(** The second loop: rows read from the backend are returned and written
    back to the cache under the CAS seen by the batched [Get]. *)
Definition fetchMulti_fill (rcresults : gmap string RCResult)
    (rows : list Row) (row : Row) : M (list Row) :=
  let* ti := tableInfo_deref in
  let key := buildKey E (applyFilter E (schema.PKColumns ti) row) in
  emit (EvCacheSet key row (Cas (default RCResult_zero (rcresults !! key)))) ;;;
  ret (rows ++ [applyFilter E (ExecPlan.ColumnNumbers the_plan) row]).

Definition fetchMulti (pkRows : list Row) (limit : Z) : M mproto.QueryResult :=
  match ExecPlan.Fields the_plan with
  | None => panic (PString "unexpected")
  | Some fields =>
      let result := mproto.set_Fields (Some fields) mproto.empty in
      if (Go.len pkRows =? 0) || (limit =? 0) then ret result
      else
        let keys := map (buildKey E) pkRows in
        tableInfo_deref ;;;
        let* rcresults := ask (fun h => cache_Get E h keys) (fun _ => EvCacheGet keys) in
        let* st := for_range (fetchMulti_hit rcresults) pkRows ([], [], 0) in
        let '(rows, missingRows, hits) := st in
        let* st2 :=
          (if negb (Go.len missingRows =? 0) then
             let* cols := index0_Columns in
             let* bv := map_new {[ "#pk" := BVTupleEqualityList cols missingRows ]} in
             let* resultFromdb := qFetch (ExecPlan.OuterQuery the_plan) bv in
             let misses := Go.len (mproto.Rows resultFromdb) in
             let absent := Go.int64_sub (Go.int64_sub (Go.len pkRows) hits) misses in
             let* rows' := for_range (fetchMulti_fill rcresults) (mproto.Rows resultFromdb) rows in
             ret (rows', absent, misses)
           else ret (rows, 0, 0)) in
        let '(rows, absent, misses) := st2 in
        modify (fun w => set_logStats
                  (LogStats.or_QuerySources (QuerySourceRowcache E)
                     (LogStats.set_cache hits absent misses (logStats w))) w) ;;;
        emit (EvTableStats hits absent misses) ;;;
        let result := mproto.set_Rows rows (mproto.set_RowsAffected (Go.len rows) result) in
        if (0 <? limit) && (limit <? Go.len rows)
        then ret (mproto.set_RowsAffected limit
                    (mproto.set_Rows (take (Z.to_nat limit) rows) result))
        else ret result
  end.

Definition execPKIN : M mproto.QueryResult :=
  let* w := get_world in
  let* pkRows := lift_error (buildValueList E (ExecPlan.TableInfo the_plan)
                               (ExecPlan.PKValues the_plan) (bindVars w)) in
  let* limit := match getLimit E (ExecPlan.Limit the_plan) (bindVars w) with
                | inl p => panic p
                | inr l => ret l
                end in
  fetchMulti pkRows limit.

Definition execSubquery : M mproto.QueryResult :=
  let* innerResult := qFetch (ExecPlan.Subquery the_plan) QreBindVars in
  fetchMulti (mproto.Rows innerResult) (-1).

Definition execDirect (conn : Conn) : M mproto.QueryResult :=
  match ExecPlan.Fields the_plan with
  | Some fields =>
      let* result := directFetch conn (ExecPlan.FullQuery the_plan) QreBindVars None in
      ret (mproto.set_Fields (Some fields) result)
  | None => fullFetch conn (ExecPlan.FullQuery the_plan) QreBindVars None
  end.

Definition execSelect : M mproto.QueryResult :=
  match ExecPlan.Fields the_plan with
  | Some fields =>
      let* result := qFetch (ExecPlan.FullQuery the_plan) QreBindVars in
      ret (mproto.set_Fields (Some fields) result)
  | None =>
      let* conn := getConn connPool in
      defer_call (Recycle conn)
        (fullFetch conn (ExecPlan.FullQuery the_plan) QreBindVars None)
  end.

Definition execInsertPKRows (conn : Conn) (pkRows : list Row) : M mproto.QueryResult :=
  let* w := get_world in
  let* secondaryList := lift_error (buildSecondaryList E (ExecPlan.TableInfo the_plan) pkRows
                                      (ExecPlan.SecondaryPKValues the_plan) (bindVars w)) in
  let bsc := buildStreamComment E (ExecPlan.TableInfo the_plan) pkRows secondaryList in
  directFetch conn (ExecPlan.OuterQuery the_plan) QreBindVars bsc.

Definition execInsertPK (conn : Conn) : M mproto.QueryResult :=
  let* w := get_world in
  let* pkRows := lift_error (buildValueList E (ExecPlan.TableInfo the_plan)
                               (ExecPlan.PKValues the_plan) (bindVars w)) in
  execInsertPKRows conn pkRows.

Definition execInsertSubquery (conn : Conn) : M mproto.QueryResult :=
  let* innerResult := directFetch conn (ExecPlan.Subquery the_plan) QreBindVars None in
  let innerRows := mproto.Rows innerResult in
  match innerRows with
  | [] => ret (mproto.set_RowsAffected 0 mproto.empty)
  | innerRow0 :: _ =>
      if negb (Go.len (ExecPlan.ColumnNumbers the_plan) =? Go.len innerRow0) then
        panic (NewTabletError ErrFail "Subquery length does not match column list")
      else
        let pkRows := map (applyFilterWithPKDefaults E (ExecPlan.TableInfo the_plan)
                             (ExecPlan.SubqueryPKColumns the_plan)) innerRows in
        let* ti := tableInfo_deref in
        let* pkRow0 := lift_option "index out of range" (head pkRows) in
        match validateRow E (ExecPlan.TableInfo the_plan) (schema.PKColumns ti) pkRow0 with
        | Some err => panic (PError err)
        | None =>
            map_store QreBindVars "#values" (BVRows innerRows) ;;;
            execInsertPKRows conn pkRows
        end
  end.

(** The batch loop of [execDMLPKRows]; [i] is the loop index and [fuel]
    bounds the number of iterations. *)
Fixpoint execDMLPKRows_loop (fuel : nat) (conn : Conn) (pkRows : list Row)
    (secondaryList : option (list Row)) (maxRows : Z) (i : Z)
    (result : mproto.QueryResult) : M mproto.QueryResult :=
  if negb (i <? Go.len pkRows) then ret result
  else
    match fuel with
    | O => fun _ => OutOfFuel
    | S fuel' =>
        let end_ := Go.int64_add i maxRows in
        let end_ := if Go.len pkRows <=? end_ then Go.len pkRows else end_ in
        let* batch := lift_option "slice bounds out of range" (Go.slice pkRows i end_) in
        let* batchSecondary :=
          match secondaryList with
          | Some sl =>
              let* s := lift_option "slice bounds out of range" (Go.slice sl i end_) in
              ret (Some s)
          | None => ret None
          end in
        let bsc := buildStreamComment E (ExecPlan.TableInfo the_plan) batch batchSecondary in
        let* cols := index0_Columns in
        map_store QreBindVars "#pk" (BVTupleEqualityList cols batch) ;;;
        let* r := directFetch conn (ExecPlan.OuterQuery the_plan) QreBindVars bsc in
        let result := mproto.set_RowsAffected
                        (Go.uint64_add (mproto.RowsAffected result) (mproto.RowsAffected r))
                        result in
        execDMLPKRows_loop fuel' conn pkRows secondaryList maxRows (Go.int64_add i maxRows) result
    end.

Definition execDMLPKRows (fuel : nat) (conn : Conn) (pkRows : list Row)
    (invalidator : option Invalidator) : M mproto.QueryResult :=
  if Go.len pkRows =? 0 then ret (mproto.set_RowsAffected 0 mproto.empty)
  else
    let* w := get_world in
    let* secondaryList := lift_error (buildSecondaryList E (ExecPlan.TableInfo the_plan) pkRows
                                        (ExecPlan.SecondaryPKValues the_plan) (bindVars w)) in
    let maxRows := maxDMLRows (tunables w) in
    let* result := execDMLPKRows_loop fuel conn pkRows secondaryList maxRows 0 mproto.empty in
    match invalidator with
    | None => ret result
    | Some inv =>
        for_range (fun (_ : unit) pk => emit (EvInvalidatorDelete inv (buildKey E pk)))
                  pkRows tt ;;;
        ret result
    end.

Definition execDMLPK (fuel : nat) (conn : Conn) (invalidator : option Invalidator)
  : M mproto.QueryResult :=
  let* w := get_world in
  let* pkRows := lift_error (buildValueList E (ExecPlan.TableInfo the_plan)
                               (ExecPlan.PKValues the_plan) (bindVars w)) in
  execDMLPKRows fuel conn pkRows invalidator.

Definition execDMLSubquery (fuel : nat) (conn : Conn) (invalidator : option Invalidator)
  : M mproto.QueryResult :=
  let* innerResult := directFetch conn (ExecPlan.Subquery the_plan) QreBindVars None in
  execDMLPKRows fuel conn (mproto.Rows innerResult) invalidator.

Definition getFloat64 (v : SetVal) : M Z :=
  match v with
  | SVInt64 n => ret (int64_to_float64 E n)
  | SVFloat64 bits => ret bits
  | SVOther _ => panic (NewTabletError ErrFail "expecting number")
  end.

Definition getDuration (v : SetVal) : M Z :=
  let* f := getFloat64 v in ret (float64_to_duration E f).

Definition modify_tunables (f : Tunables -> Tunables) : M unit :=
  modify (fun w => set_tunables (f (tunables w)) w).

Definition execSet : M mproto.QueryResult :=
  let key := ExecPlan.SetKey the_plan in
  let value := ExecPlan.SetValue the_plan in
  let done := ret mproto.empty in
  if String.eqb key "vt_pool_size" then
    let* n := getInt64 value in emit (EvSetCapacity connPool n) ;;; done
  else if String.eqb key "vt_stream_pool_size" then
    let* n := getInt64 value in emit (EvSetCapacity streamConnPool n) ;;; done
  else if String.eqb key "vt_transaction_cap" then
    let* n := getInt64 value in emit (EvSetCapacity txPool n) ;;; done
  else if String.eqb key "vt_transaction_timeout" then
    let* d := getDuration value in emit (EvSetTimeout d) ;;; done
  else if String.eqb key "vt_schema_reload_time" then
    let* d := getDuration value in emit (EvSetReloadTime d) ;;; done
  else if String.eqb key "vt_query_cache_size" then
    let* n := getInt64 value in emit (EvSetQueryCacheSize n) ;;; done
  else if String.eqb key "vt_max_result_size" then
    let* val := getInt64 value in
    if val <? 1 then
      panic (NewTabletError ErrFail ("vt_max_result_size out of range " +:+ pretty val))
    else modify_tunables (set_maxResultSize val) ;;; done
  else if String.eqb key "vt_max_dml_rows" then
    let* val := getInt64 value in
    if val <? 1 then
      panic (NewTabletError ErrFail ("vt_max_dml_rows out of range " +:+ pretty val))
    else modify_tunables (set_maxDMLRows val) ;;; done
  else if String.eqb key "vt_stream_buffer_size" then
    let* val := getInt64 value in
    if val <? 1024 then
      panic (NewTabletError ErrFail ("vt_stream_buffer_size out of range " +:+ pretty val))
    else modify_tunables (set_streamBufferSize val) ;;; done
  else if String.eqb key "vt_query_timeout" then
    let* d := getDuration value in modify_tunables (set_queryTimeout d) ;;; done
  else if String.eqb key "vt_idle_timeout" then
    let* t := getDuration value in
    emit (EvSetIdleTimeout connPool t) ;;;
    emit (EvSetIdleTimeout streamConnPool t) ;;;
    emit (EvSetIdleTimeout txPool t) ;;;
    done
  else if String.eqb key "vt_spot_check_ratio" then
    let* f := getFloat64 value in
    modify_tunables (set_spotCheckFreq (float64_to_spotCheckFreq E f)) ;;; done
  else if String.eqb key "vt_strict_mode" then
    let* n := getInt64 value in modify_tunables (set_strictMode n) ;;; done
  else if String.eqb key "vt_txpool_timeout" then
    let* t := getDuration value in emit (EvSetPoolTimeout t) ;;; done
  else
    let* conn := getConn connPool in
    defer_call (Recycle conn)
      (directFetch conn (ExecPlan.FullQuery the_plan) QreBindVars None).

(** [conn.DirtyKeys(tableName)] when the table has a row cache. *)
Definition make_invalidator (conn : Conn) : M (option Invalidator) :=
  match ExecPlan.TableInfo the_plan with
  | Some ti =>
      match schema.CacheType ti with
      | schema.CACHE_NONE => ret None
      | _ =>
          emit (EvDirtyKeys conn (ExecPlan.TableName the_plan)) ;;;
          ret (Some {| inv_conn := conn; inv_table := ExecPlan.TableName the_plan |})
      end
  | None => ret None
  end.

Definition strict_check : M unit :=
  let* w := get_world in
  if negb (strictMode (tunables w) =? 0)
  then panic (NewTabletError ErrFail "DML too complex")
  else ret tt.

Definition some {A} (m : M A) : M (option A) :=
  let* a := m in ret (Some a).

Definition execDmlAutoCommit (fuel : nat) : M (option mproto.QueryResult) :=
  let* transactionID := txPool_Begin_call in
  AddRewrittenSql "begin" ;;;
  defer_recover
    (fun err =>
       match err with
       | None =>
           qe_Commit_call transactionID ;;;
           AddRewrittenSql "commit"
       | Some e =>
           txPool_Rollback transactionID ;;;
           AddRewrittenSql "rollback" ;;;
           panic e
       end)
    None
    (let* conn := txPool_Get_call transactionID in
     defer_call (Recycle conn)
       (let* invalidator := make_invalidator conn in
        match ExecPlan.PlanId the_plan with
        | planbuilder.PLAN_PASS_DML =>
            strict_check ;;;
            some (directFetch conn (ExecPlan.FullQuery the_plan) QreBindVars None)
        | planbuilder.PLAN_INSERT_PK => some (execInsertPK conn)
        | planbuilder.PLAN_INSERT_SUBQUERY => some (execInsertSubquery conn)
        | planbuilder.PLAN_DML_PK => some (execDMLPK fuel conn invalidator)
        | planbuilder.PLAN_DML_SUBQUERY => some (execDMLSubquery fuel conn invalidator)
        | _ => panic (NewTabletError ErrFatal ("unsupported query: " +:+ query qre))
        end)).

(** The deferred closure of [Execute]: per-plan and per-query stats. *)
Definition Execute_stats (planName : string) (reply : option mproto.QueryResult) : M unit :=
  emit (EvQueryStats planName) ;;;
  match reply with
  | None => emit (EvPlanStats 1 0 1)
  | Some r =>
      emit (EvPlanStats 1 (Go.wrap64 (mproto.RowsAffected r)) 0) ;;;
      modify (fun w => set_logStats
                (LogStats.set_result (Go.wrap64 (mproto.RowsAffected r)) (mproto.Rows r)
                   (logStats w)) w) ;;;
      emit (EvResultStats (Go.len (mproto.Rows r)))
  end.

Definition Execute (fuel : nat) : M (option mproto.QueryResult) :=
  let planName := PlanId_String E (ExecPlan.PlanId the_plan) in
  modify (fun w => set_logStats
            (LogStats.set_header (query qre) (Some QreBindVars) (transactionID qre) planName
               (logStats w)) w) ;;;
  defer_named (Execute_stats planName)
    (checkPermissions ;;;
     match ExecPlan.PlanId the_plan with
     | planbuilder.PLAN_DDL => some execDDL
     | planId =>
         if negb (transactionID qre =? 0) then
           let* conn := txPool_Get_call (transactionID qre) in
           defer_call (Recycle conn)
             (emit (EvRecordQuery conn (query qre)) ;;;
              let* invalidator := make_invalidator conn in
              match planId with
              | planbuilder.PLAN_PASS_DML =>
                  strict_check ;;;
                  some (directFetch conn (ExecPlan.FullQuery the_plan) QreBindVars None)
              | planbuilder.PLAN_INSERT_PK => some (execInsertPK conn)
              | planbuilder.PLAN_INSERT_SUBQUERY => some (execInsertSubquery conn)
              | planbuilder.PLAN_DML_PK => some (execDMLPK fuel conn invalidator)
              | planbuilder.PLAN_DML_SUBQUERY => some (execDMLSubquery fuel conn invalidator)
              | planbuilder.PLAN_OTHER => some (execSQL conn (query qre) true)
              | _ => some (execDirect conn)
              end)
         else
           match planId with
           | planbuilder.PLAN_PASS_SELECT =>
               match ExecPlan.Reason the_plan with
               | planbuilder.REASON_LOCK =>
                   panic (NewTabletError ErrFail "Disallowed outside transaction")
               | _ => some execSelect
               end
           | planbuilder.PLAN_PK_IN => some execPKIN
           | planbuilder.PLAN_SELECT_SUBQUERY => some execSubquery
           | planbuilder.PLAN_SET => some execSet
           | planbuilder.PLAN_OTHER =>
               let* conn := getConn connPool in
               defer_call (Recycle conn) (some (execSQL conn (query qre) true))
           | _ =>
               if negb (enableAutoCommit (qe qre)) then
                 panic (NewTabletError ErrFatal ("unsupported query: " +:+ query qre))
               else execDmlAutoCommit fuel
           end
     end).

End Executor.

(** ** A concrete tablet, used to run the executor on examples *)

Module Scenario.

Definition okResult (n : Z) (rows : list Row) : mproto.QueryResult :=
  {| mproto.Fields := None; mproto.RowsAffected := n; mproto.InsertId := 0;
     mproto.Rows := rows |}.

(** A backend that affects one row per statement, returns no rows, and
    refuses a result larger than [maxrows]. *)
Definition backend (h : History) (c : Conn) (sql : string) (maxrows : Z) (wantfields : bool)
  : GoError + mproto.QueryResult :=
  if maxrows <? 0 then inl (ErrOther "Row count exceeded") else inr (okResult 1 []).

Definition pkOf (b : BindValue) : option Row :=
  match b with BVValue v => Some [v] | _ => None end.

Definition collab : Collaborators :=
  {| buildValueList := fun _ pkv _ => inr (omap pkOf pkv);
     buildSecondaryList := fun _ _ _ _ => inr None;
     buildStreamComment := fun _ rows _ => Some " /* _stream */";
     buildKey := fun row => String.concat "." (map Value_String row);
     applyFilter := fun cols row => omap (fun c => row !! Z.to_nat c) cols;
     applyFilterWithPKDefaults := fun _ cols row => omap (fun c => row !! Z.to_nat c) cols;
     validateRow := fun _ _ _ => None;
     getLimit := fun _ _ => inr (-1);
     restoreTrailing := fun sql _ => sql;
     GenerateQuery := fun pq _ => inr (Query pq);
     DDLParse := fun q => {| planbuilder.Action := "alter"; planbuilder.TableName := "t";
                             planbuilder.NewName := "t" |};
     NewTabletErrorSql := fun k _ => {| ErrorType := k; Message := "sql error" |};
     Error := fun _ => "error";
     PlanId_String := fun _ => "PLAN";
     quote := fun s => s;
     spotCheckMultiplier := 1000000;
     QuerySourceRowcache := 1;
     QuerySourceConsolidator := 2;
     int64_to_float64 := fun n => n;
     float64_to_duration := fun f => f;
     float64_to_spotCheckFreq := fun f => f;
     pool_Get := fun _ _ => inr 7%nat;
     txPool_Get := fun _ _ => inr 3%nat;
     txPool_Begin := fun _ => inr 42;
     qe_Commit := fun _ _ => None;
     conn_Exec := backend;
     consolidator_Create := fun _ _ => true;
     consolidator_Wait := fun _ _ => (None, Some (okResult 0 []));
     cache_Get := fun _ _ => ∅;
     Rand := fun _ => 0 |}.

Definition table : schema.TableInfo :=
  {| schema.Name := "t"; schema.CacheType := schema.CACHE_RW;
     schema.PKColumns := [0]; schema.Indexes := [ {| schema.Columns := ["id"] |} ] |}.

Definition mkPlan (id : planbuilder.PlanType) (setKey : string) (setValue : SetVal)
    (pks : list BindValue) (rules : string -> string -> BindVars -> Action * string)
  : ExecPlan.t :=
  {| ExecPlan.PlanId := id; ExecPlan.Reason := planbuilder.REASON_DEFAULT;
     ExecPlan.TableName := "t"; ExecPlan.TableInfo := Some table;
     ExecPlan.FullQuery := {| Query := "full" |};
     ExecPlan.OuterQuery := {| Query := "outer" |};
     ExecPlan.Subquery := {| Query := "sub" |};
     ExecPlan.PKValues := pks; ExecPlan.SecondaryPKValues := [];
     ExecPlan.SubqueryPKColumns := [0]; ExecPlan.ColumnNumbers := [0];
     ExecPlan.Fields := Some [ {| mproto.Name := "id"; mproto.Type_ := 3 |} ];
     ExecPlan.Limit := None; ExecPlan.SetKey := setKey; ExecPlan.SetValue := setValue;
     ExecPlan.Rules_getAction := rules; ExecPlan.Authorized := None |}.

Definition noRules : string -> string -> BindVars -> Action * string :=
  fun _ _ _ => (QR_CONTINUE, "").

Definition engine : QueryEngine := {| enableAutoCommit := true; strictTableAcl := false |}.

Definition mkQre (txid : Z) (c : Context) (p : ExecPlan.t) : QueryExecutor :=
  {| query := "q"; transactionID := txid; plan := p; ctx := c; qe := engine |}.

Definition settings (strict : Z) : Tunables :=
  {| maxResultSize := 10000; maxDMLRows := 2; streamBufferSize := 32768;
     strictMode := strict; spotCheckFreq := 0; queryTimeout := 0 |}.

Definition world (strict : Z) : World :=
  {| history := []; bindVars := ∅; localMaps := []; tunables := settings strict;
     logStats := LogStats.zero |}.

Definition pk (s : string) : BindValue := BVValue (VRaw s).

(** The same tablet on another backend. *)
Definition on_backend
    (exec : History -> Conn -> string -> Z -> bool -> GoError + mproto.QueryResult)
    (E : Collaborators) : Collaborators :=
  {| buildValueList := buildValueList E;
     buildSecondaryList := buildSecondaryList E;
     buildStreamComment := buildStreamComment E;
     buildKey := buildKey E;
     applyFilter := applyFilter E;
     applyFilterWithPKDefaults := applyFilterWithPKDefaults E;
     validateRow := validateRow E;
     getLimit := getLimit E;
     restoreTrailing := restoreTrailing E;
     GenerateQuery := GenerateQuery E;
     DDLParse := DDLParse E;
     NewTabletErrorSql := NewTabletErrorSql E;
     Error := Error E;
     PlanId_String := PlanId_String E;
     quote := quote E;
     spotCheckMultiplier := spotCheckMultiplier E;
     QuerySourceRowcache := QuerySourceRowcache E;
     QuerySourceConsolidator := QuerySourceConsolidator E;
     int64_to_float64 := int64_to_float64 E;
     float64_to_duration := float64_to_duration E;
     float64_to_spotCheckFreq := float64_to_spotCheckFreq E;
     pool_Get := pool_Get E;
     txPool_Get := txPool_Get E;
     txPool_Begin := txPool_Begin E;
     qe_Commit := qe_Commit E;
     conn_Exec := exec;
     consolidator_Create := consolidator_Create E;
     consolidator_Wait := consolidator_Wait E;
     cache_Get := cache_Get E;
     Rand := Rand E |}.

(** A backend that answers every statement with the rows 1, 2, 3. *)
Definition reading : Collaborators :=
  on_backend (fun _ _ _ _ _ => inr (okResult 0 [[VRaw "1"]; [VRaw "2"]; [VRaw "3"]])) collab.

(** A backend that fails every statement. *)
Definition failing : Collaborators :=
  on_backend (fun _ _ _ _ _ => inl (ErrOther "Duplicate entry")) collab.

Definition client : Context :=
  RequestContext (Some {| RemoteAddr := "10.0.0.1"; Username := "app" |}).

End Scenario.

(** * Properties *)

(** ** Running the basic steps *)

Definition final_world {A} (o : Outcome A) : option World :=
  match o with Ret _ w | Panic _ w => Some w | OutOfFuel => None end.

(** The world after one statement went to the backend: the call is in the
    history and the statement in the stats log. *)
Definition after_Exec (conn : Conn) (sql : string) (wantfields : bool)
    (answer : GoError + mproto.QueryResult) (w : World) : World :=
  set_logStats (LogStats.AddRewrittenSql sql (logStats w))
    (set_history
       (history w ++ [EvExec conn sql (maxResultSize (tunables w)) wantfields answer]) w).

Lemma execSQLNoPanic_run E conn sql wantfields w :
  execSQLNoPanic E conn sql wantfields w =
  let answer := conn_Exec E (history w) conn sql (maxResultSize (tunables w)) wantfields in
  Ret answer (after_Exec conn sql wantfields answer w).
Proof. reflexivity. Qed.

Lemma execSQL_run E conn sql wantfields w :
  execSQL E conn sql wantfields w =
  let answer := conn_Exec E (history w) conn sql (maxResultSize (tunables w)) true in
  match answer with
  | inl err => Panic (PError err) (after_Exec conn sql true answer w)
  | inr result => Ret result (after_Exec conn sql true answer w)
  end.
Proof.
  unfold execSQL, bind. rewrite execSQLNoPanic_run. cbv zeta.
  destruct (conn_Exec E _ conn sql _ true); reflexivity.
Qed.

(** C9: whatever [wantfields] the caller of [execSQL] passes, the backend
    call it makes is [conn.Exec(ctx, sql, maxResultSize, true)]: the history
    grows by exactly that call, and the outcome is the backend's answer. *)
Theorem execSQL_wantfields_is_true E conn sql wantfields w :
  exists answer,
    answer = conn_Exec E (history w) conn sql (maxResultSize (tunables w)) true
    /\ execSQL E conn sql wantfields w =
       match answer with
       | inl err => Panic (PError err) (after_Exec conn sql true answer w)
       | inr result => Ret result (after_Exec conn sql true answer w)
       end
    /\ history (after_Exec conn sql true answer w) =
       history w ++ [EvExec conn sql (maxResultSize (tunables w)) true answer]
    /\ execSQL E conn sql wantfields w = execSQL E conn sql (negb wantfields) w.
Proof.
  eexists; split; [reflexivity|].
  split; [apply execSQL_run|].
  split; [reflexivity|].
  rewrite !execSQL_run. reflexivity.
Qed.

(** ** SET on a sized tunable *)




(** ** The policy gate *)

Definition caller_addr (ci : option CallInfo) : string :=
  match ci with Some c => RemoteAddr c | None => "" end.
Definition caller_name (ci : option CallInfo) : string :=
  match ci with Some c => Username c | None => "" end.

(** The table-ACL step, following the spec: if [Authorized] is present and
    does not contain the user, the failure is terminal in strict mode and
    only logged otherwise. *)
Definition tableAcl_outcome (E : Collaborators) (qre : QueryExecutor) (username : string)
    (w : World) : Outcome unit :=
  let errStr := "table acl error: " +:+ quote E username +:+ " cannot run "
                +:+ PlanId_String E (ExecPlan.PlanId (plan qre)) +:+ " on table "
                +:+ quote E (ExecPlan.TableName (plan qre)) in
  match ExecPlan.Authorized (plan qre) with
  | None => Ret tt w
  | Some IsMember =>
      if IsMember username then Ret tt w
      else if strictTableAcl (qe qre)
           then Panic (NewTabletError ErrFail errStr) w
           else Ret tt (set_history (history w ++ [EvAccessCheckerLog errStr]) w)
  end.

(** C7: under [context.Background()] the gate returns at once, whatever
    the rules and the ACL say.  Under any other context the rules are
    evaluated on (remote address, user name, bind variables): [QR_FAIL] is
    an [ErrFail] and [QR_FAIL_RETRY] an [ErrRetry], both naming the rule;
    otherwise the table-ACL step decides. *)
Theorem checkPermissions_gate E qre w :
  (ctx qre = Background -> checkPermissions E qre w = Ret tt w)
  /\ (forall ci action desc,
        ctx qre = RequestContext ci ->
        ExecPlan.Rules_getAction (plan qre) (caller_addr ci) (caller_name ci) (bindVars w)
        = (action, desc) ->
        checkPermissions E qre w =
        match action with
        | QR_FAIL =>
            Panic (NewTabletError ErrFail ("Query disallowed due to rule: " +:+ desc)) w
        | QR_FAIL_RETRY =>
            Panic (NewTabletError ErrRetry ("Query disallowed due to rule: " +:+ desc)) w
        | QR_CONTINUE => tableAcl_outcome E qre (caller_name ci) w
        end).
Proof.
  split.
  - intros Hctx. unfold checkPermissions. rewrite Hctx. reflexivity.
  - intros ci action desc Hctx Hact. unfold checkPermissions, tableAcl_outcome.
    rewrite Hctx. unfold bind, get_world. fold (caller_addr ci) (caller_name ci).
    rewrite Hact. destruct action; try reflexivity.
    destruct (ExecPlan.Authorized (plan qre)) as [IsMember|]; [|reflexivity].
    destruct (IsMember (caller_name ci)); [reflexivity|].
    cbn [negb]. destruct (strictTableAcl (qe qre)); reflexivity.
Qed.

(** A rule that fails every query stops a client but not a background
    request. *)
Lemma checkPermissions_gate_witness :
  let deny : string -> string -> BindVars -> Action * string :=
    fun _ _ _ => (QR_FAIL_RETRY, "maintenance") in
  let p := Scenario.mkPlan planbuilder.PLAN_PASS_SELECT "" (SVInt64 0) [] deny in
  checkPermissions Scenario.collab (Scenario.mkQre 0 Background p) (Scenario.world 0)
  = Ret tt (Scenario.world 0)
  /\ checkPermissions Scenario.collab (Scenario.mkQre 0 Scenario.client p) (Scenario.world 0)
     = Panic (NewTabletError ErrRetry "Query disallowed due to rule: maintenance")
         (Scenario.world 0).
Proof.
  intros deny p. split.
  - exact (proj1 (checkPermissions_gate Scenario.collab (Scenario.mkQre 0 Background p)
                    (Scenario.world 0)) eq_refl).
  - exact (proj2 (checkPermissions_gate Scenario.collab (Scenario.mkQre 0 Scenario.client p)
                    (Scenario.world 0)) _ QR_FAIL_RETRY "maintenance" eq_refl eq_refl).
Defined.

(** ** Final SQL generation *)

Definition ref_get (r : MapRef) (w : World) : option BindVars :=
  match r with
  | QreBindVars => Some (bindVars w)
  | LocalMap n => localMaps w !! n
  end.

Definition ref_set (r : MapRef) (m : BindVars) (w : World) : World :=
  match r with
  | QreBindVars => set_bindVars m w
  | LocalMap n => set_localMaps (<[n := m]> (localMaps w)) w
  end.

Definition maxLimit_of (w : World) : Z := Go.int64_add (maxResultSize (tunables w)) 1.

Definition with_maxLimit (w : World) (m : BindVars) : BindVars :=
  <["#maxLimit" := BVInt64 (maxLimit_of w)]> m.

(** The text [generateFinalSql] produces from a template, a stream comment
    and the bind variables it is given. *)
Definition final_sql (E : Collaborators) (pq : ParsedQuery) (bsc : option string)
    (bv : BindVars) : GoError + string :=
  match GenerateQuery E pq bv with
  | inl err => inl err
  | inr sql =>
      inr (restoreTrailing E (match bsc with Some c => sql +:+ c | None => sql end) bv)
  end.

(** Modelled from the spec: [DBConn.Exec] is declared with the connection
    pool; it fails when the backend produces more than [maxrows] rows
    ("a result exceeding maxResultSize rows is an error"). *)
Definition Exec_caps_rows (E : Collaborators) : Prop :=
  forall h conn sql maxrows wantfields result,
    conn_Exec E h conn sql maxrows wantfields = inr result ->
    Go.len (mproto.Rows result) <= maxrows.

Lemma generateFinalSql_run E pq r bsc w m :
  ref_get r w = Some m ->
  generateFinalSql E pq r bsc w =
  match final_sql E pq bsc (with_maxLimit w m) with
  | inl err => Panic (NewTabletError ErrFail (Error E err)) (ref_set r (with_maxLimit w m) w)
  | inr sql => Ret sql (ref_set r (with_maxLimit w m) w)
  end.
Proof.
  intros Hm. unfold generateFinalSql, final_sql, bind, get_world, map_store, map_load.
  destruct r as [|n]; cbn in Hm |- *.
  - injection Hm as <-. fold (maxLimit_of w) (with_maxLimit w (bindVars w)).
    destruct (GenerateQuery E pq _); reflexivity.
  - rewrite Hm. cbn.
    rewrite list_lookup_insert_eq by (eapply lookup_lt_Some; eassumption).
    fold (maxLimit_of w) (with_maxLimit w m).
    destruct (GenerateQuery E pq _); reflexivity.
Qed.

Lemma wrap64_small z : - 2 ^ 63 <= z < 2 ^ 63 -> Go.wrap64 z = z.
Proof.
  intros H. unfold Go.wrap64.
  rewrite Z.mod_small by lia. lia.
Qed.

(** ** One statement on a given connection *)

Lemma directFetch_run E conn pq bsc w :
  directFetch E conn pq QreBindVars bsc w =
  let bv := with_maxLimit w (bindVars w) in
  let w1 := set_bindVars bv w in
  match final_sql E pq bsc bv with
  | inl err => Panic (NewTabletError ErrFail (Error E err)) w1
  | inr sql =>
      let answer := conn_Exec E (history w) conn sql (maxResultSize (tunables w)) true in
      match answer with
      | inl err => Panic (PError err) (after_Exec conn sql true answer w1)
      | inr result => Ret result (after_Exec conn sql true answer w1)
      end
  end.
Proof.
  unfold directFetch, bind.
  rewrite (generateFinalSql_run E pq QreBindVars bsc w (bindVars w) eq_refl).
  cbv zeta. destruct (final_sql E pq bsc _) as [err|sql]; [reflexivity|].
  rewrite execSQL_run. reflexivity.
Qed.

(** ** DML without target rows *)

(** C10: with no target PK rows [execDMLPKRows] returns [RowsAffected = 0]
    and leaves the world as it found it: nothing is sent to the backend and
    nothing is given to the invalidator.  [execInsertSubquery] whose
    subquery returns no row returns [RowsAffected = 0] in the world the
    subquery left: the subquery is the only statement in the history. *)
Theorem empty_target_is_noop E qre fuel conn invalidator w :
  execDMLPKRows E qre fuel conn [] invalidator w
  = Ret (mproto.set_RowsAffected 0 mproto.empty) w
  /\ (forall inner w1,
        directFetch E conn (ExecPlan.Subquery (plan qre)) QreBindVars None w = Ret inner w1 ->
        mproto.Rows inner = [] ->
        execInsertSubquery E qre conn w = Ret (mproto.set_RowsAffected 0 mproto.empty) w1
        /\ exists sql,
             final_sql E (ExecPlan.Subquery (plan qre)) None (with_maxLimit w (bindVars w))
             = inr sql
             /\ history w1
                = history w ++ [EvExec conn sql (maxResultSize (tunables w)) true (inr inner)]).
Proof.
  split; [reflexivity|].
  intros inner w1 Hsub Hrows. split.
  - unfold execInsertSubquery, bind. rewrite Hsub, Hrows. reflexivity.
  - rewrite directFetch_run in Hsub. cbv zeta in Hsub.
    destruct (final_sql E _ None _) as [err|sql]; [discriminate|].
    exists sql. split; [reflexivity|].
    destruct (conn_Exec E (history w) conn sql _ true) as [err|result] eqn:Hans;
      [discriminate|].
    injection Hsub as <- <-. reflexivity.
Qed.

(** On the sample tablet the subquery returns no row. *)
Lemma empty_target_is_noop_witness :
  let q := Scenario.mkQre 5 Scenario.client
             (Scenario.mkPlan planbuilder.PLAN_INSERT_SUBQUERY "" (SVInt64 0) []
                Scenario.noRules) in
  exists w1,
    execInsertSubquery Scenario.collab q 3%nat (Scenario.world 0)
    = Ret (mproto.set_RowsAffected 0 mproto.empty) w1
    /\ history w1 = [EvExec 3%nat "sub" 10000 true (inr (Scenario.okResult 1 []))].
Proof.
  intros q.
  destruct (proj2 (empty_target_is_noop Scenario.collab q 0 3%nat None (Scenario.world 0))
              (Scenario.okResult 1 []) _ eq_refl eq_refl) as (Hrun & sql & Hsql & Hhist).
  eexists. split; [exact Hrun|].
  injection Hsql as <-. exact Hhist.
Defined.

(** ** Frame properties of the whole executor

    A relation [R] between the world before and after that is a preorder,
    holds of every single update the executor makes, and is restored when
    a connection that was checked out is recycled, holds between the world
    a function of the executor starts in and the world it leaves, whether
    it returns or panics.  [allowed] is the set of statements [R] lets
    through to the backend; [F] is what is known of the starting world
    when the batch loop runs out of fuel. *)

Definition checkout_of (e : Event) : option Conn :=
  match e with
  | EvPoolGet _ (inr c) => Some c
  | EvTxPoolGet _ (inr c) => Some c
  | _ => None
  end.

Definition recycle_of (e : Event) : option Conn :=
  match e with EvRecycle c => Some c | _ => None end.

Definition neutral (e : Event) : Prop := checkout_of e = None /\ recycle_of e = None.

Definition log_grows (s s' : LogStats.t) : Prop :=
  exists l, LogStats.rewrittenSqls s' = LogStats.rewrittenSqls s ++ l.

Definition push (e : Event) (w : World) : World := set_history (history w ++ [e]) w.

(** The statements of a request come from two places: the templates of
    its plan, through [generateFinalSql], and the text of the query as the
    client sent it, which the DDL and OTHER plans hand to [execSQL]. *)
Definition templates (p : ExecPlan.t) : list ParsedQuery :=
  [ExecPlan.FullQuery p; ExecPlan.OuterQuery p; ExecPlan.Subquery p].

Definition generated (E : Collaborators) (p : ExecPlan.t) (sql : string) : Prop :=
  exists pq r bsc w w',
    In pq (templates p) /\ generateFinalSql E pq r bsc w = Ret sql w'.

Definition raw (qre : QueryExecutor) (sql : string) : Prop :=
  sql = query qre
  /\ (ExecPlan.PlanId (plan qre) = planbuilder.PLAN_DDL
      \/ ExecPlan.PlanId (plan qre) = planbuilder.PLAN_OTHER).

(** An event is permitted when the statement it sends, if it sends one,
    is; a template can be sent when all that [generateFinalSql] makes of
    it is. *)
Definition permitted (allowed : string -> Prop) (e : Event) : Prop :=
  match e with
  | EvExec _ sql _ _ _ => allowed sql
  | _ => True
  end.

Definition sendable (allowed : string -> Prop) (E : Collaborators) (pq : ParsedQuery) : Prop :=
  forall r bsc w sql w', generateFinalSql E pq r bsc w = Ret sql w' -> allowed sql.

Section Frame.

Variable R : World -> World -> Prop.
Variable allowed : string -> Prop.
Hypothesis R_refl : forall w, R w w.
Hypothesis R_trans : forall a b c, R a b -> R b c -> R a c.
Hypothesis R_event : forall e w, neutral e -> permitted allowed e -> R w (push e w).
Hypothesis R_bindVars : forall m w, R w (set_bindVars m w).
Hypothesis R_localMaps : forall l w, R w (set_localMaps l w).
Hypothesis R_logStats : forall s w, log_grows (logStats w) s -> R w (set_logStats s w).
Hypothesis R_checkout : forall g c w w',
  checkout_of g = Some c -> R (push g w) w' -> R w (push (EvRecycle c) w').

Variable F : World -> Prop.
Hypothesis F_back : forall w w', R w w' -> F w' -> F w.
Hypothesis F_push : forall e w, F (push e w) -> F w.

Definition post {A} (m : M A) : Prop :=
  forall w, match m w with
            | Ret _ w' => R w w'
            | Panic _ w' => R w w'
            | OutOfFuel => F w
            end.

Lemma post_ret {A} (a : A) : post (ret a).
Proof. intros w. apply R_refl. Qed.

Lemma post_panic {A} p : post (@panic A p).
Proof. intros w. apply R_refl. Qed.

Lemma post_get_world : post get_world.
Proof. intros w. apply R_refl. Qed.

Lemma post_bind {A B} (m : M A) (k : A -> M B) :
  post m -> (forall a, post (k a)) -> post (bind m k).
Proof.
  intros Hm Hk w. unfold bind. specialize (Hm w).
  destruct (m w) as [a w1|p w1|]; [|exact Hm|exact Hm].
  specialize (Hk a w1). destruct (k a w1); eauto.
Qed.

Lemma post_bind_val {A B} (m : M A) (k : A -> M B) :
  post m -> (forall a, (exists w w', m w = Ret a w') -> post (k a)) -> post (bind m k).
Proof.
  intros Hm Hk w. unfold bind. specialize (Hm w).
  destruct (m w) as [a w1|p w1|] eqn:Hrun; [|exact Hm|exact Hm].
  specialize (Hk a (ex_intro _ w (ex_intro _ w1 Hrun)) w1). destruct (k a w1); eauto.
Qed.

Lemma post_defer_call {A} (d : M unit) (rest : M A) :
  post d -> post rest -> post (defer_call d rest).
Proof.
  intros Hd Hr w. unfold defer_call. specialize (Hr w).
  destruct (rest w) as [a w1|p w1|]; [| |exact Hr];
    specialize (Hd w1); destruct (d w1); eauto.
Qed.

Lemma post_defer_named {A} (d : option A -> M unit) (rest : M (option A)) :
  (forall a, post (d a)) -> post rest -> post (defer_named d rest).
Proof.
  intros Hd Hr w. unfold defer_named. specialize (Hr w).
  destruct (rest w) as [a w1|p w1|]; [| |exact Hr].
  - specialize (Hd a w1). destruct (d a w1); eauto.
  - specialize (Hd None w1). destruct (d None w1); eauto.
Qed.

Lemma post_defer_recover {A} (d : option PanicVal -> M unit) (zero : A) (rest : M A) :
  (forall e, post (d e)) -> post rest -> post (defer_recover d zero rest).
Proof.
  intros Hd Hr w. unfold defer_recover. specialize (Hr w).
  destruct (rest w) as [a w1|p w1|]; [| |exact Hr].
  - specialize (Hd None w1). destruct (d None w1); eauto.
  - specialize (Hd (Some p) w1). destruct (d (Some p) w1); eauto.
Qed.

Lemma post_for_range {A S} (body : S -> A -> M S) (l : list A) :
  (forall s x, post (body s x)) -> forall s, post (for_range body l s).
Proof.
  intros Hb. induction l as [|x l IH]; intros s; cbn [for_range].
  - apply post_ret.
  - apply post_bind; [apply Hb|exact IH].
Qed.

Lemma post_emit e : neutral e -> permitted allowed e -> post (emit e).
Proof. intros He Hp w. apply R_event; assumption. Qed.

Lemma post_ask {A} (f : History -> A) (ev : A -> Event) :
  (forall a, neutral (ev a)) -> (forall a, permitted allowed (ev a)) -> post (ask f ev).
Proof. intros He Hp w. apply (R_event _ w); [apply He|apply Hp]. Qed.

Lemma post_lift_option {A} msg (o : option A) : post (lift_option msg o).
Proof. destruct o; [apply post_ret|apply post_panic]. Qed.

Lemma post_lift_error {A} (r : GoError + A) : post (lift_error r).
Proof. destruct r; [apply post_panic|apply post_ret]. Qed.

Lemma post_map_store r k v : post (map_store r k v).
Proof.
  intros w. unfold map_store. destruct r as [|n]; [apply R_bindVars|].
  destruct (localMaps w !! n); [apply R_localMaps|apply R_refl].
Qed.

Lemma post_map_load r : post (map_load r).
Proof.
  intros w. unfold map_load. destruct r as [|n]; apply R_refl.
Qed.

Lemma post_map_new m : post (map_new m).
Proof. intros w. apply R_localMaps. Qed.

Lemma post_AddRewrittenSql sql : post (AddRewrittenSql sql).
Proof. intros w. apply R_logStats. exists [sql]. reflexivity. Qed.

Lemma post_logStats (f : LogStats.t -> LogStats.t) :
  (forall s, LogStats.rewrittenSqls (f s) = LogStats.rewrittenSqls s) ->
  post (modify (fun w => set_logStats (f (logStats w)) w)).
Proof.
  intros Hf w. apply R_logStats. exists []. rewrite Hf, app_nil_r. reflexivity.
Qed.

(** Checking a connection out and deferring its [Recycle]. *)
Lemma post_getConn E {A} pool (body : Conn -> M A) :
  (forall conn, post (body conn)) ->
  post (bind (getConn E pool) (fun conn => defer_call (Recycle conn) (body conn))).
Proof.
  intros Hb w. cbv beta iota zeta delta [bind getConn ask].
  destruct (pool_Get E (history w) pool) as [err|conn] eqn:Hget.
  - destruct err; cbn; (apply R_event; [split; reflexivity|exact I]).
  - cbn. unfold defer_call, Recycle, emit, modify.
    fold (push (EvPoolGet pool (inr conn)) w).
    specialize (Hb conn (push (EvPoolGet pool (inr conn)) w)).
    destruct (body conn _) as [a w1|p w1|]; [| |exact (F_push _ _ Hb)];
      apply (R_checkout (EvPoolGet pool (inr conn)) conn); auto.
Qed.

Lemma post_txPool_Get E {A} txid (body : Conn -> M A) :
  (forall conn, post (body conn)) ->
  post (bind (txPool_Get_call E txid) (fun conn => defer_call (Recycle conn) (body conn))).
Proof.
  intros Hb w. cbv beta iota zeta delta [bind txPool_Get_call ask].
  destruct (txPool_Get E (history w) txid) as [p|conn] eqn:Hget.
  - apply R_event; [split; reflexivity|exact I].
  - cbn. unfold defer_call, Recycle, emit, modify.
    fold (push (EvTxPoolGet txid (inr conn)) w).
    specialize (Hb conn (push (EvTxPoolGet txid (inr conn)) w)).
    destruct (body conn _) as [a w1|p w1|]; [| |exact (F_push _ _ Hb)];
      apply (R_checkout (EvTxPoolGet txid (inr conn)) conn); auto.
Qed.

Lemma post_pool_Get E {A} (k : GoError + Conn -> M A) :
  (forall err, post (k (inl err))) ->
  (forall conn, exists body, k (inr conn) = defer_call (Recycle conn) body /\ post body) ->
  post (bind (ask (fun h => pool_Get E h connPool) (EvPoolGet connPool)) k).
Proof.
  intros Herr Hok w. cbv beta iota zeta delta [bind ask].
  destruct (pool_Get E (history w) connPool) as [err|conn] eqn:Hget.
  - fold (push (EvPoolGet connPool (inl err)) w).
    assert (R w (push (EvPoolGet connPool (inl err)) w)) as Hstep
      by (apply R_event; [split; reflexivity|exact I]).
    specialize (Herr err (push (EvPoolGet connPool (inl err)) w)).
    destruct (k (inl err) _); eauto.
  - destruct (Hok conn) as (body & -> & Hbody).
    unfold defer_call, Recycle, emit, modify.
    fold (push (EvPoolGet connPool (inr conn)) w).
    specialize (Hbody (push (EvPoolGet connPool (inr conn)) w)).
    destruct (body _) as [a w1|p w1|]; [| |exact (F_push _ _ Hbody)];
      apply (R_checkout (EvPoolGet connPool (inr conn)) conn); auto.
Qed.

Create HintDb frame discriminated.

Ltac frame :=
  repeat first
    [ solve [auto with frame]
    | apply post_ret | apply post_panic | apply post_get_world
    | apply post_emit; [split; reflexivity|exact I]
    | apply post_ask; intros; [split; reflexivity|exact I]
    | apply post_lift_option | apply post_lift_error
    | apply post_map_store | apply post_map_load | apply post_map_new
    | apply post_AddRewrittenSql
    | apply post_logStats; reflexivity
    | apply (post_logStats
               (fun s => LogStats.or_QuerySources _ (LogStats.set_cache _ _ _ s)));
      reflexivity
    | apply post_getConn; intro
    | apply post_txPool_Get; intro
    | apply post_defer_named; [intro|]
    | apply post_defer_recover; [intro|]
    | apply post_defer_call
    | apply post_for_range; intros
    | apply post_bind; [|intro]
    | match goal with
      | |- post (match ?x with _ => _ end) => destruct x
      | |- post (if ?b then _ else _) => destruct b
      end ].

Section Functions.

Variable E : Collaborators.
Variable qre : QueryExecutor.

(** What [R] allows to be sent: the statements generated from the plan's
    templates and, for a DDL or OTHER plan, the text of the query. *)
Hypothesis allowed_templates : forall pq, In pq (templates (plan qre)) -> sendable allowed E pq.
Hypothesis allowed_raw : forall sql, raw qre sql -> allowed sql.

Hint Extern 1 (sendable _ _ _) =>
  solve [apply allowed_templates; unfold templates; simpl; auto] : frame.

Lemma post_generateFinalSql pq r bsc : post (generateFinalSql E pq r bsc).
Proof. unfold generateFinalSql. frame. Qed.
Hint Resolve post_generateFinalSql : frame.

Lemma post_execSQLNoPanic conn sql wf : allowed sql -> post (execSQLNoPanic E conn sql wf).
Proof.
  intros Hsql. unfold execSQLNoPanic, conn_Exec_call.
  apply post_defer_call; [frame|]. apply post_bind; [frame|intros w].
  apply post_ask; intros; [split; reflexivity|exact Hsql].
Qed.
Hint Resolve post_execSQLNoPanic : frame.

Lemma post_execSQL conn sql wf : allowed sql -> post (execSQL E conn sql wf).
Proof. intros Hsql. unfold execSQL. frame. Qed.
Hint Resolve post_execSQL : frame.

Lemma post_directFetch conn pq r bsc :
  sendable allowed E pq -> post (directFetch E conn pq r bsc).
Proof.
  intros Hpq. unfold directFetch. apply post_bind_val; [frame|intros sql (w & w' & Hsql)].
  apply post_execSQL. exact (Hpq _ _ _ _ _ Hsql).
Qed.
Hint Resolve post_directFetch : frame.

Lemma post_fullFetch conn pq r bsc :
  sendable allowed E pq -> post (fullFetch E conn pq r bsc).
Proof.
  intros Hpq. unfold fullFetch. apply post_bind_val; [frame|intros sql (w & w' & Hsql)].
  apply post_execSQL. exact (Hpq _ _ _ _ _ Hsql).
Qed.
Hint Resolve post_fullFetch : frame.

Lemma post_q_finish q : post (q_finish q).
Proof. unfold q_finish. frame. Qed.
Hint Resolve post_q_finish : frame.

Lemma post_qFetch pq r : sendable allowed E pq -> post (qFetch E pq r).
Proof.
  intros Hpq. unfold qFetch. apply post_bind_val; [frame|intros sql (w & w' & Hsql)].
  pose proof (Hpq _ _ _ _ _ Hsql) as Hallowed.
  apply post_bind; [frame|intros ok]. destruct ok.
  - apply post_defer_call; [frame|]. apply post_pool_Get.
    + intros err. frame.
    + intros conn. eexists. split; [reflexivity|]. frame.
  - frame.
Qed.
Hint Resolve post_qFetch : frame.

Lemma post_tableInfo_deref : post (tableInfo_deref qre).
Proof. unfold tableInfo_deref. frame. Qed.
Hint Resolve post_tableInfo_deref : frame.

Lemma post_index0_Columns : post (index0_Columns qre).
Proof. unfold index0_Columns. frame. Qed.
Hint Resolve post_index0_Columns : frame.

Lemma post_checkPermissions : post (checkPermissions E qre).
Proof. unfold checkPermissions. frame. Qed.
Hint Resolve post_checkPermissions : frame.

Lemma post_txPool_Begin : post (txPool_Begin_call E).
Proof. unfold txPool_Begin_call. frame. Qed.
Hint Resolve post_txPool_Begin : frame.

Lemma post_execDDL : allowed (query qre) -> post (execDDL E qre).
Proof. intros Hraw. unfold execDDL, txPool_SafeCommit. frame. Qed.
Hint Resolve post_execDDL : frame.

Lemma post_mustVerify : post (mustVerify E).
Proof. unfold mustVerify. frame. Qed.
Hint Resolve post_mustVerify : frame.

Lemma post_spotCheck rc pk : post (spotCheck E qre rc pk).
Proof. unfold spotCheck. frame. Qed.
Hint Resolve post_spotCheck : frame.

Lemma post_fetchMulti_hit rcs st pk : post (fetchMulti_hit E qre rcs st pk).
Proof. unfold fetchMulti_hit. destruct st as [[rows missing] hits]. frame. Qed.
Hint Resolve post_fetchMulti_hit : frame.

Lemma post_fetchMulti_fill rcs rows row : post (fetchMulti_fill E qre rcs rows row).
Proof. unfold fetchMulti_fill. frame. Qed.
Hint Resolve post_fetchMulti_fill : frame.

Lemma post_fetchMulti pkRows limit : post (fetchMulti E qre pkRows limit).
Proof.
  unfold fetchMulti. destruct (ExecPlan.Fields (plan qre)); [|frame].
  destruct (_ || _); [frame|].
  apply post_bind; [frame|intros _].
  apply post_bind; [frame|intros rcs].
  apply post_bind; [frame|intros [[rows missing] hits]].
  apply post_bind; [frame|intros [[rows' absent] misses]].
  frame.
Qed.
Hint Resolve post_fetchMulti : frame.

Lemma post_execPKIN : post (execPKIN E qre).
Proof. unfold execPKIN. frame. Qed.
Hint Resolve post_execPKIN : frame.

Lemma post_execSubquery : post (execSubquery E qre).
Proof. unfold execSubquery. frame. Qed.
Hint Resolve post_execSubquery : frame.

Lemma post_execDirect conn : post (execDirect E qre conn).
Proof. unfold execDirect. frame. Qed.
Hint Resolve post_execDirect : frame.

Lemma post_execSelect : post (execSelect E qre).
Proof. unfold execSelect. frame. Qed.
Hint Resolve post_execSelect : frame.

Lemma post_execInsertPKRows conn pkRows : post (execInsertPKRows E qre conn pkRows).
Proof. unfold execInsertPKRows. frame. Qed.
Hint Resolve post_execInsertPKRows : frame.

Lemma post_execInsertPK conn : post (execInsertPK E qre conn).
Proof. unfold execInsertPK. frame. Qed.
Hint Resolve post_execInsertPK : frame.

Lemma post_execInsertSubquery conn : post (execInsertSubquery E qre conn).
Proof. unfold execInsertSubquery. frame. Qed.
Hint Resolve post_execInsertSubquery : frame.

(** The batch loop, when running out of fuel tells nothing. *)
Section Any_fuel.

Hypothesis F_any : forall w, F w.

Lemma post_execDMLPKRows_loop fuel conn pkRows sl maxRows :
  forall i result, post (execDMLPKRows_loop E qre fuel conn pkRows sl maxRows i result).
Proof.
  induction fuel as [|fuel IH]; intros i result; cbn [execDMLPKRows_loop].
  - destruct (negb _); [frame|]. intros w. apply F_any.
  - destruct (negb _); [frame|].
    repeat (apply post_bind; [frame|intro]). apply IH.
Qed.
Hint Resolve post_execDMLPKRows_loop : frame.

Lemma post_execDMLPKRows fuel conn pkRows inv : post (execDMLPKRows E qre fuel conn pkRows inv).
Proof. unfold execDMLPKRows. frame. Qed.
Hint Resolve post_execDMLPKRows : frame.

Lemma post_execDMLPK fuel conn inv : post (execDMLPK E qre fuel conn inv).
Proof. unfold execDMLPK. frame. Qed.
Hint Resolve post_execDMLPK : frame.

Lemma post_execDMLSubquery fuel conn inv : post (execDMLSubquery E qre fuel conn inv).
Proof. unfold execDMLSubquery. frame. Qed.
Hint Resolve post_execDMLSubquery : frame.

End Any_fuel.

Lemma post_make_invalidator conn : post (make_invalidator qre conn).
Proof. unfold make_invalidator. frame. Qed.
Hint Resolve post_make_invalidator : frame.

Lemma post_strict_check : post strict_check.
Proof. unfold strict_check. frame. Qed.
Hint Resolve post_strict_check : frame.

Lemma post_some {A} (m : M A) : post m -> post (some m).
Proof. intros Hm. unfold some. frame. Qed.

(** The entry points, for a budget of fuel with which the two DML plans
    satisfy the frame property. *)
Section Entry.

Variable fuel : nat.
Hypothesis post_DMLPK : forall conn inv, post (execDMLPK E qre fuel conn inv).
Hypothesis post_DMLSubquery : forall conn inv, post (execDMLSubquery E qre fuel conn inv).
Hypothesis post_Set : post (execSet E qre).

Lemma post_execDmlAutoCommit : post (execDmlAutoCommit E qre fuel).
Proof.
  unfold execDmlAutoCommit, qe_Commit_call, txPool_Rollback.
  apply post_bind; [frame|intros txid].
  apply post_bind; [frame|intros _].
  apply post_defer_recover; [intros [e|]; frame|].
  apply post_txPool_Get. intros conn.
  apply post_bind; [frame|intros inv].
  destruct (ExecPlan.PlanId (plan qre)); try (apply post_some); frame.
Qed.
Hint Resolve post_execDmlAutoCommit : frame.

Lemma post_Execute_stats name reply : post (Execute_stats name reply).
Proof. unfold Execute_stats. frame. Qed.
Hint Resolve post_Execute_stats : frame.

Lemma post_Execute : post (Execute E qre fuel).
Proof.
  unfold Execute. cbv zeta.
  apply post_bind; [frame|intros _].
  apply post_defer_named; [intros reply; frame|].
  apply post_bind; [frame|intros _].
  destruct (ExecPlan.PlanId (plan qre)) eqn:Hid; cbv beta iota;
    try (assert (allowed (query qre))
           by (apply allowed_raw; split; [reflexivity|rewrite Hid; auto]));
    try (destruct (negb (transactionID qre =? 0))); frame;
    try (apply post_some); frame.
Qed.

End Entry.

(** [SET] is the one statement that writes the tunables; a sized tunable
    is written only with a value the guard let through. *)
Hypothesis R_maxResultSize : forall v w,
  ExecPlan.SetValue (plan qre) = SVInt64 v -> 1 <= v ->
  R w (set_tunables (set_maxResultSize v (tunables w)) w).
Hypothesis R_maxDMLRows : forall v w,
  ExecPlan.SetValue (plan qre) = SVInt64 v -> 1 <= v ->
  R w (set_tunables (set_maxDMLRows v (tunables w)) w).
Hypothesis R_streamBufferSize : forall v w,
  ExecPlan.SetValue (plan qre) = SVInt64 v -> 1024 <= v ->
  R w (set_tunables (set_streamBufferSize v (tunables w)) w).
Hypothesis R_strictMode : forall v w, R w (set_tunables (set_strictMode v (tunables w)) w).
Hypothesis R_spotCheckFreq : forall v w,
  R w (set_tunables (set_spotCheckFreq v (tunables w)) w).
Hypothesis R_queryTimeout : forall v w,
  R w (set_tunables (set_queryTimeout v (tunables w)) w).

Lemma post_bind_ret {A B} (a : A) (k : A -> M B) : post (k a) -> post (bind (ret a) k).
Proof. intros H w. exact (H w). Qed.

Lemma post_getFloat64 v : post (getFloat64 E v).
Proof. unfold getFloat64. frame. Qed.
Hint Resolve post_getFloat64 : frame.

Lemma post_getDuration v : post (getDuration E v).
Proof. unfold getDuration. frame. Qed.
Hint Resolve post_getDuration : frame.

Lemma post_set_strictMode v : post (modify_tunables (set_strictMode v)).
Proof. intros w. apply R_strictMode. Qed.
Lemma post_set_spotCheckFreq v : post (modify_tunables (set_spotCheckFreq v)).
Proof. intros w. apply R_spotCheckFreq. Qed.
Lemma post_set_queryTimeout v : post (modify_tunables (set_queryTimeout v)).
Proof. intros w. apply R_queryTimeout. Qed.
Hint Resolve post_set_strictMode post_set_spotCheckFreq post_set_queryTimeout : frame.

Lemma post_execSet : post (execSet E qre).
Proof.
  unfold execSet. cbv zeta.
  destruct (ExecPlan.SetValue (plan qre)) as [n|bits|other] eqn:Hv;
    repeat match goal with
           | |- post (if String.eqb ?a ?b then _ else _) => destruct (String.eqb a b)
           end;
    cbn [getInt64]; try (apply post_bind_ret); try solve [frame].
  - destruct (n <? 1) eqn:Hn; [frame|]. apply Z.ltb_ge in Hn.
    apply post_bind; [|intros _; frame]. intros w. apply R_maxResultSize; [reflexivity|lia].
  - destruct (n <? 1) eqn:Hn; [frame|]. apply Z.ltb_ge in Hn.
    apply post_bind; [|intros _; frame]. intros w. apply R_maxDMLRows; [reflexivity|lia].
  - destruct (n <? 1024) eqn:Hn; [frame|]. apply Z.ltb_ge in Hn.
    apply post_bind; [|intros _; frame]. intros w. apply R_streamBufferSize; [reflexivity|lia].
Qed.

End Functions.

End Frame.

(** ** Connection balance *)

Fixpoint count (f : Event -> bool) (h : History) : nat :=
  match h with
  | [] => 0
  | e :: h' => ((if f e then 1 else 0) + count f h')%nat
  end.

Definition is_checkout (e : Event) : bool :=
  match checkout_of e with Some _ => true | None => false end.
Definition is_recycle (e : Event) : bool :=
  match recycle_of e with Some _ => true | None => false end.
Definition checks_out (c : Conn) (e : Event) : bool :=
  match checkout_of e with Some c' => Nat.eqb c c' | None => false end.
Definition recycles (c : Conn) (e : Event) : bool :=
  match recycle_of e with Some c' => Nat.eqb c c' | None => false end.

(** A stretch of history in which connections obtained and connections
    recycled match, in total and for each connection. *)
Definition balanced (seg : History) : Prop :=
  count is_checkout seg = count is_recycle seg
  /\ forall c, count (checks_out c) seg = count (recycles c) seg.

Definition balance (w w' : World) : Prop :=
  exists seg, history w' = history w ++ seg /\ balanced seg.

Lemma count_app f h1 h2 : count f (h1 ++ h2) = (count f h1 + count f h2)%nat.
Proof. induction h1 as [|e h1 IH]; cbn; [reflexivity|]. rewrite IH. lia. Qed.

Lemma balanced_nil : balanced [].
Proof. split; reflexivity. Qed.

Lemma balanced_app s1 s2 : balanced s1 -> balanced s2 -> balanced (s1 ++ s2).
Proof.
  intros [H1 H1c] [H2 H2c]. split; [|intros c]; rewrite !count_app; [lia|].
  rewrite H1c, H2c. reflexivity.
Qed.

Lemma balanced_neutral e : neutral e -> balanced [e].
Proof.
  intros [Hc Hr]. unfold balanced, is_checkout, is_recycle, checks_out, recycles.
  cbn. rewrite Hc, Hr. split; reflexivity.
Qed.

Lemma balanced_wrap g c seg :
  checkout_of g = Some c -> balanced seg -> balanced (g :: seg ++ [EvRecycle c]).
Proof.
  intros Hg [Ht Hc].
  assert (recycle_of g = None) as Hr by (destruct g; try discriminate; reflexivity).
  unfold balanced, is_checkout, is_recycle, checks_out, recycles in *.
  split; [|intros c'; specialize (Hc c')];
    cbn [count]; rewrite !count_app; cbn [count checkout_of recycle_of];
    rewrite Hg, Hr; [lia|].
  destruct (Nat.eqb c' c); lia.
Qed.

Lemma balance_refl w : balance w w.
Proof. exists []. rewrite app_nil_r. split; [reflexivity|apply balanced_nil]. Qed.

Lemma balance_trans a b c : balance a b -> balance b c -> balance a c.
Proof.
  intros (s1 & H1 & B1) (s2 & H2 & B2). exists (s1 ++ s2).
  rewrite H2, H1, app_assoc. split; [reflexivity|apply balanced_app; assumption].
Qed.

Lemma balance_same_history w w' : history w' = history w -> balance w w'.
Proof. intros H. exists []. rewrite app_nil_r. split; [exact H|apply balanced_nil]. Qed.

Lemma balance_event e w : neutral e -> balance w (push e w).
Proof. intros He. exists [e]. split; [reflexivity|apply balanced_neutral, He]. Qed.

Lemma balance_checkout g c w w' :
  checkout_of g = Some c -> balance (push g w) w' -> balance w (push (EvRecycle c) w').
Proof.
  intros Hg (seg & Hh & Hb). exists (g :: seg ++ [EvRecycle c]). split.
  - cbn. rewrite Hh. cbn. rewrite <- !app_assoc. reflexivity.
  - apply balanced_wrap; assumption.
Qed.

Lemma balance_bindVars m w : balance w (set_bindVars m w).
Proof. apply balance_same_history. reflexivity. Qed.

Lemma balance_localMaps l w : balance w (set_localMaps l w).
Proof. apply balance_same_history. reflexivity. Qed.

Lemma balance_logStats s w : log_grows (logStats w) s -> balance w (set_logStats s w).
Proof. intros _. apply balance_same_history. reflexivity. Qed.

Lemma balance_tunables t w : balance w (set_tunables t w).
Proof. apply balance_same_history. reflexivity. Qed.

Definition unknown (w : World) : Prop := True.

Lemma unknown_back (R : World -> World -> Prop) w w' : R w w' -> unknown w' -> unknown w.
Proof. intros _ _. exact I. Qed.

Lemma unknown_push e w : unknown (push e w) -> unknown w.
Proof. intros _. exact I. Qed.

Lemma unknown_any w : unknown w.
Proof. exact I. Qed.

Definition balance_post {A} (m : M A) : Prop := post balance unknown m.

(** The balance, like the properties after it, holds whatever is sent. *)
Definition any_statement (sql : string) : Prop := True.

Lemma any_statement_sendable E pq : sendable any_statement E pq.
Proof. intros r bsc w sql w' _. exact I. Qed.

Ltac balance_side :=
  first [ exact balance_refl | exact balance_trans
        | (intros ? ? ? _; apply balance_event; assumption)
        | exact balance_bindVars | exact balance_localMaps | exact balance_logStats
        | exact balance_checkout | exact (unknown_back balance) | exact unknown_push
        | exact unknown_any | (intros; apply balance_tunables)
        | (intros; apply any_statement_sendable) | (intros; exact I) ].

Lemma Execute_balance E qre fuel : balance_post (Execute E qre fuel).
Proof.
  apply post_Execute with (allowed := any_statement); try balance_side.
  - intros conn inv. apply post_execDMLPK with (allowed := any_statement); balance_side.
  - intros conn inv. apply post_execDMLSubquery with (allowed := any_statement); balance_side.
  - apply post_execSet with (allowed := any_statement); balance_side.
Qed.

Lemma qFetch_balance E pq r : balance_post (qFetch E pq r).
Proof. apply post_qFetch with (allowed := any_statement); balance_side. Qed.

(** ** Auto-commit DML *)

(** The DML branch of [execDmlAutoCommit], on the connection pinned to the
    transaction it began: everything between the two [defer]s and the
    return. *)
Definition autoCommit_branch (E : Collaborators) (qre : QueryExecutor) (fuel : nat)
    (transactionID : Z) : M (option mproto.QueryResult) :=
  bind (txPool_Get_call E transactionID) (fun conn =>
    defer_call (Recycle conn)
      (bind (make_invalidator qre conn) (fun invalidator =>
         match ExecPlan.PlanId (plan qre) with
         | planbuilder.PLAN_PASS_DML =>
             bind strict_check (fun _ =>
               some (directFetch E conn (ExecPlan.FullQuery (plan qre)) QreBindVars None))
         | planbuilder.PLAN_INSERT_PK => some (execInsertPK E qre conn)
         | planbuilder.PLAN_INSERT_SUBQUERY => some (execInsertSubquery E qre conn)
         | planbuilder.PLAN_DML_PK => some (execDMLPK E qre fuel conn invalidator)
         | planbuilder.PLAN_DML_SUBQUERY => some (execDMLSubquery E qre fuel conn invalidator)
         | _ => panic (NewTabletError ErrFatal ("unsupported query: " +:+ query qre))
         end))).

Definition logged (sql : string) (w : World) : World :=
  set_logStats (LogStats.AddRewrittenSql sql (logStats w)) w.

Definition stats_log (w : World) : list string := LogStats.rewrittenSqls (logStats w).

Definition log_extends (w w' : World) : Prop := log_grows (logStats w) (logStats w').

Lemma log_extends_refl w : log_extends w w.
Proof. exists []. rewrite app_nil_r. reflexivity. Qed.

Lemma log_extends_trans a b c : log_extends a b -> log_extends b c -> log_extends a c.
Proof.
  intros (l1 & H1) (l2 & H2). exists (l1 ++ l2). rewrite H2, H1, app_assoc. reflexivity.
Qed.

Lemma log_extends_event e w : neutral e -> log_extends w (push e w).
Proof. intros _. exact (log_extends_refl w). Qed.

Lemma log_extends_bindVars m w : log_extends w (set_bindVars m w).
Proof. exact (log_extends_refl w). Qed.

Lemma log_extends_localMaps l w : log_extends w (set_localMaps l w).
Proof. exact (log_extends_refl w). Qed.

Lemma log_extends_logStats s w : log_grows (logStats w) s -> log_extends w (set_logStats s w).
Proof. intros H. exact H. Qed.

Lemma log_extends_checkout g c w w' :
  checkout_of g = Some c -> log_extends (push g w) w' -> log_extends w (push (EvRecycle c) w').
Proof. intros _ H. exact H. Qed.

Ltac log_side :=
  first [ exact log_extends_refl | exact log_extends_trans
        | (intros ? ? ? _; apply log_extends_event; assumption)
        | exact log_extends_bindVars | exact log_extends_localMaps
        | exact log_extends_logStats | exact log_extends_checkout
        | exact (unknown_back log_extends) | exact unknown_push | exact unknown_any
        | (intros; apply any_statement_sendable) | (intros; exact I) ].

Lemma autoCommit_branch_log E qre fuel txid :
  post log_extends unknown (autoCommit_branch E qre fuel txid).
Proof.
  unfold autoCommit_branch.
  apply post_txPool_Get with (allowed := any_statement); try log_side. intros conn.
  apply post_bind; try log_side;
    [apply post_make_invalidator with (allowed := any_statement); log_side|intros inv].
  destruct (ExecPlan.PlanId (plan qre));
    try (apply post_panic; log_side);
    try (apply post_bind; try log_side; [apply post_strict_check; log_side|intros _]);
    apply post_some; try log_side.
  - apply post_directFetch with (allowed := any_statement); log_side.
  - apply post_execDMLPK with (allowed := any_statement); log_side.
  - apply post_execDMLSubquery with (allowed := any_statement); log_side.
  - apply post_execInsertPK with (allowed := any_statement); log_side.
  - apply post_execInsertSubquery with (allowed := any_statement); log_side.
Qed.

(** The deferred closure of [execDmlAutoCommit]. *)
Definition autoCommit_finish (E : Collaborators) (transactionID : Z) (err : option PanicVal)
  : M unit :=
  match err with
  | None => bind (qe_Commit_call E transactionID) (fun _ => AddRewrittenSql "commit")
  | Some e =>
      bind (txPool_Rollback transactionID) (fun _ =>
        bind (AddRewrittenSql "rollback") (fun _ => panic e))
  end.

Lemma execDmlAutoCommit_unfold E qre fuel :
  execDmlAutoCommit E qre fuel =
  bind (txPool_Begin_call E) (fun txid =>
    bind (AddRewrittenSql "begin") (fun _ =>
      defer_recover (autoCommit_finish E txid) None (autoCommit_branch E qre fuel txid))).
Proof. reflexivity. Qed.

Lemma execDmlAutoCommit_run E qre fuel w :
  execDmlAutoCommit E qre fuel w =
  match txPool_Begin E (history w) with
  | inl p => Panic p (push (EvBegin (inl p)) w)
  | inr txid =>
      match autoCommit_branch E qre fuel txid (logged "begin" (push (EvBegin (inr txid)) w)) with
      | Ret reply w2 =>
          match qe_Commit E (history w2) txid with
          | None => Ret reply (logged "commit" (push (EvCommit txid None) w2))
          | Some p => Panic p (push (EvCommit txid (Some p)) w2)
          end
      | Panic e w2 => Panic e (logged "rollback" (push (EvRollback txid) w2))
      | OutOfFuel => OutOfFuel
      end
  end.
Proof.
  rewrite execDmlAutoCommit_unfold.
  cbv beta iota zeta delta [bind txPool_Begin_call ask].
  destruct (txPool_Begin E (history w)) as [p|txid]; [reflexivity|].
  cbv beta iota zeta delta [ret AddRewrittenSql modify defer_recover].
  fold (push (EvBegin (inr txid)) w). fold (logged "begin" (push (EvBegin (inr txid)) w)).
  destruct (autoCommit_branch E qre fuel txid _) as [reply w2|e w2|]; [| |reflexivity].
  - cbv beta iota zeta delta [autoCommit_finish bind qe_Commit_call ask].
    destruct (qe_Commit E (history w2) txid); reflexivity.
  - reflexivity.
Qed.

(** C8: once [Begin] has given a transaction, [execDmlAutoCommit] logs
    ["begin"] and runs the DML branch on the pinned connection.  If the
    branch returns, [Commit] is called; when it succeeds the reply is
    returned and ["commit"] is logged.  If the branch panics with [e],
    [Rollback] is called, ["rollback"] is logged, and the panic that
    reaches the caller is [e] itself.  A failing [Commit] raises its own
    error. *)
Theorem execDmlAutoCommit_commit_or_rollback E qre fuel w txid :
  txPool_Begin E (history w) = inr txid ->
  match autoCommit_branch E qre fuel txid (logged "begin" (push (EvBegin (inr txid)) w)) with
  | Ret reply w2 =>
      exists mid,
        stats_log w2 = stats_log w ++ "begin" :: mid
        /\ match qe_Commit E (history w2) txid with
           | None =>
               exists w',
                 execDmlAutoCommit E qre fuel w = Ret reply w'
                 /\ history w' = history w2 ++ [EvCommit txid None]
                 /\ stats_log w' = stats_log w ++ "begin" :: mid ++ ["commit"]
           | Some p =>
               execDmlAutoCommit E qre fuel w = Panic p (push (EvCommit txid (Some p)) w2)
           end
  | Panic e w2 =>
      exists mid w',
        stats_log w2 = stats_log w ++ "begin" :: mid
        /\ execDmlAutoCommit E qre fuel w = Panic e w'
        /\ history w' = history w2 ++ [EvRollback txid]
        /\ stats_log w' = stats_log w ++ "begin" :: mid ++ ["rollback"]
  | OutOfFuel => execDmlAutoCommit E qre fuel w = OutOfFuel
  end.
Proof.
  intros Hbegin. rewrite execDmlAutoCommit_run, Hbegin.
  pose proof (autoCommit_branch_log E qre fuel txid
                (logged "begin" (push (EvBegin (inr txid)) w))) as Hlog.
  destruct (autoCommit_branch E qre fuel txid _) as [reply w2|e w2|]; [| |reflexivity].
  - destruct Hlog as (mid & Hmid). exists mid.
    assert (stats_log w2 = stats_log w ++ "begin" :: mid) as Hw2.
    { unfold stats_log. rewrite Hmid. cbn. rewrite <- app_assoc. reflexivity. }
    split; [exact Hw2|].
    destruct (qe_Commit E (history w2) txid); [reflexivity|].
    eexists. split; [reflexivity|]. split; [reflexivity|].
    unfold stats_log in *. cbn. rewrite Hw2, <- app_assoc. reflexivity.
  - destruct Hlog as (mid & Hmid). exists mid. eexists.
    assert (stats_log w2 = stats_log w ++ "begin" :: mid) as Hw2.
    { unfold stats_log. rewrite Hmid. cbn. rewrite <- app_assoc. reflexivity. }
    split; [exact Hw2|]. split; [reflexivity|]. split; [reflexivity|].
    unfold stats_log in *. cbn. rewrite Hw2, <- app_assoc. reflexivity.
Qed.

(** S3 of the spec on the sample tablet: a [DML_PK] outside a transaction
    whose statement fails on the backend. *)
Lemma execDmlAutoCommit_commit_or_rollback_witness :
  let q := Scenario.mkQre 0 Scenario.client
             (Scenario.mkPlan planbuilder.PLAN_DML_PK "" (SVInt64 0) [Scenario.pk "1"]
                Scenario.noRules) in
  exists w',
    execDmlAutoCommit Scenario.failing q 1 (Scenario.world 0)
    = Panic (PError (ErrOther "Duplicate entry")) w'
    /\ stats_log w' = ["begin"; "outer /* _stream */"; "rollback"].
Proof.
  intros q.
  pose proof (execDmlAutoCommit_commit_or_rollback Scenario.failing q 1 (Scenario.world 0)
                42 eq_refl) as H.
  vm_compute in H. destruct H as (mid & w' & Hmid & Hrun & _ & Hlog).
  exists w'. split.
  - exact Hrun.
  - injection Hmid as <-. exact Hlog.
Defined.

(** ** Termination

    Only the batch loop of [execDMLPKRows] can run forever, and only when
    the batch size is not positive. *)

Definition always (w w' : World) : Prop := True.
Definition never (w : World) : Prop := False.

Ltac always_side :=
  first [ (intros; exact I) | (intros; assumption) | (intros; apply any_statement_sendable) ].

Lemma finishes_ne {A} (m : M A) : post always never m -> forall w, m w <> OutOfFuel.
Proof. intros H w Hw. specialize (H w). rewrite Hw in H. exact H. Qed.

Lemma bind_finishes {A B} (m : M A) (k : A -> M B) w :
  m w <> OutOfFuel ->
  (forall a w1, m w = Ret a w1 -> k a w1 <> OutOfFuel) ->
  bind m k w <> OutOfFuel.
Proof.
  intros Hm Hk. unfold bind. destruct (m w) as [a w1|p w1|]; [|discriminate|contradiction].
  apply Hk. reflexivity.
Qed.

Lemma lift_option_Ret {A} msg (o : option A) w a w1 :
  lift_option msg o w = Ret a w1 -> o = Some a /\ w1 = w.
Proof. destruct o; cbn; [intros [= <- <-]; auto|discriminate]. Qed.

Lemma lift_error_Ret {A} (r : GoError + A) w a w1 :
  lift_error r w = Ret a w1 -> r = inr a /\ w1 = w.
Proof. destruct r; cbn; [discriminate|intros [= <- <-]; auto]. Qed.

Lemma slice_Some {A} (s : list A) lo hi batch :
  Go.slice s lo hi = Some batch ->
  0 <= lo /\ lo <= hi /\ hi <= Go.len s
  /\ batch = take (Z.to_nat (hi - lo)) (drop (Z.to_nat lo) s).
Proof.
  unfold Go.slice. destruct (0 <=? lo) eqn:H1; [|discriminate].
  destruct (lo <=? hi) eqn:H2; [|discriminate].
  destruct (hi <=? Go.len s) eqn:H3; [|discriminate].
  cbn. intros [= <-]. repeat split; lia.
Qed.

Lemma wrap64_range z : - 2 ^ 63 <= Go.wrap64 z < 2 ^ 63.
Proof.
  unfold Go.wrap64. pose proof (Z.mod_pos_bound (z + 2 ^ 63) (2 ^ 64) ltac:(lia)). lia.
Qed.

Lemma wrap64_congr z : exists q, Go.wrap64 z = z - 2 ^ 64 * q.
Proof.
  exists ((z + 2 ^ 63) / 2 ^ 64). unfold Go.wrap64.
  pose proof (Z.div_mod (z + 2 ^ 63) (2 ^ 64) ltac:(lia)). lia.
Qed.

(** The loop index after one more batch, when the slice was in bounds. *)
Lemma next_index n m i :
  1 <= m < 2 ^ 63 -> 0 <= i < n ->
  i <= (if n <=? Go.int64_add i m then n else Go.int64_add i m) ->
  i < 2 ^ 63 ->
  Go.int64_add i m = i + m.
Proof.
  intros Hm Hi Hend Hi63. unfold Go.int64_add in *.
  destruct (wrap64_congr (i + m)) as (q & Hq).
  pose proof (wrap64_range (i + m)) as Hr.
  destruct (n <=? Go.wrap64 (i + m)) eqn:Hn.
  - apply Z.leb_le in Hn. lia.
  - lia.
Qed.

(** The batch size is a positive int64. *)
Definition batch_size_ok (w : World) : Prop := 1 <= maxDMLRows (tunables w) < 2 ^ 63.

Section Loop_finishes.

Variable E : Collaborators.
Variable qre : QueryExecutor.

Lemma directFetch_finishes conn pq r bsc w : directFetch E conn pq r bsc w <> OutOfFuel.
Proof. apply finishes_ne. apply post_directFetch with (allowed := any_statement); always_side. Qed.

Lemma index0_Columns_finishes w : index0_Columns qre w <> OutOfFuel.
Proof. apply finishes_ne. apply post_index0_Columns; always_side. Qed.

Lemma execDMLPKRows_loop_finishes conn pkRows sl maxRows :
  1 <= maxRows < 2 ^ 63 ->
  forall fuel i result w,
    0 <= i < 2 ^ 63 -> Go.len pkRows - i <= Z.of_nat fuel ->
    execDMLPKRows_loop E qre fuel conn pkRows sl maxRows i result w <> OutOfFuel.
Proof.
  intros Hm. induction fuel as [|fuel IH]; intros i result w Hi Hfuel;
    cbn [execDMLPKRows_loop]; destruct (i <? Go.len pkRows) eqn:Hlt; cbn [negb];
    try discriminate; apply Z.ltb_lt in Hlt; [lia|].
  apply bind_finishes; [destruct (Go.slice pkRows i _); discriminate|].
  intros batch w1 Hbatch. apply lift_option_Ret in Hbatch as [Hslice ->].
  apply slice_Some in Hslice as (_ & Hend & _ & _).
  pose proof (next_index (Go.len pkRows) maxRows i Hm ltac:(lia) Hend ltac:(lia)) as Hnext.
  apply bind_finishes.
  { destruct sl as [s|]; [|discriminate].
    apply bind_finishes; [destruct (Go.slice s i _); discriminate|]. discriminate. }
  intros bs w2 _. apply bind_finishes; [apply index0_Columns_finishes|].
  intros cols w3 _. apply bind_finishes; [discriminate|].
  intros _ w4 _. apply bind_finishes; [apply directFetch_finishes|].
  intros r w5 _. pose proof (wrap64_range (i + maxRows)) as Hr.
  unfold Go.int64_add in Hnext |- *. rewrite Hnext in Hr |- *.
  apply IH; lia.
Qed.

Lemma execDMLPKRows_finishes fuel conn pkRows inv w :
  batch_size_ok w -> (length pkRows <= fuel)%nat ->
  execDMLPKRows E qre fuel conn pkRows inv w <> OutOfFuel.
Proof.
  intros Hok Hlen. unfold execDMLPKRows. destruct (Go.len pkRows =? 0); [discriminate|].
  apply bind_finishes; [discriminate|]. intros w' w1 [= <- <-].
  apply bind_finishes; [destruct (buildSecondaryList E _ _ _ _); discriminate|].
  intros sl w2 Hsl. apply lift_error_Ret in Hsl as [_ ->].
  apply bind_finishes.
  - apply execDMLPKRows_loop_finishes; [exact Hok|lia|unfold Go.len; lia].
  - intros result w3 _. destruct inv as [inv|]; [|discriminate].
    apply bind_finishes; [|discriminate].
    apply finishes_ne. apply post_for_range; try always_side.
    intros s x. apply post_emit with (allowed := any_statement);
      first [always_side|split; reflexivity].
Qed.

End Loop_finishes.

(** The row lists the collaborators hand to the executor have at most
    [n] rows. *)
Definition rows_bounded (E : Collaborators) (n : nat) : Prop :=
  (forall ti pkv bv rows, buildValueList E ti pkv bv = inr rows -> (length rows <= n)%nat)
  /\ (forall h conn sql maxrows wantfields result,
        conn_Exec E h conn sql maxrows wantfields = inr result ->
        (length (mproto.Rows result) <= n)%nat).

Definition keeps_batch_size (w w' : World) : Prop := batch_size_ok w -> batch_size_ok w'.
Definition bad_batch_size (w : World) : Prop := ~ batch_size_ok w.

Section Finishes.

Variable E : Collaborators.
Variable qre : QueryExecutor.
Variable bound : nat.
Variable fuel : nat.
Hypothesis E_bounded : rows_bounded E bound.
Hypothesis enough : (bound <= fuel)%nat.

Lemma execDMLPK_finishes conn inv w :
  batch_size_ok w -> execDMLPK E qre fuel conn inv w <> OutOfFuel.
Proof.
  intros Hok. unfold execDMLPK.
  apply bind_finishes; [discriminate|]. intros w' w1 [= <- <-].
  apply bind_finishes; [destruct (buildValueList E _ _ _); discriminate|].
  intros pkRows w2 Hrows. apply lift_error_Ret in Hrows as [Hrows ->].
  apply execDMLPKRows_finishes; [exact Hok|].
  apply (proj1 E_bounded) in Hrows. lia.
Qed.

Lemma execDMLSubquery_finishes conn inv w :
  batch_size_ok w -> execDMLSubquery E qre fuel conn inv w <> OutOfFuel.
Proof.
  intros Hok. unfold execDMLSubquery.
  apply bind_finishes; [apply directFetch_finishes|].
  intros inner w1 Hsub. rewrite directFetch_run in Hsub. cbv zeta in Hsub.
  destruct (final_sql E _ None _) as [err|sql]; [discriminate|].
  destruct (conn_Exec E (history w) conn sql _ true) as [err|result] eqn:Hans; [discriminate|].
  injection Hsub as <- <-.
  apply execDMLPKRows_finishes; [exact Hok|].
  apply (proj2 E_bounded) in Hans. lia.
Qed.

Ltac batch_side :=
  let H := fresh in
  let H1 := fresh in
  let H2 := fresh in
  first [ (intros ? H; exact H)
        | (intros ? ? ? H1 H2 H; exact (H2 (H1 H)))
        | (intros ? ? _ H; exact H)
        | (intros ? ? ? ? _ H1 H; exact (H1 H))
        | (intros ? ? H1 H2 H; exact (H2 (H1 H)))
        | (intros ? ? H; exact H)
        | (intros ? ? _ _ H; exact H)
        | exact unknown_push | exact unknown_any
        | (intros ? ? _ _; exact I)
        | (intros; apply any_statement_sendable) | (intros; exact I) ].

Lemma post_or_finish {A} (m : M A) :
  post keeps_batch_size unknown m ->
  (forall w, batch_size_ok w -> m w <> OutOfFuel) ->
  post keeps_batch_size bad_batch_size m.
Proof.
  intros Hp Hf w. specialize (Hp w). specialize (Hf w).
  destruct (m w); [exact Hp|exact Hp|]. intros Hok. exact (Hf Hok eq_refl).
Qed.

(** An integer [SetValue] is an int64. *)
Hypothesis SetValue_int64 :
  forall v, ExecPlan.SetValue (plan qre) = SVInt64 v -> v < 2 ^ 63.

Lemma Execute_finishes w : batch_size_ok w -> Execute E qre fuel w <> OutOfFuel.
Proof.
  intros Hok Hout.
  assert (post keeps_batch_size bad_batch_size (Execute E qre fuel)) as Hpost.
  { apply post_Execute with (allowed := any_statement); try batch_side.
    - intros conn inv. apply post_or_finish.
      + apply post_execDMLPK with (allowed := any_statement); batch_side.
      + intros w0. apply execDMLPK_finishes.
    - intros conn inv. apply post_or_finish.
      + apply post_execDMLSubquery with (allowed := any_statement); batch_side.
      + intros w0. apply execDMLSubquery_finishes.
    - apply post_execSet with (allowed := any_statement); try batch_side.
      intros v w0 Hv Hge _. split; [exact Hge|exact (SetValue_int64 v Hv)]. }
  specialize (Hpost w). rewrite Hout in Hpost. exact (Hpost Hok).
Qed.

End Finishes.

(** C1: whatever way a request leaves [Execute] or [qFetch], by return or
    by panic, the history it added has as many connections obtained (from
    a pool or from the transaction pool) as connections recycled, in total
    and for each connection.  [qFetch] always leaves; [Execute] leaves
    whenever the DML batch size is a positive int64 and the fuel covers the
    longest row list a collaborator can hand over. *)
Theorem connection_balance E qre fuel w :
  (forall w', final_world (Execute E qre fuel w) = Some w' -> balance w w')
  /\ (forall pq r w', final_world (qFetch E pq r w) = Some w' -> balance w w')
  /\ (forall pq r, qFetch E pq r w <> OutOfFuel)
  /\ (forall bound,
        rows_bounded E bound -> (bound <= fuel)%nat ->
        (forall v, ExecPlan.SetValue (plan qre) = SVInt64 v -> v < 2 ^ 63) ->
        batch_size_ok w ->
        Execute E qre fuel w <> OutOfFuel).
Proof.
  repeat split.
  - intros w' Hw'. pose proof (Execute_balance E qre fuel w) as H.
    destruct (Execute E qre fuel w); cbn in Hw'; try discriminate;
      injection Hw' as <-; exact H.
  - intros pq r w' Hw'. pose proof (qFetch_balance E pq r w) as H.
    destruct (qFetch E pq r w); cbn in Hw'; try discriminate;
      injection Hw' as <-; exact H.
  - intros pq r. apply finishes_ne.
    apply post_qFetch with (allowed := any_statement); always_side.
  - intros bound Hb Hfuel Hset Hok.
    exact (Execute_finishes E qre bound fuel Hb Hfuel Hset w Hok).
Qed.

(** A [PK_IN] read of three keys on the sample tablet: one connection is
    taken from the pool for the backend read and given back. *)
Lemma connection_balance_witness :
  let q := Scenario.mkQre 0 Scenario.client
             (Scenario.mkPlan planbuilder.PLAN_PK_IN "" (SVInt64 0)
                [Scenario.pk "1"; Scenario.pk "2"; Scenario.pk "3"] Scenario.noRules) in
  exists w',
    final_world (Execute Scenario.collab q 0 (Scenario.world 0)) = Some w'
    /\ balanced (history w')
    /\ count is_checkout (history w') = 1%nat.
Proof.
  intros q.
  assert (exists w', final_world (Execute Scenario.collab q 0 (Scenario.world 0)) = Some w'
                     /\ count is_checkout (history w') = 1%nat) as (w' & Hrun & Hcount)
    by (eexists; split; vm_compute; reflexivity).
  exists w'. split; [exact Hrun|]. split; [|exact Hcount].
  destruct (proj1 (connection_balance Scenario.collab q 0 (Scenario.world 0)) w' Hrun)
    as (seg & Hseg & Hbal).
  cbn in Hseg. rewrite Hseg. exact Hbal.
Defined.

(** ** Row-cache read-through *)

Ltac run_step :=
  match goal with
  | |- context [match ?m with Ret _ _ => _ | Panic _ _ => _ | OutOfFuel => _ end] =>
      lazymatch m with
      | context [match _ with Ret _ _ => _ | Panic _ _ => _ | OutOfFuel => _ end] => fail
      | context [if _ then _ else _] => fail
      | _ => destruct m as [? ?|? ?|] eqn:?
      end
  | |- context [match ?x with (_, _) => _ end] => destruct x
  | |- context [if negb ?b then _ else _] => destruct b; cbn [negb]
  end.

Lemma fetchMulti_finishes E qre pkRows limit w : fetchMulti E qre pkRows limit w <> OutOfFuel.
Proof. apply finishes_ne. apply post_fetchMulti with (allowed := any_statement); always_side. Qed.

(** C3: with [Fields] known, [fetchMulti] on no PK rows or with limit 0
    returns the empty result carrying [Fields] and touches nothing.
    Otherwise a run with limit [l] does what the run without limit
    (limit -1) does, and returns the same rows cut to the first [l] when
    [l > 0] and more than [l] rows were assembled; [RowsAffected] is the
    number of rows returned.  A negative limit cuts nothing. *)
Theorem fetchMulti_limit E qre pkRows limit w fields :
  ExecPlan.Fields (plan qre) = Some fields ->
  ((pkRows = [] \/ limit = 0) ->
   fetchMulti E qre pkRows limit w = Ret (mproto.set_Fields (Some fields) mproto.empty) w)
  /\ (pkRows <> [] -> limit <> 0 ->
      fetchMulti E qre pkRows limit w <> OutOfFuel
      /\ match fetchMulti E qre pkRows (-1) w with
         | Ret all w' =>
             mproto.RowsAffected all = Go.len (mproto.Rows all)
             /\ exists r,
                  fetchMulti E qre pkRows limit w = Ret r w'
                  /\ mproto.Fields r = Some fields
                  /\ mproto.Rows r =
                     (if (0 <? limit) && (limit <? Go.len (mproto.Rows all))
                      then take (Z.to_nat limit) (mproto.Rows all)
                      else mproto.Rows all)
                  /\ mproto.RowsAffected r = Go.len (mproto.Rows r)
         | Panic p w' => fetchMulti E qre pkRows limit w = Panic p w'
         | OutOfFuel => True
         end).
Proof.
  intros Hf. split.
  - intros Hempty. unfold fetchMulti. rewrite Hf.
    destruct Hempty as [-> | ->]; [reflexivity|].
    rewrite orb_true_r. reflexivity.
  - intros Hrows Hlimit. split; [apply fetchMulti_finishes|].
    assert ((Go.len pkRows =? 0) = false) as Hlen.
    { apply Z.eqb_neq. unfold Go.len. destruct pkRows; [congruence|cbn; lia]. }
    assert ((limit =? 0) = false) as Hlim by (apply Z.eqb_neq; exact Hlimit).
    unfold fetchMulti. rewrite Hf, Hlen, Hlim. cbn [orb Z.eqb].
    unfold bind.
    repeat (run_step; try reflexivity; try exact I).
    all: cbn; split; [reflexivity|].
    all: destruct ((0 <? limit) && (limit <? Go.len _)) eqn:Hcut;
      eexists; (split; [reflexivity|]); (split; [reflexivity|]);
      (split; [reflexivity|]); cbn; [|reflexivity].
    all: apply andb_true_iff in Hcut as [H0 Hl];
      apply Z.ltb_lt in H0; apply Z.ltb_lt in Hl;
      unfold Go.len in *; rewrite length_take; lia.
Qed.

(** Three keys, none cached, three rows back from the tablet: limit 2
    keeps the first two. *)
Lemma fetchMulti_limit_witness :
  let q := Scenario.mkQre 0 Scenario.client
             (Scenario.mkPlan planbuilder.PLAN_PK_IN "" (SVInt64 0) [] Scenario.noRules) in
  let keys := [[VRaw "1"]; [VRaw "2"]; [VRaw "3"]] in
  exists r w',
    fetchMulti Scenario.reading q keys 2 (Scenario.world 0) = Ret r w'
    /\ mproto.Rows r = [[VRaw "1"]; [VRaw "2"]]
    /\ mproto.RowsAffected r = 2.
Proof.
  intros q keys.
  pose proof (proj2 (fetchMulti_limit Scenario.reading q keys 2 (Scenario.world 0) _ eq_refl)
                ltac:(discriminate) ltac:(discriminate)) as [_ H].
  vm_compute in H. destruct H as (_ & r & Hrun & _ & Hrows & Haff).
  change (mproto.Rows r = [[VRaw "1"]; [VRaw "2"]]) in Hrows.
  change (mproto.RowsAffected r = Go.len (mproto.Rows r)) in Haff.
  exists r. eexists. split; [exact Hrun|]. split; [exact Hrows|].
  rewrite Haff, Hrows. reflexivity.
Defined.

(** ** Strict mode and PASS_DML *)

Definition is_exec (e : Event) : bool :=
  match e with EvExec _ _ _ _ _ => true | _ => false end.

Definition invalidator_of (qre : QueryExecutor) (conn : Conn) : option Invalidator :=
  match ExecPlan.TableInfo (plan qre) with
  | Some ti =>
      match schema.CacheType ti with
      | schema.CACHE_NONE => None
      | _ => Some {| inv_conn := conn; inv_table := ExecPlan.TableName (plan qre) |}
      end
  | None => None
  end.

Definition with_invalidator (qre : QueryExecutor) (conn : Conn) (w : World) : World :=
  match invalidator_of qre conn with
  | Some _ => push (EvDirtyKeys conn (ExecPlan.TableName (plan qre))) w
  | None => w
  end.

Lemma make_invalidator_run qre conn w :
  make_invalidator qre conn w = Ret (invalidator_of qre conn) (with_invalidator qre conn w).
Proof.
  unfold with_invalidator. unfold make_invalidator, invalidator_of.
  destruct (ExecPlan.TableInfo (plan qre)) as [ti|]; [|reflexivity].
  destruct (schema.CacheType ti); reflexivity.
Qed.

Lemma checkPermissions_Ret E qre w w1 :
  checkPermissions E qre w = Ret tt w1 ->
  w1 = w \/ exists msg, w1 = push (EvAccessCheckerLog msg) w.
Proof.
  unfold checkPermissions. destruct (ctx qre) as [|ci]; [intros [= <-]; auto|].
  unfold bind, get_world.
  destruct (ExecPlan.Rules_getAction _ _ _ _) as [[| |] desc]; try discriminate.
  destruct (ExecPlan.Authorized (plan qre)) as [IsMember|]; [|intros [= <-]; auto].
  destruct (negb _); [|intros [= <-]; auto].
  destruct (strictTableAcl (qe qre)); [discriminate|].
  intros [= <-]. right. eexists. reflexivity.
Qed.

Definition header (E : Collaborators) (qre : QueryExecutor) (w : World) : World :=
  set_logStats
    (LogStats.set_header (query qre) (Some QreBindVars) (transactionID qre)
       (PlanId_String E (ExecPlan.PlanId (plan qre))) (logStats w)) w.

Definition failed_stats (E : Collaborators) (qre : QueryExecutor) (w : World) : World :=
  push (EvPlanStats 1 0 1) (push (EvQueryStats (PlanId_String E (ExecPlan.PlanId (plan qre)))) w).

Definition served_stats (E : Collaborators) (qre : QueryExecutor) (r : mproto.QueryResult)
    (w : World) : World :=
  let w1 := push (EvPlanStats 1 (Go.wrap64 (mproto.RowsAffected r)) 0)
              (push (EvQueryStats (PlanId_String E (ExecPlan.PlanId (plan qre)))) w) in
  push (EvResultStats (Go.len (mproto.Rows r)))
    (set_logStats (LogStats.set_result (Go.wrap64 (mproto.RowsAffected r)) (mproto.Rows r)
                     (logStats w1)) w1).

Lemma Execute_tx_pass_dml E qre fuel w w1 conn :
  ExecPlan.PlanId (plan qre) = planbuilder.PLAN_PASS_DML ->
  transactionID qre <> 0 ->
  checkPermissions E qre (header E qre w) = Ret tt w1 ->
  txPool_Get E (history w1) (transactionID qre) = inr conn ->
  let pinned := with_invalidator qre conn
                  (push (EvRecordQuery conn (query qre))
                     (push (EvTxPoolGet (transactionID qre) (inr conn)) w1)) in
  Execute E qre fuel w =
  if negb (strictMode (tunables w) =? 0)
  then Panic (NewTabletError ErrFail "DML too complex")
         (failed_stats E qre (push (EvRecycle conn) pinned))
  else match directFetch E conn (ExecPlan.FullQuery (plan qre)) QreBindVars None pinned with
       | Ret r w2 => Ret (Some r) (served_stats E qre r (push (EvRecycle conn) w2))
       | Panic p w2 => Panic p (failed_stats E qre (push (EvRecycle conn) w2))
       | OutOfFuel => OutOfFuel
       end.
Proof.
  intros Hplan Htx Hperm Hget pinned.
  assert (tunables w1 = tunables w /\ bindVars w1 = bindVars w) as [Htun Hbv].
  { apply checkPermissions_Ret in Hperm as [->|[msg ->]]; split; reflexivity. }
  unfold header in Hperm. unfold Execute, failed_stats, served_stats.
  rewrite Hplan in Hperm |- *.
  cbv beta iota zeta delta [bind modify defer_named].
  rewrite Hperm.
  destruct (transactionID qre =? 0) eqn:Hz; [apply Z.eqb_eq in Hz; contradiction|].
  cbv beta iota zeta delta [negb bind txPool_Get_call ask ret defer_call emit modify Recycle].
  rewrite Hget. cbv beta iota.
  rewrite make_invalidator_run.
  fold (push (EvTxPoolGet (transactionID qre) (inr conn)) w1).
  fold (push (EvRecordQuery conn (query qre))
          (push (EvTxPoolGet (transactionID qre) (inr conn)) w1)).
  fold pinned.
  assert (tunables pinned = tunables w) as Hpt.
  { subst pinned. unfold with_invalidator. destruct (invalidator_of qre conn); exact Htun. }
  unfold strict_check, bind, get_world. rewrite Hpt.
  destruct (strictMode (tunables w) =? 0); [|reflexivity].
  cbv beta iota delta [negb ret some bind].
  destruct (directFetch E conn _ QreBindVars None pinned) as [r w2|p w2|]; reflexivity.
Qed.

Lemma autoCommit_branch_pass_dml E qre fuel txid conn w :
  ExecPlan.PlanId (plan qre) = planbuilder.PLAN_PASS_DML ->
  txPool_Get E (history w) txid = inr conn ->
  let pinned := with_invalidator qre conn (push (EvTxPoolGet txid (inr conn)) w) in
  autoCommit_branch E qre fuel txid w =
  if negb (strictMode (tunables w) =? 0)
  then Panic (NewTabletError ErrFail "DML too complex") (push (EvRecycle conn) pinned)
  else match directFetch E conn (ExecPlan.FullQuery (plan qre)) QreBindVars None pinned with
       | Ret r w2 => Ret (Some r) (push (EvRecycle conn) w2)
       | Panic p w2 => Panic p (push (EvRecycle conn) w2)
       | OutOfFuel => OutOfFuel
       end.
Proof.
  intros Hplan Hget pinned. unfold autoCommit_branch. rewrite Hplan.
  cbv beta iota zeta delta [bind txPool_Get_call ask ret defer_call emit modify Recycle].
  rewrite Hget. cbv beta iota.
  rewrite make_invalidator_run.
  fold (push (EvTxPoolGet txid (inr conn)) w). fold pinned.
  assert (tunables pinned = tunables w) as Hpt.
  { subst pinned. unfold with_invalidator. destruct (invalidator_of qre conn); reflexivity. }
  unfold strict_check, bind, get_world. rewrite Hpt.
  destruct (strictMode (tunables w) =? 0); [|reflexivity].
  cbv beta iota delta [negb ret some bind].
  destruct (directFetch E conn _ QreBindVars None pinned) as [r w2|p w2|]; reflexivity.
Qed.

Lemma Execute_auto_pass_dml E qre fuel w w1 txid conn :
  ExecPlan.PlanId (plan qre) = planbuilder.PLAN_PASS_DML ->
  transactionID qre = 0 ->
  enableAutoCommit (qe qre) = true ->
  checkPermissions E qre (header E qre w) = Ret tt w1 ->
  txPool_Begin E (history w1) = inr txid ->
  txPool_Get E (history w1 ++ [EvBegin (inr txid)]) txid = inr conn ->
  let pinned := with_invalidator qre conn
                  (push (EvTxPoolGet txid (inr conn))
                     (logged "begin" (push (EvBegin (inr txid)) w1))) in
  Execute E qre fuel w =
  if negb (strictMode (tunables w) =? 0)
  then Panic (NewTabletError ErrFail "DML too complex")
         (failed_stats E qre
            (logged "rollback" (push (EvRollback txid) (push (EvRecycle conn) pinned))))
  else match directFetch E conn (ExecPlan.FullQuery (plan qre)) QreBindVars None pinned with
       | Ret r w2 =>
           match qe_Commit E (history w2 ++ [EvRecycle conn]) txid with
           | None =>
               Ret (Some r)
                 (served_stats E qre r
                    (logged "commit" (push (EvCommit txid None) (push (EvRecycle conn) w2))))
           | Some p =>
               Panic p
                 (failed_stats E qre
                    (push (EvCommit txid (Some p)) (push (EvRecycle conn) w2)))
           end
       | Panic p w2 =>
           Panic p
             (failed_stats E qre
                (logged "rollback" (push (EvRollback txid) (push (EvRecycle conn) w2))))
       | OutOfFuel => OutOfFuel
       end.
Proof.
  intros Hplan Htx Hauto Hperm Hbegin Hget pinned.
  assert (tunables w1 = tunables w) as Htun.
  { apply checkPermissions_Ret in Hperm as [->|[msg ->]]; reflexivity. }
  unfold header in Hperm. unfold Execute, failed_stats, served_stats.
  rewrite Hplan in Hperm |- *.
  cbv beta iota zeta delta [bind modify defer_named].
  rewrite Hperm, Htx, Hauto. change (0 =? 0) with true. cbv beta iota delta [negb].
  rewrite execDmlAutoCommit_run, Hbegin.
  rewrite (autoCommit_branch_pass_dml E qre fuel txid conn
             (logged "begin" (push (EvBegin (inr txid)) w1)) Hplan Hget).
  cbv zeta. fold pinned.
  change (tunables (logged "begin" (push (EvBegin (inr txid)) w1))) with (tunables w1).
  rewrite Htun.
  destruct (strictMode (tunables w) =? 0); [|reflexivity].
  cbv beta iota delta [negb].
  destruct (directFetch E conn _ QreBindVars None pinned) as [r w2|p w2|]; [|reflexivity..].
  change (history (push (EvRecycle conn) w2)) with (history w2 ++ [EvRecycle conn]).
  destruct (qe_Commit E (history w2 ++ [EvRecycle conn]) txid); reflexivity.
Qed.

Definition sent (w : World) : nat := count is_exec (history w).

Lemma sent_push e w : is_exec e = false -> sent (push e w) = sent w.
Proof. intros He. unfold sent. cbn. rewrite count_app. cbn. rewrite He. lia. Qed.

Lemma sent_with_invalidator qre conn w : sent (with_invalidator qre conn w) = sent w.
Proof.
  unfold with_invalidator. destruct (invalidator_of qre conn); [|reflexivity].
  apply sent_push. reflexivity.
Qed.

Lemma sent_checkPermissions E qre w w1 :
  checkPermissions E qre w = Ret tt w1 ->
  sent w1 = sent w /\ tunables w1 = tunables w /\ bindVars w1 = bindVars w.
Proof.
  intros H. apply checkPermissions_Ret in H as [->|[msg ->]]; repeat split.
  apply sent_push. reflexivity.
Qed.

Lemma frame_with_invalidator qre conn w :
  tunables (with_invalidator qre conn w) = tunables w
  /\ bindVars (with_invalidator qre conn w) = bindVars w.
Proof. unfold with_invalidator. destruct (invalidator_of qre conn); split; reflexivity. Qed.

(** Modelled from the spec: the transaction pool is declared outside this
    file.  Its [Begin] issues BEGIN on the connection it pins, and
    [Commit], [SafeCommit] and [Rollback] issue their statement on that
    connection before they release it; [execDmlAutoCommit] logs them as
    ["begin"], ["commit"] and ["rollback"].  With the [Exec] calls of the
    executor these are the statements a connection runs. *)
Definition runs_sql (e : Event) : bool :=
  match e with
  | EvExec _ _ _ _ _ | EvBegin (inr _) | EvCommit _ _ | EvRollback _ | EvSafeCommit _ => true
  | _ => false
  end.

Definition statements (w : World) : nat := count runs_sql (history w).

Lemma statements_push e w :
  statements (push e w) = (statements w + if runs_sql e then 1 else 0)%nat.
Proof. unfold statements. cbn. rewrite count_app. cbn. destruct (runs_sql e); lia. Qed.

Lemma statements_with_invalidator qre conn w :
  statements (with_invalidator qre conn w) = statements w.
Proof.
  unfold with_invalidator. destruct (invalidator_of qre conn); [|reflexivity].
  rewrite statements_push. cbn. lia.
Qed.

Lemma statements_checkPermissions E qre w w1 :
  checkPermissions E qre w = Ret tt w1 -> statements w1 = statements w.
Proof.
  intros H. apply checkPermissions_Ret in H as [->|[msg ->]]; [reflexivity|].
  rewrite statements_push. cbn. lia.
Qed.

(** Read to the letter, "without executing any SQL on the connection"
    says that a refused request leaves the count of statements as it
    was. *)
Definition strict_runs_no_sql (E : Collaborators) (qre : QueryExecutor) (fuel : nat)
    (w : World) : Prop :=
  ExecPlan.PlanId (plan qre) = planbuilder.PLAN_PASS_DML ->
  strictMode (tunables w) <> 0 ->
  exists w',
    Execute E qre fuel w = Panic (NewTabletError ErrFail "DML too complex") w'
    /\ statements w' = statements w.

(** What becomes of one PASS_DML request served on [conn], whose pinned
    connection is ready in world [pinned]: under strict mode it is refused
    in world [refused], where the executor has sent nothing and the
    transaction pool has run [around] statements; [settle] is what becomes
    of a statement the backend accepted. *)
Definition pass_dml_outcome (E : Collaborators) (qre : QueryExecutor) (fuel : nat)
    (w pinned : World) (conn : Conn) (refused : World) (around : nat)
    (settle : string -> mproto.QueryResult -> World -> World -> Prop) : Prop :=
  (strictMode (tunables w) <> 0 ->
   Execute E qre fuel w
   = Panic (NewTabletError ErrFail "DML too complex") (failed_stats E qre refused)
   /\ sent (failed_stats E qre refused) = sent w
   /\ statements (failed_stats E qre refused) = (statements w + around)%nat)
  /\ (strictMode (tunables w) = 0 ->
      forall sql,
        final_sql E (ExecPlan.FullQuery (plan qre)) None (with_maxLimit w (bindVars w))
        = inr sql ->
        exists answer rest w',
          answer = conn_Exec E (history pinned) conn sql (maxResultSize (tunables w)) true
          /\ history w'
             = history pinned
               ++ EvExec conn sql (maxResultSize (tunables w)) true answer :: rest
          /\ sent pinned = sent w
          /\ count is_exec rest = 0%nat
          /\ match answer with
             | inl err => Execute E qre fuel w = Panic (PError err) w'
             | inr r => settle sql r pinned w'
             end).

(** C4, as it holds: a PASS_DML request that has passed the policy gate
    and obtained its pinned connection, in a transaction or through
    auto-commit.  With strict mode on it fails with [ErrFail] "DML too
    complex" and the executor has sent no statement: the history holds no
    [Exec] it did not hold before.  In a transaction nothing at all has
    run on the connection; through auto-commit the transaction was begun
    before the check and is rolled back after it, so BEGIN and ROLLBACK
    have run.  With strict mode off, the one statement sent on the
    connection is the final SQL of [FullQuery], and the request ends as the
    backend answers (and, under auto-commit, as the commit goes). *)
Theorem pass_dml_strict_mode E qre fuel w w1 :
  ExecPlan.PlanId (plan qre) = planbuilder.PLAN_PASS_DML ->
  checkPermissions E qre (header E qre w) = Ret tt w1 ->
  (forall conn,
     transactionID qre <> 0 ->
     txPool_Get E (history w1) (transactionID qre) = inr conn ->
     let pinned := with_invalidator qre conn
                     (push (EvRecordQuery conn (query qre))
                        (push (EvTxPoolGet (transactionID qre) (inr conn)) w1)) in
     pass_dml_outcome E qre fuel w pinned conn
       (push (EvRecycle conn) pinned) 0
       (fun _ r _ w' => Execute E qre fuel w = Ret (Some r) w'))
  /\ (forall txid conn,
        transactionID qre = 0 ->
        enableAutoCommit (qe qre) = true ->
        txPool_Begin E (history w1) = inr txid ->
        txPool_Get E (history w1 ++ [EvBegin (inr txid)]) txid = inr conn ->
        let pinned := with_invalidator qre conn
                        (push (EvTxPoolGet txid (inr conn))
                           (logged "begin" (push (EvBegin (inr txid)) w1))) in
        pass_dml_outcome E qre fuel w pinned conn
          (logged "rollback" (push (EvRollback txid) (push (EvRecycle conn) pinned))) 2
          (fun sql r pinned w' =>
             match qe_Commit E
                     (history pinned
                      ++ [EvExec conn sql (maxResultSize (tunables w)) true (inr r);
                          EvRecycle conn]) txid with
             | None => Execute E qre fuel w = Ret (Some r) w'
             | Some p => Execute E qre fuel w = Panic p w'
             end)).
Proof.
  intros Hplan Hperm.
  destruct (sent_checkPermissions E qre _ w1 Hperm) as (Hs1 & Ht1 & Hb1).
  pose proof (statements_checkPermissions E qre _ w1 Hperm) as Hq1.
  change (statements (header E qre w)) with (statements w) in Hq1.
  change (sent (header E qre w)) with (sent w) in Hs1.
  change (tunables (header E qre w)) with (tunables w) in Ht1.
  change (bindVars (header E qre w)) with (bindVars w) in Hb1.
  split.
  - intros conn Htx Hget.
    pose proof (Execute_tx_pass_dml E qre fuel w w1 conn Hplan Htx Hperm Hget) as Hrun.
    cbv zeta in Hrun |- *.
    set (pinned := with_invalidator qre conn _) in *.
    assert (sent pinned = sent w) as Hsp.
    { subst pinned. rewrite sent_with_invalidator, !sent_push by reflexivity. exact Hs1. }
    assert (statements pinned = statements w) as Hqp.
    { subst pinned. rewrite statements_with_invalidator, !statements_push. cbn. lia. }
    assert (tunables pinned = tunables w /\ bindVars pinned = bindVars w) as [Htp Hbp].
    { subst pinned. destruct (frame_with_invalidator qre conn
        (push (EvRecordQuery conn (query qre))
           (push (EvTxPoolGet (transactionID qre) (inr conn)) w1))) as [-> ->].
      split; assumption. }
    clearbody pinned.
    split.
    + intros Hstrict. apply Z.eqb_neq in Hstrict. rewrite Hstrict in Hrun.
      split; [exact Hrun|]. unfold failed_stats. split.
      * rewrite !sent_push by reflexivity. exact Hsp.
      * rewrite !statements_push. cbn. lia.
    + intros Hstrict sql Hsql. rewrite Hstrict in Hrun. cbn [Z.eqb negb] in Hrun.
      rewrite directFetch_run in Hrun. cbv zeta in Hrun.
      unfold with_maxLimit, maxLimit_of in Hrun, Hsql. rewrite Htp, Hbp, Hsql in Hrun.
      destruct (conn_Exec E (history pinned) conn sql _ true) as [err|r] eqn:Hans;
        eexists; eexists; eexists; (split; [reflexivity|]);
        (split; [|split; [exact Hsp|split; [|exact Hrun]]]).
      * cbn. rewrite Htp, <- !app_assoc. reflexivity.
      * reflexivity.
      * cbn. rewrite Htp, <- !app_assoc. reflexivity.
      * reflexivity.
  - intros txid conn Htx Hauto Hbegin Hget.
    pose proof (Execute_auto_pass_dml E qre fuel w w1 txid conn Hplan Htx Hauto Hperm
                  Hbegin Hget) as Hrun.
    cbv zeta in Hrun |- *.
    set (pinned := with_invalidator qre conn _) in *.
    assert (sent pinned = sent w) as Hsp.
    { subst pinned. rewrite sent_with_invalidator, sent_push by reflexivity.
      change (sent (logged "begin" (push (EvBegin (inr txid)) w1)))
        with (sent (push (EvBegin (inr txid)) w1)).
      rewrite sent_push by reflexivity. exact Hs1. }
    assert (statements pinned = S (statements w)) as Hqp.
    { subst pinned. rewrite statements_with_invalidator, statements_push.
      change (statements (logged "begin" (push (EvBegin (inr txid)) w1)))
        with (statements (push (EvBegin (inr txid)) w1)).
      rewrite statements_push. cbn. lia. }
    assert (tunables pinned = tunables w /\ bindVars pinned = bindVars w) as [Htp Hbp].
    { subst pinned. destruct (frame_with_invalidator qre conn
        (push (EvTxPoolGet txid (inr conn))
           (logged "begin" (push (EvBegin (inr txid)) w1)))) as [-> ->].
      split; assumption. }
    clearbody pinned.
    split.
    + intros Hstrict. apply Z.eqb_neq in Hstrict. rewrite Hstrict in Hrun.
      split; [exact Hrun|]. unfold failed_stats. split.
      * rewrite !sent_push by reflexivity.
        change (sent (logged "rollback" ?x)) with (sent x).
        rewrite !sent_push by reflexivity. exact Hsp.
      * rewrite !statements_push.
        change (statements (logged "rollback" ?x)) with (statements x).
        rewrite !statements_push. cbn. lia.
    + intros Hstrict sql Hsql. rewrite Hstrict in Hrun. cbn [Z.eqb negb] in Hrun.
      rewrite directFetch_run in Hrun. cbv zeta in Hrun.
      unfold with_maxLimit, maxLimit_of in Hrun, Hsql. rewrite Htp, Hbp, Hsql in Hrun.
      destruct (conn_Exec E (history pinned) conn sql _ true) as [err|r] eqn:Hans.
      * eexists; eexists; eexists; (split; [reflexivity|]).
        split; [|split; [exact Hsp|split; [|exact Hrun]]].
        -- cbn. rewrite Htp, <- !app_assoc. reflexivity.
        -- reflexivity.
      * assert (history (after_Exec conn sql true (inr r)
                           (set_bindVars
                              (<["#maxLimit":=BVInt64
                                   (Go.int64_add (maxResultSize (tunables w)) 1)]>
                                 (bindVars w)) pinned)) ++ [EvRecycle conn]
                = history pinned
                  ++ [EvExec conn sql (maxResultSize (tunables w)) true (inr r);
                      EvRecycle conn]) as Hh
          by (cbn; rewrite Htp, <- !app_assoc; reflexivity).
        rewrite Hh in Hrun. clear Hh.
        destruct (qe_Commit E _ txid) as [p|] eqn:Hcommit;
          eexists; eexists; eexists; (split; [reflexivity|]);
          (split; [|split; [exact Hsp|split; [|rewrite Hcommit; exact Hrun]]]).
        -- cbn. rewrite Htp, <- !app_assoc. reflexivity.
        -- reflexivity.
        -- cbn. rewrite Htp, <- !app_assoc. reflexivity.
        -- reflexivity.
Qed.

(** The sample tablet under strict mode: inside transaction 5 the request
    is refused and nothing has run; outside a transaction it is refused
    between the BEGIN and the ROLLBACK of transaction 42.  With strict mode
    off the statement goes through. *)
Lemma pass_dml_strict_mode_witness :
  let p := Scenario.mkPlan planbuilder.PLAN_PASS_DML "" (SVInt64 0) [] Scenario.noRules in
  let q := Scenario.mkQre 5 Scenario.client p in
  let q0 := Scenario.mkQre 0 Scenario.client p in
  (exists w',
     Execute Scenario.collab q 0 (Scenario.world 1)
     = Panic (NewTabletError ErrFail "DML too complex") w'
     /\ statements w' = 0%nat)
  /\ (exists w',
        Execute Scenario.collab q0 0 (Scenario.world 1)
        = Panic (NewTabletError ErrFail "DML too complex") w'
        /\ sent w' = 0%nat
        /\ statements w' = 2%nat
        /\ stats_log w' = ["begin"; "rollback"])
  /\ (exists w',
        Execute Scenario.collab q 0 (Scenario.world 0)
        = Ret (Some (Scenario.okResult 1 [])) w'
        /\ In (EvExec 3%nat "full" 10000 true (inr (Scenario.okResult 1 []))) (history w')).
Proof.
  intros p q q0. split; [|split].
  - pose proof (proj1 (pass_dml_strict_mode Scenario.collab q 0 (Scenario.world 1)
                         (header Scenario.collab q (Scenario.world 1)) eq_refl eq_refl)
                  3%nat ltac:(discriminate) eq_refl) as H.
    cbv zeta in H. destruct H as [Hstrict _].
    destruct (Hstrict ltac:(discriminate)) as (Hrun & _ & Hran).
    eexists. split; [exact Hrun|exact Hran].
  - pose proof (proj2 (pass_dml_strict_mode Scenario.collab q0 0 (Scenario.world 1)
                         (header Scenario.collab q0 (Scenario.world 1)) eq_refl eq_refl)
                  42 3%nat eq_refl eq_refl eq_refl eq_refl) as H.
    cbv zeta in H. destruct H as [Hstrict _].
    destruct (Hstrict ltac:(discriminate)) as (Hrun & Hsent & Hran).
    eexists. split; [exact Hrun|]. split; [exact Hsent|]. split; [exact Hran|reflexivity].
  - pose proof (proj1 (pass_dml_strict_mode Scenario.collab q 0 (Scenario.world 0)
                         (header Scenario.collab q (Scenario.world 0)) eq_refl eq_refl)
                  3%nat ltac:(discriminate) eq_refl) as H.
    cbv zeta in H. destruct H as [_ Hpass].
    destruct (Hpass eq_refl "full" eq_refl) as (answer & rest & w' & -> & Hhist & _ & _ & Hrun).
    exists w'. split; [exact Hrun|].
    rewrite Hhist. apply in_or_app. right. left. reflexivity.
Defined.

(** C4 does not hold to the letter on the auto-commit path: on the sample
    tablet under strict mode the request is refused after BEGIN has run
    on the pinned connection, and ROLLBACK runs on it afterwards. *)
Lemma strict_auto_commit_runs_sql :
  ~ strict_runs_no_sql Scenario.collab
      (Scenario.mkQre 0 Scenario.client
         (Scenario.mkPlan planbuilder.PLAN_PASS_DML "" (SVInt64 0) [] Scenario.noRules))
      0 (Scenario.world 1).
Proof.
  intros Hnone. destruct (Hnone eq_refl ltac:(discriminate)) as (w' & Hrun & Hran).
  vm_compute in Hrun. injection Hrun as <-. vm_compute in Hran. discriminate Hran.
Qed.

(** ** DML chunking *)

(** [ceil (n / b)] *)
Definition batch_count (n b : Z) : Z := (n + b - 1) / b.

Lemma batch_count_spec n b k :
  1 <= b -> 0 <= n -> 0 <= k -> (k * b < n <-> k < batch_count n b).
Proof.
  intros Hb Hn Hk. unfold batch_count.
  pose proof (Z.div_mod (n + b - 1) b ltac:(lia)) as Hdiv.
  pose proof (Z.mod_pos_bound (n + b - 1) b ltac:(lia)) as Hmod.
  split; intros H; nia.
Qed.

Fixpoint total_affected (l : list mproto.QueryResult) : Z :=
  match l with
  | [] => 0
  | r :: l' => mproto.RowsAffected r + total_affected l'
  end.

Definition plan_index0 (qre : QueryExecutor) : option (list string) :=
  match ExecPlan.TableInfo (plan qre) with
  | Some ti =>
      match head (schema.Indexes ti) with
      | Some ix => Some (schema.Columns ix)
      | None => None
      end
  | None => None
  end.

Lemma index0_Columns_Ret qre w cols w1 :
  index0_Columns qre w = Ret cols w1 -> plan_index0 qre = Some cols /\ w1 = w.
Proof.
  unfold index0_Columns, tableInfo_deref, plan_index0, bind.
  destruct (ExecPlan.TableInfo (plan qre)) as [ti|]; cbn; [|discriminate].
  destruct (head (schema.Indexes ti)) as [ix|]; cbn; [|discriminate].
  intros [= <- <-]. auto.
Qed.

Lemma bind_Ret {A B} (m : M A) (k : A -> M B) w b w' :
  bind m k w = Ret b w' -> exists a w1, m w = Ret a w1 /\ k a w1 = Ret b w'.
Proof.
  unfold bind. destruct (m w) as [a w1|p w1|]; [|discriminate..].
  intros H. exists a, w1. auto.
Qed.

Lemma directFetch_Ret E conn pq bsc w r w' :
  directFetch E conn pq QreBindVars bsc w = Ret r w' ->
  exists sql,
    final_sql E pq bsc (with_maxLimit w (bindVars w)) = inr sql
    /\ conn_Exec E (history w) conn sql (maxResultSize (tunables w)) true = inr r
    /\ w' = after_Exec conn sql true (inr r) (set_bindVars (with_maxLimit w (bindVars w)) w).
Proof.
  rewrite directFetch_run. cbv zeta.
  destruct (final_sql E pq bsc _) as [err|sql]; [discriminate|].
  destruct (conn_Exec E (history w) conn sql _ true) as [err|r0] eqn:Hans; [discriminate|].
  intros [= <- <-]. exists sql. auto.
Qed.

Lemma for_range_emit {A} (f : A -> Event) (l : list A) w :
  for_range (fun (_ : unit) x => emit (f x)) l tt w
  = Ret tt (set_history (history w ++ map f l) w).
Proof.
  revert w. induction l as [|x l IH]; intros w; cbn [for_range map].
  - unfold ret. rewrite app_nil_r. destruct w; reflexivity.
  - unfold bind at 1. cbn [emit modify]. rewrite IH. cbn.
    rewrite <- app_assoc. reflexivity.
Qed.

(** Binding [#pk] and [#maxLimit] again forgets what they were bound to. *)
Lemma rebind (m : BindVars) (v x y : BindValue) :
  <["#maxLimit" := v]> (<["#pk" := x]> (<["#maxLimit" := v]> (<["#pk" := y]> m)))
  = <["#maxLimit" := v]> (<["#pk" := x]> m).
Proof.
  apply map_eq. intros i.
  destruct (decide (i = "#maxLimit")) as [->|Hml].
  - rewrite !lookup_insert_eq. reflexivity.
  - rewrite !(lookup_insert_ne _ "#maxLimit") by congruence.
    destruct (decide (i = "#pk")) as [->|Hpk].
    + rewrite !lookup_insert_eq. reflexivity.
    + rewrite !(lookup_insert_ne _ "#pk") by congruence.
      rewrite !(lookup_insert_ne _ "#maxLimit") by congruence.
      rewrite !(lookup_insert_ne _ "#pk") by congruence. reflexivity.
Qed.

Section Batches.

Variable E : Collaborators.
Variable qre : QueryExecutor.
Variable pkRows : list Row.
Variable secondaryList : option (list Row).
Variable maxRows : Z.
Variable w0 : World.
Variable cols : list string.

(** Batch [k] holds the rows [k * maxRows .. (k + 1) * maxRows) of the
    target list, and the matching stretch of the secondary list. *)
Definition batch (k : nat) : list Row :=
  take (Z.to_nat maxRows) (drop (k * Z.to_nat maxRows) pkRows).

Definition secondary_batch (k : nat) : option (list Row) :=
  match secondaryList with
  | Some s => Some (take (length (batch k)) (drop (k * Z.to_nat maxRows) s))
  | None => None
  end.

(** The bind variables and the statement of batch [k]: [#pk] is the tuple
    list of the batch's rows. *)
Definition batch_bindVars (k : nat) : BindVars :=
  with_maxLimit w0 (<["#pk" := BVTupleEqualityList cols (batch k)]> (bindVars w0)).

Definition batch_sql (k : nat) : GoError + string :=
  final_sql E (ExecPlan.OuterQuery (plan qre))
    (buildStreamComment E (ExecPlan.TableInfo (plan qre)) (batch k) (secondary_batch k))
    (batch_bindVars k).

Definition batch_event (conn : Conn) (s : string * mproto.QueryResult) : Event :=
  EvExec conn (fst s) (maxResultSize (tunables w0)) true (inr (snd s)).

Definition batches : nat := Z.to_nat (batch_count (Go.len pkRows) maxRows).

Definition same_binds (w : World) : Prop :=
  tunables w = tunables w0
  /\ forall x, with_maxLimit w0 (<["#pk" := x]> (bindVars w))
               = with_maxLimit w0 (<["#pk" := x]> (bindVars w0)).

Hypothesis maxRows_ok : 1 <= maxRows < 2 ^ 63.
Hypothesis cols_def : cols = default [] (plan_index0 qre).

Lemma more_batches k : (Z.of_nat (k * Z.to_nat maxRows) < Go.len pkRows) <-> (k < batches)%nat.
Proof.
  unfold batches.
  pose proof (batch_count_spec (Go.len pkRows) maxRows (Z.of_nat k)
                ltac:(lia) ltac:(unfold Go.len; lia) ltac:(lia)) as H.
  rewrite Nat2Z.inj_mul, Z2Nat.id by lia. rewrite H. lia.
Qed.

Lemma slice_is_batch k hi :
  hi = (if Go.len pkRows <=? Z.of_nat (k * Z.to_nat maxRows) + maxRows
        then Go.len pkRows else Z.of_nat (k * Z.to_nat maxRows) + maxRows) ->
  Z.of_nat (k * Z.to_nat maxRows) < Go.len pkRows ->
  Z.to_nat (hi - Z.of_nat (k * Z.to_nat maxRows)) = length (batch k).
Proof.
  intros -> Hlt. unfold batch. rewrite length_take, length_drop.
  unfold Go.len in *. destruct (_ <=? _) eqn:Hle; [apply Z.leb_le in Hle|apply Z.leb_gt in Hle]; lia.
Qed.

Lemma loop_exit conn fuel i result w :
  (i <? Go.len pkRows) = false ->
  execDMLPKRows_loop E qre fuel conn pkRows secondaryList maxRows i result w = Ret result w.
Proof. intros H. destruct fuel; cbn [execDMLPKRows_loop]; rewrite H; reflexivity. Qed.

Lemma loop_batches conn :
  forall fuel k result w r w',
    same_binds w ->
    Z.of_nat (k * Z.to_nat maxRows) < 2 ^ 63 ->
    0 <= mproto.RowsAffected result < 2 ^ 64 ->
    execDMLPKRows_loop E qre fuel conn pkRows secondaryList maxRows
      (Z.of_nat (k * Z.to_nat maxRows)) result w = Ret r w' ->
    exists sent,
      Forall2 (fun j s => batch_sql j = inr (fst s)) (seq k (batches - k)) sent
      /\ history w' = history w ++ map (batch_event conn) sent
      /\ r = mproto.set_RowsAffected
               (Go.wrapu64 (mproto.RowsAffected result + total_affected (map snd sent)))
               result
      /\ ((k < batches)%nat -> plan_index0 qre = Some cols).
Proof.
  assert (forall fuel k result w r w',
            0 <= mproto.RowsAffected result < 2 ^ 64 ->
            (Z.of_nat (k * Z.to_nat maxRows) <? Go.len pkRows) = false ->
            execDMLPKRows_loop E qre fuel conn pkRows secondaryList maxRows
              (Z.of_nat (k * Z.to_nat maxRows)) result w = Ret r w' ->
            exists sent,
              Forall2 (fun j s => batch_sql j = inr (fst s)) (seq k (batches - k)) sent
              /\ history w' = history w ++ map (batch_event conn) sent
              /\ r = mproto.set_RowsAffected
                       (Go.wrapu64 (mproto.RowsAffected result
                                    + total_affected (map snd sent))) result
              /\ ((k < batches)%nat -> plan_index0 qre = Some cols)) as Hexit.
  { intros fuel k result w r w' Hres Hlt Hrun.
    rewrite (loop_exit conn _ _ _ _ Hlt) in Hrun. apply Z.ltb_ge in Hlt.
    injection Hrun as <- <-. exists [].
    pose proof (proj2 (more_batches k)) as Hmore.
    assert (batches - k = 0)%nat as -> by lia.
    split; [apply Forall2_nil_2|]. split; [cbn; rewrite app_nil_r; reflexivity|].
    split; [|lia].
    cbn. rewrite Z.add_0_r. unfold Go.wrapu64. rewrite Z.mod_small by lia.
    destruct result; reflexivity. }
  induction fuel as [|fuel IH]; intros k result w r w' Hsame Hk Hres Hrun;
    destruct (Z.of_nat (k * Z.to_nat maxRows) <? Go.len pkRows) eqn:Hlt;
    try (apply (Hexit _ _ _ _ _ _ Hres Hlt Hrun)).
  { cbn [execDMLPKRows_loop] in Hrun. rewrite Hlt in Hrun. discriminate. }
  clear Hexit.
  cbn [execDMLPKRows_loop] in Hrun. rewrite Hlt in Hrun. cbn [negb] in Hrun.
  apply Z.ltb_lt in Hlt.
  set (i := Z.of_nat (k * Z.to_nat maxRows)) in *.
  apply bind_Ret in Hrun as (rows & w1 & Hslice & Hrun).
  apply lift_option_Ret in Hslice as [Hslice ->].
  apply slice_Some in Hslice as (_ & Hend & _ & Hrows).
  pose proof (next_index (Go.len pkRows) maxRows i maxRows_ok ltac:(lia) Hend Hk) as Hnext.
  pose proof (wrap64_range (i + maxRows)) as Hrange.
  unfold Go.int64_add in Hnext. rewrite Hnext in Hrange.
  unfold Go.int64_add in Hrows, Hrun. rewrite Hnext in Hrows, Hrun.
  assert (Z.to_nat i = (k * Z.to_nat maxRows)%nat) as Hi by (subst i; apply Nat2Z.id).
  assert (Z.of_nat (S k * Z.to_nat maxRows) = i + maxRows) as HSk by (subst i; lia).
  pose proof (slice_is_batch k _ eq_refl Hlt) as Hlen. fold i in Hlen.
  assert (rows = batch k) as ->.
  { rewrite Hrows, Hlen, Hi. unfold batch. rewrite length_take.
    set (rest := drop (k * Z.to_nat maxRows) pkRows).
    destruct (Nat.le_ge_cases (Z.to_nat maxRows) (length rest)) as [Hle|Hge].
    - rewrite Nat.min_l by exact Hle. reflexivity.
    - rewrite Nat.min_r by exact Hge. rewrite !take_ge by lia. reflexivity. }
  clear Hrows.
  apply bind_Ret in Hrun as (bs & w1 & Hsec & Hrun).
  assert (bs = secondary_batch k /\ w1 = w) as [-> ->].
  { unfold secondary_batch. destruct secondaryList as [s|].
    - apply bind_Ret in Hsec as (s' & w2 & Hs & Hret).
      apply lift_option_Ret in Hs as [Hs ->]. injection Hret as <- <-.
      apply slice_Some in Hs as (_ & _ & _ & ->). rewrite Hlen, Hi. auto.
    - injection Hsec as <- <-. auto. }
  apply bind_Ret in Hrun as (cols' & w1 & Hcols & Hrun).
  apply index0_Columns_Ret in Hcols as [Hcols ->].
  assert (cols' = cols) as -> by (rewrite cols_def, Hcols; reflexivity).
  apply bind_Ret in Hrun as ([] & w1 & Hstore & Hrun).
  injection Hstore as <-.
  apply bind_Ret in Hrun as (rk & w2 & Hfetch & Hrun).
  apply directFetch_Ret in Hfetch as (sql & Hsql & Hans & ->).
  destruct Hsame as [Htun Hbinds].
  assert (forall m, with_maxLimit
                      (set_bindVars (<["#pk":=BVTupleEqualityList cols (batch k)]> (bindVars w)) w)
                      m = with_maxLimit w0 m) as Hml
    by (intros m; unfold with_maxLimit, maxLimit_of; cbn; rewrite Htun; reflexivity).
  rewrite Hml in Hsql, Hrun. cbn [bindVars set_bindVars] in Hsql, Hrun.
  rewrite Hbinds in Hsql.
  rewrite <- HSk in Hrun.
  apply IH in Hrun as (sent & Hsent & Hhist & Hr & _).
  - exists ((sql, rk) :: sent).
    assert (batches - k = S (batches - S k))%nat as ->
      by (pose proof (proj1 (more_batches k) Hlt); lia).
    split; [|split; [|split]].
    + cbn [seq]. constructor; [exact Hsql|exact Hsent].
    + rewrite Hhist. cbn. rewrite Htun, <- app_assoc. reflexivity.
    + rewrite Hr. cbn. unfold Go.uint64_add, Go.wrapu64.
      rewrite Zplus_mod_idemp_l, Z.add_assoc. reflexivity.
    + intros _. exact Hcols.
  - split; [exact Htun|]. intros x. cbn. unfold with_maxLimit at 2.
    unfold with_maxLimit at 1. rewrite rebind. apply Hbinds.
  - rewrite HSk. lia.
  - cbn. unfold Go.uint64_add, Go.wrapu64. apply Z.mod_pos_bound. lia.
Qed.

(** The batches cover the target list, in order. *)
Lemma batches_cover : concat (map batch (seq 0 batches)) = pkRows.
Proof.
  assert (forall c k, (length pkRows <= (k + c) * Z.to_nat maxRows)%nat ->
                      concat (map batch (seq k c)) = drop (k * Z.to_nat maxRows) pkRows) as H.
  { induction c as [|c IH]; intros k Hc; cbn [seq map concat].
    - rewrite drop_ge by lia. reflexivity.
    - rewrite IH by lia. unfold batch.
      replace (S k * Z.to_nat maxRows)%nat with (k * Z.to_nat maxRows + Z.to_nat maxRows)%nat
        by lia.
      rewrite <- drop_drop. apply take_drop. }
  rewrite H; [reflexivity|].
  destruct (Nat.le_gt_cases (length pkRows) (batches * Z.to_nat maxRows)) as [Hle|Hgt];
    [exact Hle|].
  exfalso. pose proof (proj1 (more_batches batches)) as Hm. unfold Go.len in Hm. lia.
Qed.

End Batches.

(** ** DML chunking: a run without failures returns *)

Section Batches_progress.

Variable E : Collaborators.
Variable qre : QueryExecutor.
Variable conn : Conn.
Variable pkRows : list Row.
Variable secondaryList : option (list Row).
Variable maxRows : Z.
Variable w0 : World.
Variable cols : list string.

Hypothesis maxRows_ok : 1 <= maxRows < 2 ^ 63.
Hypothesis no_overflow : Go.len pkRows + maxRows < 2 ^ 63.
Hypothesis cols_ok : plan_index0 qre = Some cols.
Hypothesis secondary_ok :
  forall s, secondaryList = Some s -> (length pkRows <= length s)%nat.
Hypothesis expands :
  forall k, (k < batches pkRows maxRows)%nat ->
            exists sql, batch_sql E qre pkRows secondaryList maxRows w0 cols k = inr sql.
Hypothesis accepts :
  forall h sql, exists r,
    conn_Exec E h conn sql (maxResultSize (tunables w0)) true = inr r.

Lemma index0_Columns_run w : index0_Columns qre w = Ret cols w.
Proof.
  unfold plan_index0 in cols_ok. unfold index0_Columns, tableInfo_deref, bind.
  destruct (ExecPlan.TableInfo (plan qre)) as [ti|]; [|discriminate]. cbn.
  destruct (head (schema.Indexes ti)) as [ix|]; [|discriminate]. cbn.
  injection cols_ok as <-. reflexivity.
Qed.

Lemma slice_batch {A} (l : list A) k :
  (length pkRows <= length l)%nat ->
  Z.of_nat (k * Z.to_nat maxRows) < Go.len pkRows ->
  Go.slice l (Z.of_nat (k * Z.to_nat maxRows))
    (if Go.len pkRows <=? Go.int64_add (Z.of_nat (k * Z.to_nat maxRows)) maxRows
     then Go.len pkRows else Go.int64_add (Z.of_nat (k * Z.to_nat maxRows)) maxRows)
  = Some (take (length (batch pkRows maxRows k)) (drop (k * Z.to_nat maxRows) l)).
Proof.
  intros Hl Hlt.
  pose proof (slice_is_batch pkRows maxRows maxRows_ok k _ eq_refl Hlt) as Hlen.
  set (i := Z.of_nat (k * Z.to_nat maxRows)) in *.
  assert (0 <= i) as Hi by (subst i; apply Nat2Z.is_nonneg).
  unfold Go.int64_add. rewrite wrap64_small by lia.
  unfold Go.slice.
  assert ((0 <=? i) = true) as -> by (apply Z.leb_le; lia).
  assert ((i <=? (if Go.len pkRows <=? i + maxRows then Go.len pkRows else i + maxRows))
          = true) as ->
    by (apply Z.leb_le; destruct (_ <=? _); lia).
  assert (((if Go.len pkRows <=? i + maxRows then Go.len pkRows else i + maxRows)
           <=? Go.len l) = true) as ->
    by (apply Z.leb_le; unfold Go.len in *;
        destruct (_ <=? _) eqn:H; [|apply Z.leb_gt in H]; lia).
  cbn [andb]. rewrite Hlen. subst i. rewrite Nat2Z.id. reflexivity.
Qed.

Lemma batch_take k :
  take (length (batch pkRows maxRows k)) (drop (k * Z.to_nat maxRows) pkRows)
  = batch pkRows maxRows k.
Proof.
  unfold batch. rewrite length_take.
  set (rest := drop (k * Z.to_nat maxRows) pkRows).
  destruct (Nat.le_ge_cases (Z.to_nat maxRows) (length rest)) as [Hle|Hge].
  - rewrite Nat.min_l by exact Hle. reflexivity.
  - rewrite Nat.min_r by exact Hge. rewrite !take_ge by lia. reflexivity.
Qed.

Lemma loop_returns :
  forall fuel k result w,
    same_binds w0 w ->
    (batches pkRows maxRows - k <= fuel)%nat ->
    exists r w',
      execDMLPKRows_loop E qre fuel conn pkRows secondaryList maxRows
        (Z.of_nat (k * Z.to_nat maxRows)) result w = Ret r w'.
Proof.
  induction fuel as [|fuel IH]; intros k result w Hsame Hfuel;
    destruct (Z.of_nat (k * Z.to_nat maxRows) <? Go.len pkRows) eqn:Hlt;
    try (rewrite (loop_exit E qre pkRows secondaryList maxRows conn _ _ _ _ Hlt); eauto).
  { apply Z.ltb_lt in Hlt. apply (more_batches pkRows maxRows maxRows_ok) in Hlt. lia. }
  cbn [execDMLPKRows_loop]. rewrite Hlt. cbn [negb]. apply Z.ltb_lt in Hlt.
  pose proof (proj1 (more_batches pkRows maxRows maxRows_ok k) Hlt) as Hmore.
  destruct (expands k Hmore) as (sql & Hsql).
  destruct Hsame as [Htun Hbinds].
  unfold bind at 1.
  rewrite (slice_batch pkRows k (Nat.le_refl _) Hlt), batch_take. cbn [lift_option ret].
  unfold bind at 1.
  assert (match secondaryList with
          | Some sl =>
              bind (lift_option "slice bounds out of range"
                      (Go.slice sl (Z.of_nat (k * Z.to_nat maxRows))
                         (if Go.len pkRows <=? Go.int64_add (Z.of_nat (k * Z.to_nat maxRows)) maxRows
                          then Go.len pkRows
                          else Go.int64_add (Z.of_nat (k * Z.to_nat maxRows)) maxRows)))
                   (fun s => ret (Some s))
          | None => ret None
          end w = Ret (secondary_batch pkRows secondaryList maxRows k) w) as ->.
  { unfold secondary_batch. destruct secondaryList as [s|]; [|reflexivity].
    unfold bind. rewrite (slice_batch s k (secondary_ok s eq_refl) Hlt). reflexivity. }
  unfold bind at 1. rewrite index0_Columns_run.
  unfold bind at 1. cbn [map_store].
  unfold bind at 1. rewrite directFetch_run. cbv zeta.
  assert (forall m, with_maxLimit
                      (set_bindVars
                         (<["#pk":=BVTupleEqualityList cols (batch pkRows maxRows k)]>
                            (bindVars w)) w) m = with_maxLimit w0 m) as Hml
    by (intros m; unfold with_maxLimit, maxLimit_of; cbn; rewrite Htun; reflexivity).
  rewrite Hml. cbn [bindVars set_bindVars]. rewrite Hbinds.
  unfold batch_sql, batch_bindVars in Hsql. rewrite Hsql.
  cbn [tunables set_bindVars history]. rewrite Htun.
  destruct (accepts (history w) sql) as (rk & ->).
  assert (Go.int64_add (Z.of_nat (k * Z.to_nat maxRows)) maxRows
          = Z.of_nat (S k * Z.to_nat maxRows)) as ->.
  { assert (Z.of_nat (S k * Z.to_nat maxRows) = Z.of_nat (k * Z.to_nat maxRows) + maxRows)
      as -> by lia.
    set (i := Z.of_nat (k * Z.to_nat maxRows)) in *.
    assert (0 <= i) by (subst i; apply Nat2Z.is_nonneg).
    unfold Go.int64_add. apply wrap64_small. lia. }
  apply IH; [|clear - Hfuel Hmore; lia].
  split; [exact Htun|]. intros x. cbn. unfold with_maxLimit at 2.
  unfold with_maxLimit at 1. rewrite rebind. reflexivity.
Qed.

(** With a positive batch size, collaborators that do not fail and fuel
    for every batch, [execDMLPKRows] returns. *)
Lemma execDMLPKRows_returns fuel invalidator :
  maxDMLRows (tunables w0) = maxRows ->
  buildSecondaryList E (ExecPlan.TableInfo (plan qre)) pkRows
    (ExecPlan.SecondaryPKValues (plan qre)) (bindVars w0) = inr secondaryList ->
  (batches pkRows maxRows <= fuel)%nat ->
  exists r w', execDMLPKRows E qre fuel conn pkRows invalidator w0 = Ret r w'.
Proof.
  intros HB Hsl Hfuel. unfold execDMLPKRows.
  destruct (Go.len pkRows =? 0); [eauto|].
  unfold bind at 1. cbn [get_world]. unfold bind at 1. rewrite Hsl. cbn [lift_error ret].
  rewrite HB. unfold bind at 1.
  destruct (loop_returns fuel 0 mproto.empty w0) as (r & w' & Hloop);
    [split; [reflexivity|intros x; reflexivity]|lia|].
  change (Z.of_nat (0 * Z.to_nat maxRows)) with 0 in Hloop. rewrite Hloop.
  destruct invalidator as [inv|]; [|eauto].
  unfold bind. rewrite for_range_emit. eauto.
Qed.

End Batches_progress.

(** C2: for a non-empty target list of [N] rows and a batch size
    [B = maxDMLRows >= 1], [execDMLPKRows] leaves the loop within [N]
    iterations, and when it returns: it has sent [ceil (N / B)] statements
    on the connection, the [k]-th being the final SQL of [OuterQuery] with
    [#pk] bound to the tuple list of the rows of batch [k]; after them it
    has called [Delete] on the key of every target row if there is an
    invalidator; and the [RowsAffected] it returns is the uint64 sum of the
    [RowsAffected] the backend answered.  The batches are consecutive
    stretches of [B] rows that cover the list.  It does return when no
    collaborator fails: the secondary list is as long as the target list,
    the table has an index, every batch's template expands and the backend
    accepts every statement. *)
Theorem execDMLPKRows_batches E qre fuel conn pkRows invalidator w :
  pkRows <> [] ->
  batch_size_ok w ->
  ((length pkRows <= fuel)%nat ->
   execDMLPKRows E qre fuel conn pkRows invalidator w <> OutOfFuel)
  /\ (forall r w',
        execDMLPKRows E qre fuel conn pkRows invalidator w = Ret r w' ->
        exists cols sl sent,
          plan_index0 qre = Some cols
          /\ buildSecondaryList E (ExecPlan.TableInfo (plan qre)) pkRows
               (ExecPlan.SecondaryPKValues (plan qre)) (bindVars w) = inr sl
          /\ Z.of_nat (length sent) = batch_count (Go.len pkRows) (maxDMLRows (tunables w))
          /\ Forall2
               (fun k s =>
                  batch_sql E qre pkRows sl (maxDMLRows (tunables w)) w cols k = inr (fst s))
               (seq 0 (length sent)) sent
          /\ history w'
             = history w ++ map (batch_event w conn) sent
               ++ match invalidator with
                  | Some inv => map (fun pk => EvInvalidatorDelete inv (buildKey E pk)) pkRows
                  | None => []
                  end
          /\ r = mproto.set_RowsAffected (Go.wrapu64 (total_affected (map snd sent)))
                   mproto.empty)
  /\ concat (map (batch pkRows (maxDMLRows (tunables w)))
               (seq 0 (batches pkRows (maxDMLRows (tunables w))))) = pkRows
  /\ (forall cols sl,
        plan_index0 qre = Some cols ->
        buildSecondaryList E (ExecPlan.TableInfo (plan qre)) pkRows
          (ExecPlan.SecondaryPKValues (plan qre)) (bindVars w) = inr sl ->
        (forall s, sl = Some s -> (length pkRows <= length s)%nat) ->
        Go.len pkRows + maxDMLRows (tunables w) < 2 ^ 63 ->
        (forall k, (k < batches pkRows (maxDMLRows (tunables w)))%nat ->
                   exists sql,
                     batch_sql E qre pkRows sl (maxDMLRows (tunables w)) w cols k = inr sql) ->
        (forall h sql, exists answer,
            conn_Exec E h conn sql (maxResultSize (tunables w)) true = inr answer) ->
        (batches pkRows (maxDMLRows (tunables w)) <= fuel)%nat ->
        exists r w', execDMLPKRows E qre fuel conn pkRows invalidator w = Ret r w').
Proof.
  intros Hne Hok. split; [|split; [|split]]; cycle 3.
  { intros cols sl Hcols Hsl Hslen Hover Hexp Hacc Hfuel.
    exact (execDMLPKRows_returns E qre conn pkRows sl (maxDMLRows (tunables w)) w cols
             Hok Hover Hcols Hslen Hexp Hacc fuel invalidator eq_refl Hsl Hfuel). }
  - intros Hfuel. apply execDMLPKRows_finishes; assumption.
  - intros r w' Hrun. unfold execDMLPKRows in Hrun.
    assert (0 < Go.len pkRows) as Hpos by (unfold Go.len; destruct pkRows; [congruence|cbn; lia]).
    destruct (Go.len pkRows =? 0) eqn:Hz; [apply Z.eqb_eq in Hz; lia|].
    apply bind_Ret in Hrun as (w1 & w2 & Hw & Hrun). injection Hw as <- <-.
    apply bind_Ret in Hrun as (sl & w1 & Hsl & Hrun).
    apply lift_error_Ret in Hsl as [Hsl ->].
    apply bind_Ret in Hrun as (result & w1 & Hloop & Hrun).
    apply (loop_batches E qre pkRows sl (maxDMLRows (tunables w)) w
             (default [] (plan_index0 qre)) Hok eq_refl conn fuel 0) in Hloop
      as (sent & Hsent & Hhist & Hres & Hcols);
      [|split; [reflexivity|intros x; reflexivity]|cbn; lia|cbn; lia].
    rewrite Nat.sub_0_r in Hsent.
    assert (length sent = batches pkRows (maxDMLRows (tunables w))) as Hlen.
    { apply Forall2_length in Hsent. rewrite length_seq in Hsent. lia. }
    assert (0 < batches pkRows (maxDMLRows (tunables w)))%nat as Hsome.
    { apply (more_batches pkRows (maxDMLRows (tunables w)) Hok 0). cbn. exact Hpos. }
    exists (default [] (plan_index0 qre)), sl, sent.
    split; [exact (Hcols Hsome)|]. split; [exact Hsl|].
    split.
    { rewrite Hlen. unfold batches. rewrite Z2Nat.id; [reflexivity|].
      unfold batches in Hsome. lia. }
    split; [rewrite Hlen; exact Hsent|].
    destruct invalidator as [inv|].
    + apply bind_Ret in Hrun as ([] & w2 & Hdel & Hret).
      rewrite for_range_emit in Hdel. injection Hdel as <-. injection Hret as <- <-.
      split; [cbn; rewrite Hhist, <- app_assoc; reflexivity|].
      rewrite Hres. reflexivity.
    + injection Hrun as <- <-. split; [rewrite Hhist, app_nil_r; reflexivity|].
      rewrite Hres. reflexivity.
  - apply batches_cover. exact Hok.
Qed.

(** Three target rows in batches of two on the sample tablet: two
    statements, then three keys handed to the invalidator. *)
Lemma execDMLPKRows_batches_witness :
  let q := Scenario.mkQre 5 Scenario.client
             (Scenario.mkPlan planbuilder.PLAN_DML_PK "" (SVInt64 0) [] Scenario.noRules) in
  let keys := [[VRaw "1"]; [VRaw "2"]; [VRaw "3"]] in
  let inv := {| inv_conn := 3%nat; inv_table := "t" |} in
  exists r w' sent,
    execDMLPKRows Scenario.collab q 3 3%nat keys (Some inv) (Scenario.world 0) = Ret r w'
    /\ length sent = 2%nat
    /\ history w'
       = map (batch_event (Scenario.world 0) 3%nat) sent
         ++ [EvInvalidatorDelete inv "1"; EvInvalidatorDelete inv "2";
             EvInvalidatorDelete inv "3"]
    /\ mproto.RowsAffected r = Go.wrapu64 (total_affected (map snd sent)).
Proof.
  intros q keys inv.
  assert (exists r w',
            execDMLPKRows Scenario.collab q 3 3%nat keys (Some inv) (Scenario.world 0)
            = Ret r w') as (r & w' & Hrun) by (eexists; eexists; vm_compute; reflexivity).
  assert (batch_size_ok (Scenario.world 0)) as Hok by (unfold batch_size_ok; cbn; lia).
  destruct (proj1 (proj2 (execDMLPKRows_batches Scenario.collab q 3 3%nat keys (Some inv)
                            (Scenario.world 0) ltac:(discriminate) Hok)) r w' Hrun)
    as (cols & sl & sent & _ & _ & Hcount & _ & Hhist & Hres).
  exists r, w', sent. split; [exact Hrun|]. split; [|split].
  - change (batch_count (Go.len keys) (maxDMLRows (tunables (Scenario.world 0)))) with 2
      in Hcount. lia.
  - exact Hhist.
  - rewrite Hres. reflexivity.
Defined.

(** * Further properties of the executor *)

(** ** Comparing a cached row with the row read back *)

(** What [rowsAreEqual] asks of two values at the same position: both
    NULL, or neither and the same text. *)
Definition same_value (v1 v2 : Value) : Prop :=
  IsNull v1 = IsNull v2 /\ (IsNull v1 = false -> Value_String v1 = Value_String v2).

Lemma same_value_dec v1 v2 :
  same_value v1 v2 <->
  (if IsNull v1 && IsNull v2 then true
   else if (IsNull v1 && negb (IsNull v2)) || (negb (IsNull v1) && IsNull v2)
           || negb (String.eqb (Value_String v1) (Value_String v2))
        then false else true) = true.
Proof.
  unfold same_value.
  destruct (IsNull v1), (IsNull v2); cbn; try (split; [intros [? ?]|intros ?]; discriminate).
  - split; [reflexivity|]. intros _. split; [reflexivity|discriminate].
  - destruct (String.eqb_spec (Value_String v1) (Value_String v2)) as [Heq|Hne]; cbn.
    + split; [reflexivity|]. intros _. split; [reflexivity|]. intros _. exact Heq.
    + split; [|discriminate]. intros [_ H]. elim Hne. exact (H eq_refl).
Qed.

Lemma rowsAreEqual_from_Forall2 r1 r2 :
  length r1 = length r2 -> (rowsAreEqual_from r1 r2 = true <-> Forall2 same_value r1 r2).
Proof.
  revert r2. induction r1 as [|v1 r1 IH]; intros [|v2 r2] Hlen; try discriminate.
  - split; [constructor|reflexivity].
  - cbn in Hlen. injection Hlen as Hlen. specialize (IH r2 Hlen).
    cbn [rowsAreEqual_from]. pose proof (same_value_dec v1 v2) as Hv.
    destruct (IsNull v1 && IsNull v2).
    + rewrite IH. split; [intros H; constructor; [apply Hv; reflexivity|exact H]|].
      intros H. inversion H; assumption.
    + destruct (_ || _).
      * split; [discriminate|]. intros H. inversion H; subst.
        match goal with Hs : same_value v1 v2 |- _ => apply Hv in Hs; discriminate Hs end.
      * rewrite IH. split; [intros H; constructor; [apply Hv; reflexivity|exact H]|].
        intros H. inversion H; assumption.
Qed.

Lemma same_value_refl v : same_value v v.
Proof. split; [reflexivity|]. intros _. reflexivity. Qed.

Lemma same_value_sym v1 v2 : same_value v1 v2 -> same_value v2 v1.
Proof. intros [Hn Hs]. split; [symmetry; exact Hn|]. intros H. symmetry. apply Hs. congruence. Qed.

Lemma same_value_trans v1 v2 v3 : same_value v1 v2 -> same_value v2 v3 -> same_value v1 v3.
Proof.
  intros [Hn1 Hs1] [Hn2 Hs2]. split; [congruence|].
  intros H. rewrite Hs1 by exact H. apply Hs2. congruence.
Qed.

Lemma rowsAreEqual_iff r1 r2 : rowsAreEqual r1 r2 = true <-> Forall2 same_value r1 r2.
Proof.
  unfold rowsAreEqual, Go.len.
  destruct (Z.of_nat (length r1) =? Z.of_nat (length r2)) eqn:Hlen; cbn [negb].
  - apply Z.eqb_eq in Hlen. apply rowsAreEqual_from_Forall2. lia.
  - apply Z.eqb_neq in Hlen. split; [discriminate|].
    intros H. apply Forall2_length in H. lia.
Qed.

(** X1: two rows compare equal exactly when they have the same length and,
    at every position, both values are NULL or neither is and their texts
    are the same. *)
Theorem rowsAreEqual_pointwise r1 r2 :
  rowsAreEqual r1 r2 = true <->
  length r1 = length r2
  /\ forall i v1 v2, r1 !! i = Some v1 -> r2 !! i = Some v2 -> same_value v1 v2.
Proof.
  rewrite rowsAreEqual_iff. split.
  - intros H. split; [exact (Forall2_length _ _ _ H)|].
    intros i v1 v2 H1 H2. exact (Forall2_lookup_lr _ _ _ _ _ _ H H1 H2).
  - intros [Hlen H]. apply Forall2_same_length_lookup_2; [|exact H].
    apply Forall2_same_length, Forall2_true; [intros; exact I|exact Hlen].
Qed.

(** X2: the comparison is an equivalence on rows: a row equals itself, the
    order of the two arguments does not matter, and equality carries over
    a row in the middle. *)
Theorem rowsAreEqual_equivalence :
  (forall r, rowsAreEqual r r = true)
  /\ (forall r1 r2, rowsAreEqual r1 r2 = rowsAreEqual r2 r1)
  /\ (forall r1 r2 r3,
        rowsAreEqual r1 r2 = true -> rowsAreEqual r2 r3 = true -> rowsAreEqual r1 r3 = true).
Proof.
  split; [|split].
  - intros r. apply rowsAreEqual_iff. induction r; constructor; auto using same_value_refl.
  - assert (forall r1 r2, rowsAreEqual r1 r2 = true -> rowsAreEqual r2 r1 = true) as Hsym.
    { intros r1 r2 H. apply rowsAreEqual_iff in H. apply rowsAreEqual_iff.
      induction H; constructor; auto using same_value_sym. }
    intros r1 r2. destruct (rowsAreEqual r1 r2) eqn:H12, (rowsAreEqual r2 r1) eqn:H21;
      try reflexivity.
    + apply Hsym in H12. congruence.
    + apply Hsym in H21. congruence.
  - intros r1 r2 r3 H12 H23. apply rowsAreEqual_iff in H12, H23. apply rowsAreEqual_iff.
    revert r3 H23. induction H12; intros r3 H23; inversion H23; subst; constructor;
      eauto using same_value_trans.
Qed.

(** ** SET statements *)

(** The keys [execSet] interprets itself, by the kind of value they take. *)
Definition int_keys : list string :=
  ["vt_pool_size"; "vt_stream_pool_size"; "vt_transaction_cap"; "vt_query_cache_size";
   "vt_max_result_size"; "vt_max_dml_rows"; "vt_stream_buffer_size"; "vt_strict_mode"].

Definition number_keys : list string :=
  ["vt_transaction_timeout"; "vt_schema_reload_time"; "vt_query_timeout";
   "vt_idle_timeout"; "vt_spot_check_ratio"; "vt_txpool_timeout"].

Definition is_setting (e : Event) : bool :=
  match e with
  | EvSetCapacity _ _ | EvSetIdleTimeout _ _ | EvSetTimeout _ | EvSetPoolTimeout _
  | EvSetReloadTime _ | EvSetQueryCacheSize _ => true
  | _ => false
  end.

Ltac each_key H :=
  repeat (destruct H as [H|H]; [symmetry in H|]); [..|destruct H].

(** X3: a SET of one of the eight integer variables with a value that is
    not an int64, or of one of the six numeric variables with a value that
    is neither an int64 nor a float64, fails with [ErrFail] "expecting
    int", respectively "expecting number", and changes nothing. *)
Theorem execSet_malformed_value E qre w :
  (In (ExecPlan.SetKey (plan qre)) int_keys ->
   (forall n, ExecPlan.SetValue (plan qre) <> SVInt64 n) ->
   execSet E qre w = Panic (NewTabletError ErrFail "expecting int") w)
  /\ (In (ExecPlan.SetKey (plan qre)) number_keys ->
      (forall n, ExecPlan.SetValue (plan qre) <> SVInt64 n) ->
      (forall bits, ExecPlan.SetValue (plan qre) <> SVFloat64 bits) ->
      execSet E qre w = Panic (NewTabletError ErrFail "expecting number") w).
Proof.
  split.
  - intros Hkey Hint. unfold execSet. cbv zeta.
    destruct (ExecPlan.SetValue (plan qre)) as [n|bits|other];
      [elim (Hint n); reflexivity| |];
      each_key Hkey; rewrite Hkey; reflexivity.
  - intros Hkey Hint Hfloat. unfold execSet. cbv zeta.
    destruct (ExecPlan.SetValue (plan qre)) as [n|bits|other];
      [elim (Hint n); reflexivity|elim (Hfloat bits); reflexivity|].
    each_key Hkey; rewrite Hkey; reflexivity.
Qed.

Lemma execSet_malformed_value_witness :
  execSet Scenario.collab
    (Scenario.mkQre 0 Scenario.client
       (Scenario.mkPlan planbuilder.PLAN_SET "vt_max_result_size" (SVFloat64 1) []
          Scenario.noRules))
    (Scenario.world 0)
  = Panic (NewTabletError ErrFail "expecting int") (Scenario.world 0).
Proof.
  apply (proj1 (execSet_malformed_value Scenario.collab _ (Scenario.world 0))).
  - right. right. right. right. left. reflexivity.
  - intros n. discriminate.
Defined.

(** What a SET served by the executor itself leaves behind: calls that
    reconfigure pools and schema, and tunables; the request's bind
    variables, maps and stats are as before. *)
Definition reconfigured (w w' : World) : Prop :=
  bindVars w' = bindVars w /\ localMaps w' = localMaps w /\ logStats w' = logStats w
  /\ exists evs, history w' = history w ++ evs /\ forallb is_setting evs = true.

Lemma reconfigured_tunables t w : reconfigured w (set_tunables t w).
Proof. repeat split. exists []. split; [symmetry; apply app_nil_r|reflexivity]. Qed.

Lemma reconfigured_events evs w :
  forallb is_setting evs = true -> reconfigured w (set_history (history w ++ evs) w).
Proof. intros H. repeat split. exists evs. split; [reflexivity|exact H]. Qed.

Ltac set_outcome :=
  first
    [ split; [reflexivity|apply reconfigured_tunables]
    | split; [reflexivity|]; repeat split; eexists;
      (split; [cbn; rewrite <- ?app_assoc; reflexivity|reflexivity])
    | split; [reflexivity|eexists; reflexivity] ].

(** X4: a SET of one of the fourteen variables [execSet] knows either
    returns the empty result, having called only setters of the pools and
    of the schema or changed tunables (bind variables, local maps and
    stats log are as before), or fails with an [ErrFail] in the world it
    started from; it always ends.  A SET of any other variable is sent to
    the backend as [FullQuery] on a connection of the connection pool. *)
Theorem execSet_known_key_is_local E qre w :
  (In (ExecPlan.SetKey (plan qre)) (int_keys ++ number_keys) ->
   match execSet E qre w with
   | Ret r w' => r = mproto.empty /\ reconfigured w w'
   | Panic p w' => w' = w /\ exists msg, p = NewTabletError ErrFail msg
   | OutOfFuel => False
   end)
  /\ (~ In (ExecPlan.SetKey (plan qre)) (int_keys ++ number_keys) ->
      execSet E qre w
      = bind (getConn E connPool)
          (fun conn =>
             defer_call (Recycle conn)
               (directFetch E conn (ExecPlan.FullQuery (plan qre)) QreBindVars None)) w).
Proof.
  split.
  - intros Hkey. unfold execSet. cbv zeta.
    each_key Hkey; rewrite Hkey; cbn [String.eqb Ascii.eqb Bool.eqb];
      destruct (ExecPlan.SetValue (plan qre)) as [n|bits|other];
      cbv beta iota delta [getInt64 getDuration getFloat64 bind ret panic emit modify
                            modify_tunables];
      try (destruct (n <? _)); set_outcome.
  - intros Hkey. unfold execSet. cbv zeta.
    repeat match goal with
           | |- (if String.eqb ?k ?s then _ else _) _ = _ =>
               destruct (String.eqb_spec k s) as [Heq|_];
               [elim Hkey; rewrite Heq; cbn; tauto|]
           end.
    reflexivity.
Qed.

Lemma execSet_known_key_is_local_witness :
  let q := Scenario.mkQre 0 Scenario.client
             (Scenario.mkPlan planbuilder.PLAN_SET "vt_idle_timeout" (SVInt64 30) []
                Scenario.noRules) in
  exists w',
    execSet Scenario.collab q (Scenario.world 0) = Ret mproto.empty w'
    /\ history w' = [EvSetIdleTimeout connPool 30; EvSetIdleTimeout streamConnPool 30;
                     EvSetIdleTimeout txPool 30]
    /\ reconfigured (Scenario.world 0) w'.
Proof.
  intros q.
  assert (In (ExecPlan.SetKey (plan q)) (int_keys ++ number_keys)) as Hkey
    by (cbn; tauto).
  pose proof (proj1 (execSet_known_key_is_local Scenario.collab q (Scenario.world 0)) Hkey)
    as H.
  change (execSet Scenario.collab q (Scenario.world 0))
    with (Ret mproto.empty
            (set_history [EvSetIdleTimeout connPool 30; EvSetIdleTimeout streamConnPool 30;
                          EvSetIdleTimeout txPool 30] (Scenario.world 0))) in H |- *.
  destruct H as [_ H]. eexists. split; [reflexivity|]. split; [reflexivity|exact H].
Defined.

(** ** The tunables across requests *)

(** The lower bounds [execSet] enforces on the sized tunables. *)
Definition tunables_ok (w : World) : Prop :=
  1 <= maxResultSize (tunables w)
  /\ 1 <= maxDMLRows (tunables w)
  /\ 1024 <= streamBufferSize (tunables w).

Definition keeps_bounds (w w' : World) : Prop := tunables_ok w -> tunables_ok w'.

Lemma keeps_bounds_same w w' : tunables w' = tunables w -> keeps_bounds w w'.
Proof. intros H. unfold keeps_bounds, tunables_ok. rewrite H. auto. Qed.

Lemma keeps_bounds_trans a b c : keeps_bounds a b -> keeps_bounds b c -> keeps_bounds a c.
Proof. unfold keeps_bounds. auto. Qed.

Lemma keeps_bounds_checkout g c w w' :
  checkout_of g = Some c -> keeps_bounds (push g w) w' -> keeps_bounds w (push (EvRecycle c) w').
Proof. intros _ H Hw. exact (H Hw). Qed.

Ltac bounds_side :=
  first [ exact keeps_bounds_trans | exact keeps_bounds_checkout
        | exact (unknown_back keeps_bounds) | exact unknown_push | exact unknown_any
        | (intros; apply any_statement_sendable)
        | (intros; apply keeps_bounds_same; reflexivity)
        | (intros; exact I)
        | (intros; intros (? & ? & ?); repeat split; cbn; assumption) ].

Lemma Execute_keeps_bounds E qre fuel : post keeps_bounds unknown (Execute E qre fuel).
Proof.
  apply post_Execute with (allowed := any_statement); try bounds_side.
  - intros conn inv. apply post_execDMLPK with (allowed := any_statement); bounds_side.
  - intros conn inv. apply post_execDMLSubquery with (allowed := any_statement); bounds_side.
  - apply post_execSet with (allowed := any_statement); bounds_side.
Qed.

(** X5: whatever the request, whenever [Execute] leaves, by return or by
    panic: if [maxResultSize >= 1], [maxDMLRows >= 1] and
    [streamBufferSize >= 1024] held before, they hold after. *)
Theorem tunable_bounds_are_kept E qre fuel w w' :
  final_world (Execute E qre fuel w) = Some w' ->
  tunables_ok w -> tunables_ok w'.
Proof.
  intros Hw'. pose proof (Execute_keeps_bounds E qre fuel w) as H.
  destruct (Execute E qre fuel w); cbn in Hw'; try discriminate;
    injection Hw' as <-; exact H.
Qed.

Lemma tunable_bounds_are_kept_witness :
  let q := Scenario.mkQre 0 Scenario.client
             (Scenario.mkPlan planbuilder.PLAN_SET "vt_max_dml_rows" (SVInt64 500) []
                Scenario.noRules) in
  exists w',
    final_world (Execute Scenario.collab q 0 (Scenario.world 0)) = Some w'
    /\ maxDMLRows (tunables w') = 500
    /\ tunables_ok w'.
Proof.
  intros q. eexists. split; [vm_compute; reflexivity|]. split; [reflexivity|].
  apply (tunable_bounds_are_kept Scenario.collab q 0 (Scenario.world 0)).
  - vm_compute. reflexivity.
  - unfold tunables_ok. cbn. lia.
Defined.

(** The same request with nothing to SET: [execSet] would hand it to the
    backend. *)
Definition without_set (qre : QueryExecutor) : QueryExecutor :=
  let p := plan qre in
  {| query := query qre; transactionID := transactionID qre;
     plan := {| ExecPlan.PlanId := ExecPlan.PlanId p; ExecPlan.Reason := ExecPlan.Reason p;
                ExecPlan.TableName := ExecPlan.TableName p;
                ExecPlan.TableInfo := ExecPlan.TableInfo p;
                ExecPlan.FullQuery := ExecPlan.FullQuery p;
                ExecPlan.OuterQuery := ExecPlan.OuterQuery p;
                ExecPlan.Subquery := ExecPlan.Subquery p;
                ExecPlan.PKValues := ExecPlan.PKValues p;
                ExecPlan.SecondaryPKValues := ExecPlan.SecondaryPKValues p;
                ExecPlan.SubqueryPKColumns := ExecPlan.SubqueryPKColumns p;
                ExecPlan.ColumnNumbers := ExecPlan.ColumnNumbers p;
                ExecPlan.Fields := ExecPlan.Fields p; ExecPlan.Limit := ExecPlan.Limit p;
                ExecPlan.SetKey := ""; ExecPlan.SetValue := SVOther "";
                ExecPlan.Rules_getAction := ExecPlan.Rules_getAction p;
                ExecPlan.Authorized := ExecPlan.Authorized p |};
     ctx := ctx qre; qe := qe qre |}.

Lemma Execute_without_set E qre fuel w :
  (ExecPlan.PlanId (plan qre) = planbuilder.PLAN_SET -> transactionID qre <> 0) ->
  Execute E qre fuel w = Execute E (without_set qre) fuel w.
Proof.
  intros Hset. unfold Execute. cbv zeta.
  change (ExecPlan.PlanId (plan (without_set qre))) with (ExecPlan.PlanId (plan qre)).
  change (transactionID (without_set qre)) with (transactionID qre).
  destruct (ExecPlan.PlanId (plan qre)) eqn:Hid; try reflexivity.
  destruct (transactionID qre =? 0) eqn:Htx; [|reflexivity].
  apply Z.eqb_eq in Htx. elim (Hset eq_refl). exact Htx.
Qed.

Definition same_tunables (w w' : World) : Prop := tunables w' = tunables w.

Lemma same_tunables_trans a b c : same_tunables a b -> same_tunables b c -> same_tunables a c.
Proof. unfold same_tunables. congruence. Qed.

Lemma same_tunables_checkout g c w w' :
  checkout_of g = Some c -> same_tunables (push g w) w' ->
  same_tunables w (push (EvRecycle c) w').
Proof. intros _ H. exact H. Qed.

Ltac tunables_side :=
  first [ exact same_tunables_trans | exact same_tunables_checkout
        | exact (unknown_back same_tunables) | exact unknown_push | exact unknown_any
        | (intros; apply any_statement_sendable)
        | (intros; reflexivity)
        | (intros; exact I) ].

Lemma execSet_without_set E qre : post same_tunables unknown (execSet E (without_set qre)).
Proof.
  change (execSet E (without_set qre))
    with (bind (getConn E connPool)
            (fun conn =>
               defer_call (Recycle conn)
                 (directFetch E conn (ExecPlan.FullQuery (plan qre)) QreBindVars None))).
  apply post_getConn with (allowed := any_statement); try tunables_side.
  intros conn. apply post_directFetch with (allowed := any_statement); tunables_side.
Qed.

Lemma Execute_same_tunables E qre fuel :
  post same_tunables unknown (Execute E (without_set qre) fuel).
Proof.
  apply post_Execute with (allowed := any_statement); try tunables_side.
  - intros conn inv. apply post_execDMLPK with (allowed := any_statement); tunables_side.
  - intros conn inv. apply post_execDMLSubquery with (allowed := any_statement); tunables_side.
  - apply execSet_without_set.
Qed.

(** X6: a request that is not a SET outside a transaction leaves every
    tunable of the query engine as it was, whichever way [Execute]
    ends. *)
Theorem only_SET_changes_tunables E qre fuel w w' :
  (ExecPlan.PlanId (plan qre) = planbuilder.PLAN_SET -> transactionID qre <> 0) ->
  final_world (Execute E qre fuel w) = Some w' ->
  tunables w' = tunables w.
Proof.
  intros Hset Hw'. rewrite (Execute_without_set E qre fuel w Hset) in Hw'.
  pose proof (Execute_same_tunables E qre fuel w) as H.
  destruct (Execute E (without_set qre) fuel w); cbn in Hw'; try discriminate;
    injection Hw' as <-; exact H.
Qed.

Lemma only_SET_changes_tunables_witness :
  let q := Scenario.mkQre 5 Scenario.client
             (Scenario.mkPlan planbuilder.PLAN_SET "vt_max_dml_rows" (SVInt64 500) []
                Scenario.noRules) in
  exists w',
    final_world (Execute Scenario.collab q 0 (Scenario.world 0)) = Some w'
    /\ In (EvExec 3%nat "full" 10000 true (inr (Scenario.okResult 1 []))) (history w')
    /\ tunables w' = tunables (Scenario.world 0).
Proof.
  intros q. eexists. split; [vm_compute; reflexivity|]. split.
  - right. right. right. left. reflexivity.
  - apply (only_SET_changes_tunables Scenario.collab q 0 (Scenario.world 0)).
    + intros _. discriminate.
    + vm_compute. reflexivity.
Defined.

(** ** DDL *)

(** What [execDDL] tells the schema service after the statement went
    through: a table that was dropped or renamed away, then a table that
    was created, altered or renamed to. *)
Definition schema_events (ddl : planbuilder.DDLPlan) : list Event :=
  (if negb (String.eqb (planbuilder.TableName ddl) "")
      && negb (String.eqb (planbuilder.TableName ddl) (planbuilder.NewName ddl))
   then [EvDropTable (planbuilder.TableName ddl)] else [])
  ++ (if negb (String.eqb (planbuilder.NewName ddl) "")
      then [EvCreateOrUpdateTable (planbuilder.NewName ddl)] else []).

Lemma world_ext (w1 w2 : World) :
  history w1 = history w2 -> bindVars w1 = bindVars w2 -> localMaps w1 = localMaps w2 ->
  tunables w1 = tunables w2 -> logStats w1 = logStats w2 -> w1 = w2.
Proof. destruct w1, w2. cbn. intros -> -> -> -> ->. reflexivity. Qed.

Ltac same_world :=
  apply world_ext; cbn; rewrite <- ?app_assoc; reflexivity.

Lemma execDDL_run E qre w :
  execDDL E qre w =
  let ddl := DDLParse E (query qre) in
  if String.eqb (planbuilder.Action ddl) "" then
    Panic (NewTabletError ErrFail "DDL is not understood") w
  else
    match txPool_Begin E (history w) with
    | inl p => Panic p (push (EvBegin (inl p)) w)
    | inr txid =>
        let w1 := push (EvBegin (inr txid)) w in
        match txPool_Get E (history w1) txid with
        | inl p => Panic p (push (EvSafeCommit txid) (push (EvTxPoolGet txid (inl p)) w1))
        | inr conn =>
            let w2 := push (EvTxPoolGet txid (inr conn)) w1 in
            let answer :=
              conn_Exec E (history w2) conn (query qre) (maxResultSize (tunables w)) true in
            let w3 := after_Exec conn (query qre) true answer w2 in
            match answer with
            | inl err => Panic (PError err) (push (EvSafeCommit txid) (push (EvRecycle conn) w3))
            | inr result =>
                Ret result
                  (push (EvSafeCommit txid)
                     (push (EvRecycle conn)
                        (set_history (history w3 ++ schema_events ddl) w3)))
            end
        end
    end.
Proof.
  unfold execDDL. cbv zeta.
  destruct (String.eqb (planbuilder.Action (DDLParse E (query qre))) ""); [reflexivity|].
  cbv beta iota zeta delta [bind txPool_Begin_call ask ret panic].
  destruct (txPool_Begin E (history w)) as [p|txid]; [reflexivity|].
  cbv beta iota zeta delta [defer_call txPool_Get_call bind ask ret panic].
  fold (push (EvBegin (inr txid)) w).
  destruct (txPool_Get E (history (push (EvBegin (inr txid)) w)) txid) as [p|conn];
    [reflexivity|].
  cbv beta iota.
  fold (push (EvTxPoolGet txid (inr conn)) (push (EvBegin (inr txid)) w)).
  rewrite execSQL_run. cbv zeta.
  change (tunables (push (EvTxPoolGet txid (inr conn)) (push (EvBegin (inr txid)) w)))
    with (tunables w).
  destruct (conn_Exec E _ conn (query qre) _ true) as [err|result]; [reflexivity|].
  unfold schema_events.
  destruct (negb _ && negb _), (negb (String.eqb (planbuilder.NewName _) ""));
    cbn; f_equal; same_world.
Qed.

(** X7: the ways [execDDL] fails.  A statement the parser gives no action
    for is refused with [ErrFail] "DDL is not understood" before anything
    is called.  When the backend refuses the statement the error is raised
    after the connection was recycled and [SafeCommit] called; when the
    transaction has no connection [SafeCommit] is still called; when
    [Begin] fails nothing else is called. *)
Theorem execDDL_failure E qre w :
  (planbuilder.Action (DDLParse E (query qre)) = "" ->
   execDDL E qre w = Panic (NewTabletError ErrFail "DDL is not understood") w)
  /\ (forall txid conn err,
        planbuilder.Action (DDLParse E (query qre)) <> "" ->
        txPool_Begin E (history w) = inr txid ->
        txPool_Get E (history w ++ [EvBegin (inr txid)]) txid = inr conn ->
        conn_Exec E (history w ++ [EvBegin (inr txid); EvTxPoolGet txid (inr conn)])
          conn (query qre) (maxResultSize (tunables w)) true = inl err ->
        exists w',
          execDDL E qre w = Panic (PError err) w'
          /\ history w'
             = history w
               ++ [EvBegin (inr txid); EvTxPoolGet txid (inr conn);
                   EvExec conn (query qre) (maxResultSize (tunables w)) true (inl err);
                   EvRecycle conn; EvSafeCommit txid])
  /\ (forall txid p,
        planbuilder.Action (DDLParse E (query qre)) <> "" ->
        txPool_Begin E (history w) = inr txid ->
        txPool_Get E (history w ++ [EvBegin (inr txid)]) txid = inl p ->
        exists w',
          execDDL E qre w = Panic p w'
          /\ history w'
             = history w
               ++ [EvBegin (inr txid); EvTxPoolGet txid (inl p); EvSafeCommit txid])
  /\ (forall p,
        planbuilder.Action (DDLParse E (query qre)) <> "" ->
        txPool_Begin E (history w) = inl p ->
        execDDL E qre w = Panic p (push (EvBegin (inl p)) w)).
Proof.
  split; [|split; [|split]].
  - intros Hact. rewrite execDDL_run. cbv zeta. rewrite Hact. reflexivity.
  - intros txid conn err Hact Hbegin Hget Hexec. rewrite execDDL_run. cbv zeta.
    apply String.eqb_neq in Hact. rewrite Hact, Hbegin.
    change (history (push (EvBegin (inr txid)) w)) with (history w ++ [EvBegin (inr txid)]).
    rewrite Hget.
    change (history (push (EvTxPoolGet txid (inr conn)) (push (EvBegin (inr txid)) w)))
      with ((history w ++ [EvBegin (inr txid)]) ++ [EvTxPoolGet txid (inr conn)]).
    rewrite <- app_assoc. cbn [app]. rewrite Hexec.
    eexists. split; [reflexivity|]. cbn. rewrite <- !app_assoc. reflexivity.
  - intros txid p Hact Hbegin Hget. rewrite execDDL_run. cbv zeta.
    apply String.eqb_neq in Hact. rewrite Hact, Hbegin.
    change (history (push (EvBegin (inr txid)) w)) with (history w ++ [EvBegin (inr txid)]).
    rewrite Hget. eexists. split; [reflexivity|]. cbn. rewrite <- !app_assoc. reflexivity.
  - intros p Hact Hbegin. rewrite execDDL_run. cbv zeta.
    apply String.eqb_neq in Hact. rewrite Hact, Hbegin. reflexivity.
Qed.

(** X8: a DDL the backend accepts.  [execDDL] begins a transaction, takes
    its connection, sends the text of the query with [maxResultSize],
    drops the old table from the schema when it was renamed or removed,
    creates or reloads the new one when there is one, recycles the
    connection and only then calls [SafeCommit]; the query is the one
    statement added to the stats log and the bind variables are not
    touched. *)
Theorem execDDL_success E qre w txid conn result :
  planbuilder.Action (DDLParse E (query qre)) <> "" ->
  txPool_Begin E (history w) = inr txid ->
  txPool_Get E (history w ++ [EvBegin (inr txid)]) txid = inr conn ->
  conn_Exec E (history w ++ [EvBegin (inr txid); EvTxPoolGet txid (inr conn)])
    conn (query qre) (maxResultSize (tunables w)) true = inr result ->
  exists w',
    execDDL E qre w = Ret result w'
    /\ history w'
       = history w
         ++ [EvBegin (inr txid); EvTxPoolGet txid (inr conn);
             EvExec conn (query qre) (maxResultSize (tunables w)) true (inr result)]
         ++ schema_events (DDLParse E (query qre))
         ++ [EvRecycle conn; EvSafeCommit txid]
    /\ stats_log w' = stats_log w ++ [query qre]
    /\ bindVars w' = bindVars w.
Proof.
  intros Hact Hbegin Hget Hexec. rewrite execDDL_run. cbv zeta.
  apply String.eqb_neq in Hact. rewrite Hact, Hbegin.
  change (history (push (EvBegin (inr txid)) w)) with (history w ++ [EvBegin (inr txid)]).
  rewrite Hget.
  change (history (push (EvTxPoolGet txid (inr conn)) (push (EvBegin (inr txid)) w)))
    with ((history w ++ [EvBegin (inr txid)]) ++ [EvTxPoolGet txid (inr conn)]).
  rewrite <- app_assoc. cbn [app]. rewrite Hexec.
  eexists. split; [reflexivity|]. split; [|split; reflexivity].
  cbn. rewrite <- !app_assoc. reflexivity.
Qed.

Lemma execDDL_failure_witness :
  let q := Scenario.mkQre 0 Scenario.client
             (Scenario.mkPlan planbuilder.PLAN_DDL "" (SVInt64 0) [] Scenario.noRules) in
  exists w',
    execDDL Scenario.failing q (Scenario.world 0)
    = Panic (PError (ErrOther "Duplicate entry")) w'
    /\ history w'
       = [EvBegin (inr 42); EvTxPoolGet 42 (inr 3%nat);
          EvExec 3%nat "q" 10000 true (inl (ErrOther "Duplicate entry"));
          EvRecycle 3%nat; EvSafeCommit 42].
Proof.
  intros q.
  exact (proj1 (proj2 (execDDL_failure Scenario.failing q (Scenario.world 0))) 42 3%nat
           (ErrOther "Duplicate entry") ltac:(discriminate) eq_refl eq_refl eq_refl).
Defined.

Lemma execDDL_success_witness :
  let q := Scenario.mkQre 0 Scenario.client
             (Scenario.mkPlan planbuilder.PLAN_DDL "" (SVInt64 0) [] Scenario.noRules) in
  exists w',
    execDDL Scenario.collab q (Scenario.world 0) = Ret (Scenario.okResult 1 []) w'
    /\ history w'
       = [EvBegin (inr 42); EvTxPoolGet 42 (inr 3%nat);
          EvExec 3%nat "q" 10000 true (inr (Scenario.okResult 1 []));
          EvCreateOrUpdateTable "t"; EvRecycle 3%nat; EvSafeCommit 42]
    /\ stats_log w' = ["q"]
    /\ bindVars w' = ∅.
Proof.
  intros q.
  exact (execDDL_success Scenario.collab q (Scenario.world 0) 42 3%nat
           (Scenario.okResult 1 []) ltac:(discriminate) eq_refl eq_refl eq_refl).
Defined.

(** ** Consolidated reads *)

Definition flagged (E : Collaborators) (w : World) : World :=
  set_logStats (LogStats.or_QuerySources (QuerySourceConsolidator E) (logStats w)) w.

Definition fatal (E : Collaborators) (err : GoError) : GoError :=
  ErrTablet (NewTabletErrorSql E ErrFatal err).

Definition outcome_of {A} (answer : GoError + A) (w : World) : Outcome A :=
  match answer with inl err => Panic (PError err) w | inr a => Ret a w end.

Lemma qFetch_run E pq r w m :
  ref_get r w = Some m ->
  qFetch E pq r w =
  let w1 := ref_set r (with_maxLimit w m) w in
  match final_sql E pq None (with_maxLimit w m) with
  | inl err => Panic (NewTabletError ErrFail (Error E err)) w1
  | inr sql =>
      let ok := consolidator_Create E (history w) sql in
      let w2 := push (EvConsolidatorCreate sql ok) w1 in
      if ok then
        match pool_Get E (history w2) connPool with
        | inl err =>
            Panic (PError (fatal E err))
              (push (EvConsolidatorBroadcast sql)
                 (push (EvConsolidatorStore sql (inl (fatal E err)))
                    (push (EvPoolGet connPool (inl err)) w2)))
        | inr conn =>
            let w3 := push (EvPoolGet connPool (inr conn)) w2 in
            let answer :=
              conn_Exec E (history w3) conn sql (maxResultSize (tunables w)) false in
            outcome_of answer
              (push (EvConsolidatorBroadcast sql)
                 (push (EvRecycle conn)
                    (push (EvConsolidatorStore sql answer)
                       (after_Exec conn sql false answer w3))))
        end
      else
        let w3 := flagged E w2 in
        q_finish (consolidator_Wait E (history w3) sql)
          (push (EvWaitStats "Consolidations") (push (EvConsolidatorWait sql) w3))
  end.
Proof.
  intros Hm. unfold qFetch, bind. rewrite (generateFinalSql_run E pq r None w m Hm).
  cbv zeta. destruct (final_sql E pq None _) as [err|sql]; [reflexivity|].
  unfold push, outcome_of, fatal, flagged.
  cbv beta iota zeta delta [ask defer_call bind emit modify Recycle].
  assert (history (ref_set r (with_maxLimit w m) w) = history w) as ->
    by (destruct r; reflexivity).
  destruct (consolidator_Create E (history w) sql).
  - cbn [history set_history].
    destruct (pool_Get E _ connPool) as [err|conn]; [reflexivity|].
    rewrite execSQLNoPanic_run. cbv zeta. cbn [history set_history tunables].
    assert (tunables (ref_set r (with_maxLimit w m) w) = tunables w) as ->
      by (destruct r; reflexivity).
    destruct (conn_Exec E _ conn sql _ false); reflexivity.
  - cbn [history set_history set_logStats].
    destruct (consolidator_Wait E _ sql) as [[err|] [result|]]; reflexivity.
Qed.

(** X9: when the consolidator already holds an entry for the final SQL,
    [qFetch] takes no connection and sends nothing: it flags the stats
    with [QuerySourceConsolidator], waits, counts the wait and returns
    what the entry holds (its error as a panic). *)
Theorem qFetch_follower E pq r w m sql :
  ref_get r w = Some m ->
  final_sql E pq None (with_maxLimit w m) = inr sql ->
  consolidator_Create E (history w) sql = false ->
  exists w',
    qFetch E pq r w
    = q_finish (consolidator_Wait E (history w ++ [EvConsolidatorCreate sql false]) sql) w'
    /\ history w'
       = history w
         ++ [EvConsolidatorCreate sql false; EvConsolidatorWait sql;
             EvWaitStats "Consolidations"]
    /\ LogStats.QuerySources (logStats w')
       = Z.lor (LogStats.QuerySources (logStats w)) (QuerySourceConsolidator E)
    /\ stats_log w' = stats_log w.
Proof.
  intros Hm Hsql Hfollow. rewrite (qFetch_run E pq r w m Hm). cbv zeta.
  rewrite Hsql, Hfollow.
  assert (history (ref_set r (with_maxLimit w m) w) = history w) as Hh
    by (destruct r; reflexivity).
  assert (logStats (ref_set r (with_maxLimit w m) w) = logStats w) as Hl
    by (destruct r; reflexivity).
  eexists. split; [|split; [|split]].
  - cbn [flagged push history set_history set_logStats]. rewrite Hh. reflexivity.
  - cbn. rewrite Hh, <- !app_assoc. reflexivity.
  - cbn. rewrite Hl. reflexivity.
  - unfold stats_log. cbn. rewrite Hl. reflexivity.
Qed.

(** X10: when [qFetch] creates the consolidator entry it takes one
    connection from the connection pool, sends the final SQL on it with
    [maxResultSize] and without field info, stores the answer in the
    entry, recycles the connection and broadcasts, in this order, whether
    the backend answered with rows or with an error; the statement is
    logged once.  When the pool gives no connection the error stored and
    raised is an [ErrFatal] tablet error, and the entry is still
    broadcast. *)
Theorem qFetch_leader E pq r w m sql :
  ref_get r w = Some m ->
  final_sql E pq None (with_maxLimit w m) = inr sql ->
  consolidator_Create E (history w) sql = true ->
  (forall conn,
     pool_Get E (history w ++ [EvConsolidatorCreate sql true]) connPool = inr conn ->
     let answer :=
       conn_Exec E (history w ++ [EvConsolidatorCreate sql true; EvPoolGet connPool (inr conn)])
         conn sql (maxResultSize (tunables w)) false in
     exists w',
       qFetch E pq r w = outcome_of answer w'
       /\ history w'
          = history w
            ++ [EvConsolidatorCreate sql true; EvPoolGet connPool (inr conn);
                EvExec conn sql (maxResultSize (tunables w)) false answer;
                EvConsolidatorStore sql answer; EvRecycle conn;
                EvConsolidatorBroadcast sql]
       /\ stats_log w' = stats_log w ++ [sql])
  /\ (forall err,
        pool_Get E (history w ++ [EvConsolidatorCreate sql true]) connPool = inl err ->
        exists w',
          qFetch E pq r w = Panic (PError (fatal E err)) w'
          /\ history w'
             = history w
               ++ [EvConsolidatorCreate sql true; EvPoolGet connPool (inl err);
                   EvConsolidatorStore sql (inl (fatal E err));
                   EvConsolidatorBroadcast sql]
          /\ stats_log w' = stats_log w).
Proof.
  intros Hm Hsql Hlead.
  assert (history (ref_set r (with_maxLimit w m) w) = history w) as Hh
    by (destruct r; reflexivity).
  assert (logStats (ref_set r (with_maxLimit w m) w) = logStats w) as Hl
    by (destruct r; reflexivity).
  assert (tunables (ref_set r (with_maxLimit w m) w) = tunables w) as Ht
    by (destruct r; reflexivity).
  split.
  - intros conn Hget answer. rewrite (qFetch_run E pq r w m Hm). cbv zeta.
    rewrite Hsql, Hlead. cbn [push history set_history]. rewrite Hh, Hget.
    rewrite <- app_assoc. cbn [app]. fold answer.
    eexists. split; [reflexivity|]. split.
    + cbn. rewrite Hh, Ht, <- !app_assoc. reflexivity.
    + unfold stats_log. cbn. rewrite Hl. reflexivity.
  - intros err Hget. rewrite (qFetch_run E pq r w m Hm). cbv zeta.
    rewrite Hsql, Hlead. cbn [push history set_history]. rewrite Hh, Hget.
    eexists. split; [reflexivity|]. split.
    + cbn. rewrite Hh, <- !app_assoc. reflexivity.
    + unfold stats_log. cbn. rewrite Hl. reflexivity.
Qed.

(** The same tablet with another consolidator. *)
Definition with_consolidator (create : History -> string -> bool)
    (wait : History -> string -> option GoError * option mproto.QueryResult)
    (E : Collaborators) : Collaborators :=
  {| buildValueList := buildValueList E;
     buildSecondaryList := buildSecondaryList E;
     buildStreamComment := buildStreamComment E;
     buildKey := buildKey E;
     applyFilter := applyFilter E;
     applyFilterWithPKDefaults := applyFilterWithPKDefaults E;
     validateRow := validateRow E;
     getLimit := getLimit E;
     restoreTrailing := restoreTrailing E;
     GenerateQuery := GenerateQuery E;
     DDLParse := DDLParse E;
     NewTabletErrorSql := NewTabletErrorSql E;
     Error := Error E;
     PlanId_String := PlanId_String E;
     quote := quote E;
     spotCheckMultiplier := spotCheckMultiplier E;
     QuerySourceRowcache := QuerySourceRowcache E;
     QuerySourceConsolidator := QuerySourceConsolidator E;
     int64_to_float64 := int64_to_float64 E;
     float64_to_duration := float64_to_duration E;
     float64_to_spotCheckFreq := float64_to_spotCheckFreq E;
     pool_Get := pool_Get E;
     txPool_Get := txPool_Get E;
     txPool_Begin := txPool_Begin E;
     qe_Commit := qe_Commit E;
     conn_Exec := conn_Exec E;
     consolidator_Create := create;
     consolidator_Wait := wait;
     cache_Get := cache_Get E;
     Rand := Rand E |}.

(** A second request for a statement that is already running: it waits
    and takes the rows the first one read. *)
Lemma qFetch_follower_witness :
  let E := with_consolidator (fun _ _ => false)
             (fun _ _ => (None, Some (Scenario.okResult 0 [[VRaw "1"]]))) Scenario.collab in
  exists w',
    qFetch E {| Query := "select" |} QreBindVars (Scenario.world 0)
    = Ret (Scenario.okResult 0 [[VRaw "1"]]) w'
    /\ history w'
       = [EvConsolidatorCreate "select" false; EvConsolidatorWait "select";
          EvWaitStats "Consolidations"].
Proof.
  intros E.
  destruct (qFetch_follower E {| Query := "select" |} QreBindVars (Scenario.world 0) ∅
              "select" eq_refl eq_refl eq_refl) as (w' & Hrun & Hhist & _).
  exists w'. split; [exact Hrun|exact Hhist].
Defined.

(** The first request for a statement on the sample tablet. *)
Lemma qFetch_leader_witness :
  exists w',
    qFetch Scenario.collab {| Query := "select" |} QreBindVars (Scenario.world 0)
    = Ret (Scenario.okResult 1 []) w'
    /\ history w'
       = [EvConsolidatorCreate "select" true; EvPoolGet connPool (inr 7%nat);
          EvExec 7%nat "select" 10000 false (inr (Scenario.okResult 1 []));
          EvConsolidatorStore "select" (inr (Scenario.okResult 1 []));
          EvRecycle 7%nat; EvConsolidatorBroadcast "select"].
Proof.
  destruct (proj1 (qFetch_leader Scenario.collab {| Query := "select" |} QreBindVars
                     (Scenario.world 0) ∅ "select" eq_refl eq_refl eq_refl)
              7%nat eq_refl) as (w' & Hrun & Hhist & _).
  exists w'. split; [exact Hrun|exact Hhist].
Defined.

(** ** Spot checks *)

(** X11: with a positive multiplier and a non-negative random number,
    [mustVerify] never asks for a spot check when [spotCheckFreq <= 0] and
    always asks for one when [spotCheckFreq] is at least the
    multiplier. *)
Theorem mustVerify_bounds E w :
  0 < spotCheckMultiplier E ->
  0 <= Rand E (history w) ->
  (spotCheckFreq (tunables w) <= 0 -> mustVerify E w = Ret false (push EvRand w))
  /\ (spotCheckMultiplier E <= spotCheckFreq (tunables w) ->
      mustVerify E w = Ret true (push EvRand w)).
Proof.
  intros Hmult Hrand. unfold mustVerify, bind, ask, get_world, ret. cbv zeta.
  change (tunables (set_history _ w)) with (tunables w).
  destruct (spotCheckMultiplier E =? 0) eqn:Hz; [apply Z.eqb_eq in Hz; lia|].
  pose proof (Z.rem_bound_pos (Rand E (history w)) (spotCheckMultiplier E) Hrand Hmult) as Hb.
  split; intros Hfreq; unfold push; do 2 f_equal.
  - apply Z.ltb_ge. lia.
  - apply Z.ltb_lt. lia.
Qed.

Lemma mustVerify_bounds_witness :
  mustVerify Scenario.collab (Scenario.world 0) = Ret false (push EvRand (Scenario.world 0)).
Proof.
  apply (mustVerify_bounds Scenario.collab (Scenario.world 0)); cbn; lia.
Defined.

(** The row read back confirms the cached one: there is one, and it is
    the cached row value by value. *)
Definition confirms (rcresult : RCResult) (dbrow : option Row) : Prop :=
  exists row, dbrow = Some row /\ Forall2 same_value (default [] (Row_ rcresult)) row.

(** X12: [spotCheck] counts the check, asks the backend (through
    [qFetch], with a fresh map binding [#pk] to this key alone) for the
    row, and launches the delayed recheck unless the first row returned is
    the cached row value by value; when no row comes back the recheck is
    launched.  A failure of the read is a failure of the spot check. *)
Theorem spotCheck_launches_recheck E qre rcresult pk w cols :
  plan_index0 qre = Some cols ->
  let bv : BindVars := {[ "#pk" := BVTupleEqualityList cols [pk] ]} in
  let w1 := set_localMaps (localMaps w ++ [bv]) (push (EvSpotCheckCount 1) w) in
  match qFetch E (ExecPlan.OuterQuery (plan qre)) (LocalMap (length (localMaps w))) w1 with
  | Ret r w2 =>
      let dbrow := head (mproto.Rows r) in
      (confirms rcresult dbrow -> spotCheck E qre rcresult pk w = Ret tt w2)
      /\ (~ confirms rcresult dbrow ->
          spotCheck E qre rcresult pk w
          = Ret tt (push (EvLaunchRecheck rcresult dbrow pk) w2))
  | Panic p w2 => spotCheck E qre rcresult pk w = Panic p w2
  | OutOfFuel => spotCheck E qre rcresult pk w = OutOfFuel
  end.
Proof.
  intros Hcols bv w1. unfold spotCheck.
  cbv beta iota zeta delta [bind emit modify].
  assert (index0_Columns qre (set_history (history w ++ [EvSpotCheckCount 1]) w)
          = Ret cols (push (EvSpotCheckCount 1) w)) as ->.
  { unfold plan_index0 in Hcols. unfold index0_Columns, tableInfo_deref, bind.
    destruct (ExecPlan.TableInfo (plan qre)) as [ti|]; [|discriminate]. cbn.
    destruct (head (schema.Indexes ti)) as [ix|]; [|discriminate]. cbn.
    injection Hcols as <-. reflexivity. }
  cbv beta iota zeta delta [map_new].
  change (set_localMaps _ (push (EvSpotCheckCount 1) w)) with w1.
  change (length (localMaps (push (EvSpotCheckCount 1) w))) with (length (localMaps w)).
  destruct (qFetch E _ _ w1) as [r w2|p w2|]; [|reflexivity..].
  unfold confirms. destruct (head (mproto.Rows r)) as [dbrow|].
  - destruct (rowsAreEqual _ dbrow) eqn:Heq; cbn [negb]; split.
    + reflexivity.
    + intros Hno. elim Hno. exists dbrow. split; [reflexivity|].
      apply rowsAreEqual_iff. exact Heq.
    + intros (row & [= <-] & Hsame). apply rowsAreEqual_iff in Hsame. congruence.
    + reflexivity.
  - split; [intros (row & Hrow & _); discriminate|reflexivity].
Qed.

(** A cached row ["1"] checked against the sample backend, which returns
    no row: the recheck is launched. *)
Lemma spotCheck_launches_recheck_witness :
  let q := Scenario.mkQre 0 Scenario.client
             (Scenario.mkPlan planbuilder.PLAN_PK_IN "" (SVInt64 0) [] Scenario.noRules) in
  let rc := {| Row_ := Some [VRaw "1"]; Cas := 9 |} in
  exists w',
    spotCheck Scenario.collab q rc [VRaw "1"] (Scenario.world 0) = Ret tt w'
    /\ last (history w') = Some (EvLaunchRecheck rc None [VRaw "1"]).
Proof.
  intros q rc.
  pose proof (spotCheck_launches_recheck Scenario.collab q rc [VRaw "1"] (Scenario.world 0)
                ["id"] eq_refl) as H.
  cbv zeta in H.
  assert (exists r w2,
            qFetch Scenario.collab (ExecPlan.OuterQuery (plan q)) (LocalMap 0)
              (set_localMaps [{[ "#pk" := BVTupleEqualityList ["id"] [[VRaw "1"]] ]}]
                 (push (EvSpotCheckCount 1) (Scenario.world 0))) = Ret r w2
            /\ mproto.Rows r = []) as (r & w2 & Hq & Hrows)
    by (eexists; eexists; split; [vm_compute; reflexivity|reflexivity]).
  change (localMaps (Scenario.world 0) ++ _)
    with [({[ "#pk" := BVTupleEqualityList ["id"] [[VRaw "1"]] ]} : BindVars)] in H.
  change (length (localMaps (Scenario.world 0))) with 0%nat in H.
  rewrite Hq, Hrows in H. cbn [head] in H.
  eexists. split; [apply (proj2 H); intros (row & Hrow & _); discriminate|].
  cbn. apply last_snoc.
Defined.

(** ** INSERT ... SELECT *)

(** X13: [execInsertSubquery] whose subquery returned rows refuses them
    before inserting anything when the first row has not as many values as
    the column list ([ErrFail] "Subquery length does not match column
    list") or when the first PK row is not valid (the validation error).
    Only the subquery was sent, and [#values] is bound as it was. *)
Theorem execInsertSubquery_rejects E qre conn w inner w1 row0 rest :
  directFetch E conn (ExecPlan.Subquery (plan qre)) QreBindVars None w = Ret inner w1 ->
  mproto.Rows inner = row0 :: rest ->
  (Go.len (ExecPlan.ColumnNumbers (plan qre)) <> Go.len row0 ->
   execInsertSubquery E qre conn w
   = Panic (NewTabletError ErrFail "Subquery length does not match column list") w1)
  /\ (forall ti err,
        Go.len (ExecPlan.ColumnNumbers (plan qre)) = Go.len row0 ->
        ExecPlan.TableInfo (plan qre) = Some ti ->
        validateRow E (Some ti) (schema.PKColumns ti)
          (applyFilterWithPKDefaults E (Some ti) (ExecPlan.SubqueryPKColumns (plan qre)) row0)
        = Some err ->
        execInsertSubquery E qre conn w = Panic (PError err) w1)
  /\ sent w1 = S (sent w)
  /\ bindVars w1 !! "#values" = bindVars w !! "#values".
Proof.
  intros Hsub Hrows. split; [|split; [|split]].
  - intros Hlen. unfold execInsertSubquery, bind. rewrite Hsub, Hrows.
    apply Z.eqb_neq in Hlen. rewrite Hlen. reflexivity.
  - intros ti err Hlen Hti Hval. unfold execInsertSubquery, bind. rewrite Hsub, Hrows.
    apply Z.eqb_eq in Hlen. rewrite Hlen. cbn [negb].
    unfold tableInfo_deref. rewrite Hti. cbn. rewrite Hval. reflexivity.
  - apply directFetch_Ret in Hsub as (sql & _ & _ & ->).
    unfold sent. cbn. rewrite count_app. cbn. lia.
  - apply directFetch_Ret in Hsub as (sql & _ & _ & ->). cbn.
    unfold with_maxLimit. rewrite lookup_insert_ne by discriminate. reflexivity.
Qed.

(** X14: [execInsertSubquery] whose subquery returned acceptable rows
    binds them, all of them, to [#values] in the bind variables of the
    request and sends [OuterQuery] with the stream comment built from the
    PK rows; when it returns two statements have been sent and [#values]
    is still bound to the rows. *)
Theorem execInsertSubquery_binds_values E qre conn w inner w1 row0 rest ti sl :
  directFetch E conn (ExecPlan.Subquery (plan qre)) QreBindVars None w = Ret inner w1 ->
  mproto.Rows inner = row0 :: rest ->
  Go.len (ExecPlan.ColumnNumbers (plan qre)) = Go.len row0 ->
  ExecPlan.TableInfo (plan qre) = Some ti ->
  let pkRows := map (applyFilterWithPKDefaults E (Some ti)
                       (ExecPlan.SubqueryPKColumns (plan qre))) (row0 :: rest) in
  let bv := <["#values" := BVRows (row0 :: rest)]> (bindVars w1) in
  validateRow E (Some ti) (schema.PKColumns ti)
    (applyFilterWithPKDefaults E (Some ti) (ExecPlan.SubqueryPKColumns (plan qre)) row0)
  = None ->
  buildSecondaryList E (Some ti) pkRows (ExecPlan.SecondaryPKValues (plan qre)) bv = inr sl ->
  execInsertSubquery E qre conn w
  = directFetch E conn (ExecPlan.OuterQuery (plan qre)) QreBindVars
      (buildStreamComment E (Some ti) pkRows sl) (set_bindVars bv w1)
  /\ forall r w', execInsertSubquery E qre conn w = Ret r w' ->
                  bindVars w' !! "#values" = Some (BVRows (row0 :: rest))
                  /\ sent w' = S (S (sent w)).
Proof.
  intros Hsub Hrows Hlen Hti pkRows bv Hval Hsl.
  assert (execInsertSubquery E qre conn w
          = directFetch E conn (ExecPlan.OuterQuery (plan qre)) QreBindVars
              (buildStreamComment E (Some ti) pkRows sl) (set_bindVars bv w1)) as Hrun.
  { unfold execInsertSubquery, bind. rewrite Hsub, Hrows.
    apply Z.eqb_eq in Hlen. rewrite Hlen. cbn [negb].
    unfold tableInfo_deref. rewrite Hti. cbn [lift_option ret map head].
    rewrite Hval. cbn [map_store]. unfold execInsertPKRows, bind, get_world.
    rewrite Hti. cbn [bindVars set_bindVars].
    change (applyFilterWithPKDefaults E (Some ti) (ExecPlan.SubqueryPKColumns (plan qre)) row0
            :: map _ rest) with pkRows.
    fold bv. rewrite Hsl. reflexivity. }
  split; [exact Hrun|].
  intros r w' Hret. rewrite Hrun in Hret.
  apply directFetch_Ret in Hret as (sql & _ & _ & ->).
  apply directFetch_Ret in Hsub as (sql1 & _ & _ & ->). split.
  - cbn. unfold with_maxLimit. rewrite lookup_insert_ne by discriminate.
    subst bv. apply lookup_insert_eq.
  - unfold sent. cbn. rewrite !count_app. cbn. lia.
Qed.

(** The same plan inserting into other columns. *)
Definition with_columns (cols : list Z) (p : ExecPlan.t) : ExecPlan.t :=
  {| ExecPlan.PlanId := ExecPlan.PlanId p; ExecPlan.Reason := ExecPlan.Reason p;
     ExecPlan.TableName := ExecPlan.TableName p; ExecPlan.TableInfo := ExecPlan.TableInfo p;
     ExecPlan.FullQuery := ExecPlan.FullQuery p; ExecPlan.OuterQuery := ExecPlan.OuterQuery p;
     ExecPlan.Subquery := ExecPlan.Subquery p; ExecPlan.PKValues := ExecPlan.PKValues p;
     ExecPlan.SecondaryPKValues := ExecPlan.SecondaryPKValues p;
     ExecPlan.SubqueryPKColumns := ExecPlan.SubqueryPKColumns p;
     ExecPlan.ColumnNumbers := cols;
     ExecPlan.Fields := ExecPlan.Fields p; ExecPlan.Limit := ExecPlan.Limit p;
     ExecPlan.SetKey := ExecPlan.SetKey p; ExecPlan.SetValue := ExecPlan.SetValue p;
     ExecPlan.Rules_getAction := ExecPlan.Rules_getAction p;
     ExecPlan.Authorized := ExecPlan.Authorized p |}.

(** The subquery yields one column, the insert names two. *)
Lemma execInsertSubquery_rejects_witness :
  let q := Scenario.mkQre 5 Scenario.client
             (with_columns [0; 1]
                (Scenario.mkPlan planbuilder.PLAN_INSERT_SUBQUERY "" (SVInt64 0) []
                   Scenario.noRules)) in
  exists w1,
    execInsertSubquery Scenario.reading q 3%nat (Scenario.world 0)
    = Panic (NewTabletError ErrFail "Subquery length does not match column list") w1
    /\ sent w1 = 1%nat.
Proof.
  intros q.
  assert (exists inner w1,
            directFetch Scenario.reading 3%nat (ExecPlan.Subquery (plan q)) QreBindVars None
              (Scenario.world 0) = Ret inner w1
            /\ mproto.Rows inner = [VRaw "1"] :: [[VRaw "2"]; [VRaw "3"]])
    as (inner & w1 & Hsub & Hrows)
    by (eexists; eexists; split; [vm_compute; reflexivity|reflexivity]).
  destruct (execInsertSubquery_rejects Scenario.reading q 3%nat (Scenario.world 0)
              inner w1 _ _ Hsub Hrows) as (Hreject & _ & Hsent & _).
  exists w1. split; [apply Hreject; discriminate|exact Hsent].
Defined.

(** Three rows copied on the sample tablet: the subquery, then the insert
    with the rows bound to [#values]. *)
Lemma execInsertSubquery_binds_values_witness :
  let q := Scenario.mkQre 5 Scenario.client
             (Scenario.mkPlan planbuilder.PLAN_INSERT_SUBQUERY "" (SVInt64 0) []
                Scenario.noRules) in
  exists r w',
    execInsertSubquery Scenario.reading q 3%nat (Scenario.world 0) = Ret r w'
    /\ bindVars w' !! "#values" = Some (BVRows [[VRaw "1"]; [VRaw "2"]; [VRaw "3"]])
    /\ sent w' = 2%nat.
Proof.
  intros q.
  assert (exists inner w1,
            directFetch Scenario.reading 3%nat (ExecPlan.Subquery (plan q)) QreBindVars None
              (Scenario.world 0) = Ret inner w1
            /\ mproto.Rows inner = [VRaw "1"] :: [[VRaw "2"]; [VRaw "3"]])
    as (inner & w1 & Hsub & Hrows)
    by (eexists; eexists; split; [vm_compute; reflexivity|reflexivity]).
  assert (exists r w', execInsertSubquery Scenario.reading q 3%nat (Scenario.world 0)
                       = Ret r w') as (r & w' & Hrun)
    by (eexists; eexists; vm_compute; reflexivity).
  destruct (execInsertSubquery_binds_values Scenario.reading q 3%nat (Scenario.world 0)
              inner w1 _ _ Scenario.table None Hsub Hrows eq_refl eq_refl eq_refl eq_refl)
    as [_ Hbound].
  exists r, w'. split; [exact Hrun|]. exact (Hbound r w' Hrun).
Defined.

(** ** The entry point *)

(** What [Execute] does between the policy gate and its deferred stats. *)
Definition dispatch (E : Collaborators) (qre : QueryExecutor) (fuel : nat)
  : M (option mproto.QueryResult) :=
  match ExecPlan.PlanId (plan qre) with
  | planbuilder.PLAN_DDL => some (execDDL E qre)
  | planId =>
      if negb (transactionID qre =? 0) then
        bind (txPool_Get_call E (transactionID qre)) (fun conn =>
          defer_call (Recycle conn)
            (bind (emit (EvRecordQuery conn (query qre))) (fun _ =>
               bind (make_invalidator qre conn) (fun invalidator =>
                 match planId with
                 | planbuilder.PLAN_PASS_DML =>
                     bind strict_check (fun _ =>
                       some (directFetch E conn (ExecPlan.FullQuery (plan qre))
                               QreBindVars None))
                 | planbuilder.PLAN_INSERT_PK => some (execInsertPK E qre conn)
                 | planbuilder.PLAN_INSERT_SUBQUERY => some (execInsertSubquery E qre conn)
                 | planbuilder.PLAN_DML_PK => some (execDMLPK E qre fuel conn invalidator)
                 | planbuilder.PLAN_DML_SUBQUERY =>
                     some (execDMLSubquery E qre fuel conn invalidator)
                 | planbuilder.PLAN_OTHER => some (execSQL E conn (query qre) true)
                 | _ => some (execDirect E qre conn)
                 end))))
      else
        match planId with
        | planbuilder.PLAN_PASS_SELECT =>
            match ExecPlan.Reason (plan qre) with
            | planbuilder.REASON_LOCK =>
                panic (NewTabletError ErrFail "Disallowed outside transaction")
            | _ => some (execSelect E qre)
            end
        | planbuilder.PLAN_PK_IN => some (execPKIN E qre)
        | planbuilder.PLAN_SELECT_SUBQUERY => some (execSubquery E qre)
        | planbuilder.PLAN_SET => some (execSet E qre)
        | planbuilder.PLAN_OTHER =>
            bind (getConn E connPool) (fun conn =>
              defer_call (Recycle conn) (some (execSQL E conn (query qre) true)))
        | _ =>
            if negb (enableAutoCommit (qe qre)) then
              panic (NewTabletError ErrFatal ("unsupported query: " +:+ query qre))
            else execDmlAutoCommit E qre fuel
        end
  end.

Lemma Execute_dispatch E qre fuel w :
  Execute E qre fuel w =
  match bind (checkPermissions E qre) (fun _ => dispatch E qre fuel) (header E qre w) with
  | Ret (Some r) w1 => Ret (Some r) (served_stats E qre r w1)
  | Ret None w1 => Ret None (failed_stats E qre w1)
  | Panic p w1 => Panic p (failed_stats E qre w1)
  | OutOfFuel => OutOfFuel
  end.
Proof.
  unfold Execute. cbv zeta. unfold bind at 1. cbn [modify]. fold (header E qre w).
  unfold defer_named.
  change (bind (checkPermissions E qre) _ (header E qre w))
    with (bind (checkPermissions E qre) (fun _ => dispatch E qre fuel) (header E qre w)).
  destruct (bind (checkPermissions E qre) _ (header E qre w)) as [[r|] w1|p w1|];
    reflexivity.
Qed.

Lemma some_Ret {A} (m : M A) w a w' : some m w = Ret a w' -> exists r, a = Some r.
Proof.
  unfold some, bind. destruct (m w) as [r w1|p w1|]; [|discriminate..].
  intros [= <- _]. eauto.
Qed.

Lemma defer_call_Ret {A} (d : M unit) (rest : M A) w a w' :
  defer_call d rest w = Ret a w' -> exists w1, rest w = Ret a w1.
Proof.
  unfold defer_call. destruct (rest w) as [a1 w1|p w1|]; [| |discriminate].
  - destruct (d w1); [|discriminate..]. intros [= <- _]. eauto.
  - destruct (d w1); discriminate.
Qed.

Ltac reply_is_some :=
  repeat match goal with
         | H : bind _ _ _ = Ret _ _ |- _ => apply bind_Ret in H as (? & ? & _ & H)
         | H : defer_call _ _ _ = Ret _ _ |- _ => apply defer_call_Ret in H as (? & H)
         | H : some _ _ = Ret _ _ |- _ => exact (some_Ret _ _ _ _ H)
         | H : panic _ _ = Ret _ _ |- _ => discriminate H
         end.

Lemma autoCommit_branch_Ret E qre fuel txid w a w' :
  autoCommit_branch E qre fuel txid w = Ret a w' -> exists r, a = Some r.
Proof.
  unfold autoCommit_branch. intros H.
  destruct (ExecPlan.PlanId (plan qre)); reply_is_some.
Qed.

Lemma dispatch_Ret E qre fuel w a w' :
  dispatch E qre fuel w = Ret a w' -> exists r, a = Some r.
Proof.
  unfold dispatch. intros H.
  destruct (ExecPlan.PlanId (plan qre));
    try (exact (some_Ret _ _ _ _ H));
    destruct (negb (transactionID qre =? 0)); reply_is_some;
    try (destruct (ExecPlan.Reason (plan qre)); reply_is_some);
    try (destruct (negb (enableAutoCommit (qe qre))); [discriminate H|];
         rewrite execDmlAutoCommit_run in H;
         destruct (txPool_Begin E (history w)) as [p|txid]; [discriminate H|];
         destruct (autoCommit_branch E qre fuel txid _) as [reply w2|e w2|] eqn:Hbranch;
           [|discriminate H..];
         destruct (qe_Commit E (history w2) txid); [discriminate H|];
         injection H as <- _; exact (autoCommit_branch_Ret _ _ _ _ _ _ _ Hbranch)).
Qed.

(** X15: [Execute] never returns a nil reply.  When it returns, the last
    three calls are the query timing, the plan stats with the reply's
    [RowsAffected] and no error, and the result stats with the number of
    rows, and the stats record holds the reply's [RowsAffected] and rows.
    When it panics, the last two calls are the query timing and the plan
    stats with no row and one error. *)
Theorem Execute_counts_the_request E qre fuel w :
  let name := PlanId_String E (ExecPlan.PlanId (plan qre)) in
  match Execute E qre fuel w with
  | Ret reply w' =>
      exists r before,
        reply = Some r
        /\ history w'
           = before ++ [EvQueryStats name;
                        EvPlanStats 1 (Go.wrap64 (mproto.RowsAffected r)) 0;
                        EvResultStats (Go.len (mproto.Rows r))]
        /\ LogStats.RowsAffected (logStats w') = Go.wrap64 (mproto.RowsAffected r)
        /\ LogStats.Rows (logStats w') = mproto.Rows r
  | Panic p w' =>
      exists before, history w' = before ++ [EvQueryStats name; EvPlanStats 1 0 1]
  | OutOfFuel => True
  end.
Proof.
  intros name. rewrite Execute_dispatch.
  destruct (bind (checkPermissions E qre) _ (header E qre w)) as [a w1|p w1|] eqn:Hrun;
    [| |exact I].
  - apply bind_Ret in Hrun as (? & w0 & _ & Hrun).
    destruct (dispatch_Ret _ _ _ _ _ _ Hrun) as [r ->].
    exists r, (history w1). split; [reflexivity|]. split; [|split; reflexivity].
    unfold served_stats. cbn. rewrite <- !app_assoc. reflexivity.
  - exists (history w1). unfold failed_stats. cbn. rewrite <- !app_assoc. reflexivity.
Qed.

Definition dml_plans : list planbuilder.PlanType :=
  [planbuilder.PLAN_PASS_DML; planbuilder.PLAN_DML_PK; planbuilder.PLAN_DML_SUBQUERY;
   planbuilder.PLAN_INSERT_PK; planbuilder.PLAN_INSERT_SUBQUERY].

(** X16: what [Execute] refuses outright.  A request the policy gate
    rejects makes no call at all besides the stats.  Outside a
    transaction, past the gate, a locking select fails with [ErrFail]
    "Disallowed outside transaction", and a DML fails with [ErrFatal]
    "unsupported query: <query>" when auto-commit is off; neither takes a
    connection or begins a transaction. *)
Theorem Execute_refuses E qre fuel w :
  (forall p w1,
     checkPermissions E qre (header E qre w) = Panic p w1 ->
     Execute E qre fuel w = Panic p (failed_stats E qre w1)
     /\ (w1 = header E qre w))
  /\ (forall w1,
        checkPermissions E qre (header E qre w) = Ret tt w1 ->
        transactionID qre = 0 ->
        (ExecPlan.PlanId (plan qre) = planbuilder.PLAN_PASS_SELECT ->
         ExecPlan.Reason (plan qre) = planbuilder.REASON_LOCK ->
         Execute E qre fuel w
         = Panic (NewTabletError ErrFail "Disallowed outside transaction")
             (failed_stats E qre w1))
        /\ (In (ExecPlan.PlanId (plan qre)) dml_plans ->
            enableAutoCommit (qe qre) = false ->
            Execute E qre fuel w
            = Panic (NewTabletError ErrFatal ("unsupported query: " +:+ query qre))
                (failed_stats E qre w1))).
Proof.
  split.
  - intros p w1 Hperm. rewrite Execute_dispatch. unfold bind. rewrite Hperm.
    split; [reflexivity|].
    revert Hperm. unfold checkPermissions. destruct (ctx qre) as [|ci]; [discriminate|].
    unfold bind, get_world.
    destruct (ExecPlan.Rules_getAction _ _ _ _) as [[| |] desc];
      try (intros [= _ <-]; reflexivity).
    destruct (ExecPlan.Authorized (plan qre)) as [IsMember|]; [|discriminate].
    destruct (negb _); [|discriminate].
    destruct (strictTableAcl (qe qre)); [|discriminate].
    intros [= _ <-]. reflexivity.
  - intros w1 Hperm Htx. split.
    + intros Hplan Hlock. rewrite Execute_dispatch. unfold bind. rewrite Hperm.
      unfold dispatch. rewrite Hplan, Htx, Hlock. reflexivity.
    + intros Hplan Hauto. rewrite Execute_dispatch. unfold bind. rewrite Hperm.
      unfold dispatch. rewrite Htx, Hauto.
      repeat (destruct Hplan as [<-|Hplan]; [reflexivity|]). destruct Hplan.
Qed.

(** A locking read and, with auto-commit off, an update, both outside a
    transaction on the sample tablet. *)
Lemma Execute_refuses_witness :
  let locking :=
    {| ExecPlan.PlanId := planbuilder.PLAN_PASS_SELECT;
       ExecPlan.Reason := planbuilder.REASON_LOCK;
       ExecPlan.TableName := "t"; ExecPlan.TableInfo := Some Scenario.table;
       ExecPlan.FullQuery := {| Query := "full" |};
       ExecPlan.OuterQuery := {| Query := "outer" |};
       ExecPlan.Subquery := {| Query := "sub" |};
       ExecPlan.PKValues := []; ExecPlan.SecondaryPKValues := [];
       ExecPlan.SubqueryPKColumns := [0]; ExecPlan.ColumnNumbers := [0];
       ExecPlan.Fields := None; ExecPlan.Limit := None;
       ExecPlan.SetKey := ""; ExecPlan.SetValue := SVInt64 0;
       ExecPlan.Rules_getAction := Scenario.noRules; ExecPlan.Authorized := None |} in
  let manual := {| enableAutoCommit := false; strictTableAcl := false |} in
  let update :=
    {| query := "update t"; transactionID := 0;
       plan := Scenario.mkPlan planbuilder.PLAN_DML_PK "" (SVInt64 0) [] Scenario.noRules;
       ctx := Scenario.client; qe := manual |} in
  (exists w',
     Execute Scenario.collab (Scenario.mkQre 0 Scenario.client locking) 0 (Scenario.world 0)
     = Panic (NewTabletError ErrFail "Disallowed outside transaction") w'
     /\ history w' = [EvQueryStats "PLAN"; EvPlanStats 1 0 1])
  /\ (exists w',
        Execute Scenario.collab update 0 (Scenario.world 0)
        = Panic (NewTabletError ErrFatal "unsupported query: update t") w'
        /\ history w' = [EvQueryStats "PLAN"; EvPlanStats 1 0 1]).
Proof.
  intros locking manual update. split.
  - eexists. split.
    + exact (proj1 (proj2 (Execute_refuses Scenario.collab
                             (Scenario.mkQre 0 Scenario.client locking) 0 (Scenario.world 0))
                     _ eq_refl eq_refl) eq_refl eq_refl).
    + reflexivity.
  - eexists. split.
    + refine (proj2 (proj2 (Execute_refuses Scenario.collab update 0 (Scenario.world 0))
                       _ eq_refl eq_refl) _ eq_refl).
      right. left. reflexivity.
    + reflexivity.
Defined.

(** X17: the early failures of [execDmlAutoCommit].  When [Begin] fails
    its panic is raised as is: nothing is logged and no rollback is called.
    When the transaction has no connection it is rolled back and "begin",
    "rollback" are logged.  With a plan that is not a DML the call fails
    with [ErrFatal] "unsupported query: <query>" after it began the
    transaction and took the connection; the connection is recycled, then
    the transaction rolled back. *)
Theorem execDmlAutoCommit_early_failure E qre fuel w :
  (forall p,
     txPool_Begin E (history w) = inl p ->
     execDmlAutoCommit E qre fuel w = Panic p (push (EvBegin (inl p)) w))
  /\ (forall txid p,
        txPool_Begin E (history w) = inr txid ->
        txPool_Get E (history w ++ [EvBegin (inr txid)]) txid = inl p ->
        exists w',
          execDmlAutoCommit E qre fuel w = Panic p w'
          /\ history w'
             = history w ++ [EvBegin (inr txid); EvTxPoolGet txid (inl p); EvRollback txid]
          /\ stats_log w' = stats_log w ++ ["begin"; "rollback"])
  /\ (forall txid conn,
        txPool_Begin E (history w) = inr txid ->
        txPool_Get E (history w ++ [EvBegin (inr txid)]) txid = inr conn ->
        ~ In (ExecPlan.PlanId (plan qre)) dml_plans ->
        exists w',
          execDmlAutoCommit E qre fuel w
          = Panic (NewTabletError ErrFatal ("unsupported query: " +:+ query qre)) w'
          /\ history w'
             = history w ++ [EvBegin (inr txid); EvTxPoolGet txid (inr conn)]
                 ++ match invalidator_of qre conn with
                    | Some _ => [EvDirtyKeys conn (ExecPlan.TableName (plan qre))]
                    | None => []
                    end
                 ++ [EvRecycle conn; EvRollback txid]
          /\ stats_log w' = stats_log w ++ ["begin"; "rollback"]).
Proof.
  split; [|split].
  - intros p Hbegin. rewrite execDmlAutoCommit_run, Hbegin. reflexivity.
  - intros txid p Hbegin Hget. rewrite execDmlAutoCommit_run, Hbegin.
    unfold autoCommit_branch.
    cbv beta iota zeta delta [bind txPool_Get_call ask].
    change (history (logged "begin" (push (EvBegin (inr txid)) w)))
      with (history w ++ [EvBegin (inr txid)]).
    rewrite Hget. eexists. split; [reflexivity|]. split.
    + cbn. rewrite <- !app_assoc. reflexivity.
    + unfold stats_log. cbn. rewrite <- app_assoc. reflexivity.
  - intros txid conn Hbegin Hget Hplan. rewrite execDmlAutoCommit_run, Hbegin.
    unfold autoCommit_branch.
    cbv beta iota zeta delta [bind txPool_Get_call ask].
    change (history (logged "begin" (push (EvBegin (inr txid)) w)))
      with (history w ++ [EvBegin (inr txid)]).
    rewrite Hget. cbv beta iota zeta delta [ret defer_call bind].
    rewrite make_invalidator_run. unfold with_invalidator.
    destruct (ExecPlan.PlanId (plan qre));
      try (exfalso; apply Hplan; unfold dml_plans; simpl; tauto);
      (destruct (invalidator_of qre conn);
       (eexists; split; [reflexivity|]; split;
        [cbn; rewrite <- ?app_assoc; reflexivity
        |unfold stats_log; cbn; rewrite <- ?app_assoc; reflexivity])).
Qed.

(** The transaction pool of the sample tablet refusing to begin: nothing is
    logged and nothing is rolled back. *)
Lemma execDmlAutoCommit_early_failure_witness :
  let closed := PError (ErrOther "tx pool full") in
  let E := {| buildValueList := buildValueList Scenario.collab;
              buildSecondaryList := buildSecondaryList Scenario.collab;
              buildStreamComment := buildStreamComment Scenario.collab;
              buildKey := buildKey Scenario.collab;
              applyFilter := applyFilter Scenario.collab;
              applyFilterWithPKDefaults := applyFilterWithPKDefaults Scenario.collab;
              validateRow := validateRow Scenario.collab;
              getLimit := getLimit Scenario.collab;
              restoreTrailing := restoreTrailing Scenario.collab;
              GenerateQuery := GenerateQuery Scenario.collab;
              DDLParse := DDLParse Scenario.collab;
              NewTabletErrorSql := NewTabletErrorSql Scenario.collab;
              Error := Error Scenario.collab;
              PlanId_String := PlanId_String Scenario.collab;
              quote := quote Scenario.collab;
              spotCheckMultiplier := spotCheckMultiplier Scenario.collab;
              QuerySourceRowcache := QuerySourceRowcache Scenario.collab;
              QuerySourceConsolidator := QuerySourceConsolidator Scenario.collab;
              int64_to_float64 := int64_to_float64 Scenario.collab;
              float64_to_duration := float64_to_duration Scenario.collab;
              float64_to_spotCheckFreq := float64_to_spotCheckFreq Scenario.collab;
              pool_Get := pool_Get Scenario.collab;
              txPool_Get := txPool_Get Scenario.collab;
              txPool_Begin := fun _ => inl closed;
              qe_Commit := qe_Commit Scenario.collab;
              conn_Exec := conn_Exec Scenario.collab;
              consolidator_Create := consolidator_Create Scenario.collab;
              consolidator_Wait := consolidator_Wait Scenario.collab;
              cache_Get := cache_Get Scenario.collab;
              Rand := Rand Scenario.collab |} in
  let q := Scenario.mkQre 0 Scenario.client
             (Scenario.mkPlan planbuilder.PLAN_DML_PK "" (SVInt64 0) [Scenario.pk "1"]
                Scenario.noRules) in
  let select := Scenario.mkQre 0 Scenario.client
             (Scenario.mkPlan planbuilder.PLAN_PASS_SELECT "" (SVInt64 0) [] Scenario.noRules) in
  (exists w',
     execDmlAutoCommit E q 1 (Scenario.world 0) = Panic closed w'
     /\ history w' = [EvBegin (inl closed)] /\ stats_log w' = [])
  /\ (exists w',
        execDmlAutoCommit Scenario.collab select 1 (Scenario.world 0)
        = Panic (NewTabletError ErrFatal "unsupported query: q") w'
        /\ stats_log w' = ["begin"; "rollback"]).
Proof.
  intros closed E q select. split.
  - eexists. split.
    + exact (proj1 (execDmlAutoCommit_early_failure E q 1 (Scenario.world 0)) closed eq_refl).
    + split; reflexivity.
  - destruct (proj2 (proj2 (execDmlAutoCommit_early_failure Scenario.collab select 1
                              (Scenario.world 0))) 42 3%nat eq_refl eq_refl)
      as (w' & Hrun & _ & Hlog).
    + vm_compute. intros H. repeat (destruct H as [H|H]; [discriminate|]). destruct H.
    + exists w'. split; [exact Hrun|exact Hlog].
Defined.

Definition returns {A} (o : Outcome A) : bool :=
  match o with Ret _ _ => true | _ => false end.

Lemma bind_returns {A B} (m : M A) (k : A -> M B) w :
  (forall a w1, m w = Ret a w1 -> returns (k a w1) = false) ->
  returns (bind m k w) = false.
Proof.
  intros H. unfold bind. destruct (m w) as [a w1|p w1|]; [|reflexivity..].
  apply H. reflexivity.
Qed.

(** With a batch size of zero the loop index never moves. *)
Lemma execDMLPKRows_loop_stuck E qre conn pkRows sl :
  pkRows <> [] ->
  forall fuel result w,
    returns (execDMLPKRows_loop E qre fuel conn pkRows sl 0 0 result w) = false.
Proof.
  intros Hrows.
  assert ((0 <? Go.len pkRows) = true) as Hlt.
  { apply Z.ltb_lt. destruct pkRows; [congruence|]. unfold Go.len. cbn [length]. lia. }
  induction fuel as [|fuel IH]; intros result w; cbn [execDMLPKRows_loop];
    rewrite Hlt; cbn [negb]; [reflexivity|].
  apply bind_returns. intros batch w1 _.
  apply bind_returns. intros bs w2 _.
  apply bind_returns. intros cols w3 _.
  apply bind_returns. intros _ w4 _.
  apply bind_returns. intros r w5 _.
  apply IH.
Qed.

(** X18: [execDMLPKRows] does not check the batch size itself.  With
    rows to change and [maxDMLRows = 0] it never returns a result: the
    loop index does not move.  With a negative [maxDMLRows] (an int64) the
    first batch is the slice [pkRows[0:maxDMLRows]] and the call fails with
    the runtime error "slice bounds out of range" before it sends
    anything. *)
Theorem execDMLPKRows_unguarded_batch_size E qre fuel conn pkRows invalidator w :
  pkRows <> [] ->
  (maxDMLRows (tunables w) = 0 ->
   returns (execDMLPKRows E qre fuel conn pkRows invalidator w) = false)
  /\ (- 2 ^ 63 <= maxDMLRows (tunables w) < 0 ->
      (0 < fuel)%nat ->
      forall secondaryList,
        buildSecondaryList E (ExecPlan.TableInfo (plan qre)) pkRows
          (ExecPlan.SecondaryPKValues (plan qre)) (bindVars w) = inr secondaryList ->
        execDMLPKRows E qre fuel conn pkRows invalidator w
        = Panic (PRuntime "slice bounds out of range") w).
Proof.
  intros Hrows.
  assert ((Go.len pkRows =? 0) = false) as Hne.
  { apply Z.eqb_neq. destruct pkRows; [congruence|]. unfold Go.len. cbn [length]. lia. }
  assert ((0 <? Go.len pkRows) = true) as Hlt.
  { apply Z.ltb_lt. apply Z.eqb_neq in Hne. unfold Go.len in *. lia. }
  split.
  - intros Hzero. unfold execDMLPKRows. rewrite Hne.
    apply bind_returns. intros w0 w1 [= <- <-].
    apply bind_returns. intros sl w2 Hsl.
    apply bind_returns. intros result w3 Hloop.
    pose proof (execDMLPKRows_loop_stuck E qre conn pkRows sl Hrows fuel mproto.empty w2) as H.
    rewrite Hzero in Hloop. rewrite Hloop in H. discriminate.
  - intros Hneg Hfuel sl Hsl. unfold execDMLPKRows. rewrite Hne.
    cbv beta iota zeta delta [bind get_world ret]. rewrite Hsl.
    cbv beta iota zeta delta [lift_error ret].
    destruct fuel as [|fuel]; [lia|]. cbn [execDMLPKRows_loop].
    rewrite Hlt. cbn [negb].
    unfold Go.int64_add. rewrite Z.add_0_l, wrap64_small by lia.
    replace (Go.len pkRows <=? maxDMLRows (tunables w)) with false
      by (symmetry; apply Z.leb_gt; apply Z.ltb_lt in Hlt; lia).
    unfold Go.slice.
    replace (0 <=? maxDMLRows (tunables w)) with false by (symmetry; apply Z.leb_gt; lia).
    reflexivity.
Qed.

(** One row to update on the sample tablet with the batch size set to 0
    and to -1. *)
Lemma execDMLPKRows_unguarded_batch_size_witness :
  let q := Scenario.mkQre 5 Scenario.client
             (Scenario.mkPlan planbuilder.PLAN_DML_PK "" (SVInt64 0) [Scenario.pk "1"]
                Scenario.noRules) in
  let sized n := set_tunables (set_maxDMLRows n (Scenario.settings 0)) (Scenario.world 0) in
  returns (execDMLPKRows Scenario.collab q 9 3%nat [[VRaw "1"]] None (sized 0)) = false
  /\ execDMLPKRows Scenario.collab q 9 3%nat [[VRaw "1"]] None (sized 0) = OutOfFuel
  /\ execDMLPKRows Scenario.collab q 9 3%nat [[VRaw "1"]] None (sized (-1))
     = Panic (PRuntime "slice bounds out of range") (sized (-1)).
Proof.
  intros q sized.
  pose proof (execDMLPKRows_unguarded_batch_size Scenario.collab q 9 3%nat [[VRaw "1"]] None)
    as H.
  split; [|split].
  - apply (H (sized 0)); [discriminate|reflexivity].
  - reflexivity.
  - apply (proj2 (H (sized (-1)) ltac:(discriminate))) with (secondaryList := None).
    + cbn. lia.
    + lia.
    + reflexivity.
Defined.

(** ** Reading through the row cache *)

(** What the batched [Get] found for one key. *)
Definition cached (E : Collaborators) (rcresults : gmap string RCResult) (pk : Row)
  : option Row :=
  Row_ (default RCResult_zero (rcresults !! buildKey E pk)).

(** The cached rows of a request, as the client sees them, and the keys
    that were not found, both in the order of the request. *)
Definition hit_rows (E : Collaborators) (qre : QueryExecutor)
    (rcresults : gmap string RCResult) (pkRows : list Row) : list Row :=
  omap (fun pk => applyFilter E (ExecPlan.ColumnNumbers (plan qre)) <$> cached E rcresults pk)
       pkRows.

Definition missing_rows (E : Collaborators) (rcresults : gmap string RCResult)
    (pkRows : list Row) : list Row :=
  omap (fun pk => match cached E rcresults pk with Some _ => None | None => Some pk end)
       pkRows.

(** The call that writes one backend row to the cache. *)
Definition write_back (E : Collaborators) (ti : schema.TableInfo)
    (rcresults : gmap string RCResult) (row : Row) : Event :=
  let key := buildKey E (applyFilter E (schema.PKColumns ti) row) in
  EvCacheSet key row (Cas (default RCResult_zero (rcresults !! key))).

Lemma wrap64_add_l a b : Go.wrap64 (Go.wrap64 a + b) = Go.wrap64 (a + b).
Proof.
  unfold Go.wrap64. f_equal.
  replace ((a + 2 ^ 63) `mod` 2 ^ 64 - 2 ^ 63 + b + 2 ^ 63)
    with ((a + 2 ^ 63) `mod` 2 ^ 64 + b) by lia.
  rewrite Zplus_mod_idemp_l. f_equal. lia.
Qed.

Lemma mustVerify_off E w :
  0 < spotCheckMultiplier E -> 0 <= Rand E (history w) ->
  spotCheckFreq (tunables w) <= 0 ->
  mustVerify E w = Ret false (push EvRand w).
Proof.
  intros Hmult Hrand Hfreq. unfold mustVerify, bind, ask, get_world, ret. cbv zeta.
  change (tunables (set_history _ w)) with (tunables w).
  destruct (spotCheckMultiplier E =? 0) eqn:Hz; [apply Z.eqb_eq in Hz; lia|].
  pose proof (Z.rem_bound_pos (Rand E (history w)) (spotCheckMultiplier E) Hrand Hmult) as Hb.
  unfold push. do 2 f_equal. apply Z.ltb_ge. lia.
Qed.

(** The first loop of [fetchMulti] when no spot check is due. *)
Lemma fetchMulti_hit_loop E qre rcresults :
  0 < spotCheckMultiplier E -> (forall h, 0 <= Rand E h) ->
  forall pkRows rows missingRows hits w,
    spotCheckFreq (tunables w) <= 0 ->
    - 2 ^ 63 <= hits < 2 ^ 63 ->
    for_range (fetchMulti_hit E qre rcresults) pkRows (rows, missingRows, hits) w
    = Ret (rows ++ hit_rows E qre rcresults pkRows,
           missingRows ++ missing_rows E rcresults pkRows,
           Go.wrap64 (hits + Go.len (hit_rows E qre rcresults pkRows)))
        (set_history
           (history w ++ repeat EvRand (length (hit_rows E qre rcresults pkRows))) w).
Proof.
  intros Hmult Hrand.
  induction pkRows as [|pk pkRows IH]; intros rows missingRows hits w Hfreq Hhits.
  - cbn. unfold ret. rewrite !app_nil_r, Z.add_0_r, wrap64_small by exact Hhits.
    destruct w; reflexivity.
  - cbn [for_range]. unfold bind at 1. unfold fetchMulti_hit at 1.
    unfold hit_rows, missing_rows. cbn [omap list_omap].
    fold (cached E rcresults pk).
    fold (hit_rows E qre rcresults pkRows) (missing_rows E rcresults pkRows).
    destruct (cached E rcresults pk) as [row|] eqn:Hc; cbn [fmap option_fmap option_map].
    + unfold bind at 1. rewrite mustVerify_off by auto.
      cbv beta iota zeta delta [bind ret].
      rewrite IH by (try exact Hfreq; apply wrap64_range).
      f_equal.
      * rewrite <- !app_assoc. cbn [app]. f_equal.
        unfold Go.int64_add. rewrite wrap64_add_l. f_equal.
        unfold Go.len. cbn [length]. lia.
      * cbn. rewrite <- app_assoc. reflexivity.
    + unfold ret. rewrite IH by assumption.
      rewrite <- !app_assoc. reflexivity.
Qed.

(** The second loop of [fetchMulti]. *)
Lemma fetchMulti_fill_loop E qre rcresults ti :
  ExecPlan.TableInfo (plan qre) = Some ti ->
  forall dbrows rows w,
    for_range (fetchMulti_fill E qre rcresults) dbrows rows w
    = Ret (rows ++ map (applyFilter E (ExecPlan.ColumnNumbers (plan qre))) dbrows)
        (set_history (history w ++ map (write_back E ti rcresults) dbrows) w).
Proof.
  intros Hti. induction dbrows as [|row dbrows IH]; intros rows w.
  - cbn. unfold ret. rewrite !app_nil_r. destruct w; reflexivity.
  - cbn [for_range]. unfold bind at 1. unfold fetchMulti_fill at 1.
    unfold tableInfo_deref. rewrite Hti.
    cbv beta iota zeta delta [bind lift_option ret emit modify].
    rewrite IH. cbn. rewrite <- !app_assoc. reflexivity.
Qed.

(** The reply [fetchMulti] makes of the rows it has assembled. *)
Definition assembled (fields : list mproto.Field) (limit : Z) (rows : list Row)
  : mproto.QueryResult :=
  let result := mproto.set_Rows rows
                  (mproto.set_RowsAffected (Go.len rows)
                     (mproto.set_Fields (Some fields) mproto.empty)) in
  if (0 <? limit) && (limit <? Go.len rows)
  then mproto.set_RowsAffected limit (mproto.set_Rows (take (Z.to_nat limit) rows) result)
  else result.

(** The cache counters of the request and of the table. *)
Definition counted (E : Collaborators) (hits absent misses : Z) (w : World) : World :=
  push (EvTableStats hits absent misses)
    (set_logStats
       (LogStats.or_QuerySources (QuerySourceRowcache E)
          (LogStats.set_cache hits absent misses (logStats w))) w).

Lemma fetchMulti_run E qre pkRows limit w fields ti :
  ExecPlan.Fields (plan qre) = Some fields ->
  ExecPlan.TableInfo (plan qre) = Some ti ->
  pkRows <> [] -> limit <> 0 ->
  0 < spotCheckMultiplier E -> (forall h, 0 <= Rand E h) ->
  spotCheckFreq (tunables w) <= 0 ->
  let keys := map (buildKey E) pkRows in
  let rcresults := cache_Get E (history w) keys in
  let found := hit_rows E qre rcresults pkRows in
  let missing := missing_rows E rcresults pkRows in
  let hits := Go.wrap64 (Go.len found) in
  let w1 := set_history (history w ++ EvCacheGet keys :: repeat EvRand (length found)) w in
  fetchMulti E qre pkRows limit w =
  match missing with
  | [] => Ret (assembled fields limit found) (counted E hits 0 0 w1)
  | _ :: _ =>
      match head (schema.Indexes ti) with
      | None => Panic (PRuntime "index out of range") w1
      | Some ix =>
          let bv := {[ "#pk" := BVTupleEqualityList (schema.Columns ix) missing ]} in
          match qFetch E (ExecPlan.OuterQuery (plan qre)) (LocalMap (length (localMaps w)))
                  (set_localMaps (localMaps w ++ [bv]) w1) with
          | Ret resultFromdb w3 =>
              let misses := Go.len (mproto.Rows resultFromdb) in
              let absent := Go.int64_sub (Go.int64_sub (Go.len pkRows) hits) misses in
              Ret (assembled fields limit
                     (found ++ map (applyFilter E (ExecPlan.ColumnNumbers (plan qre)))
                                   (mproto.Rows resultFromdb)))
                (counted E hits absent misses
                   (set_history
                      (history w3 ++ map (write_back E ti rcresults) (mproto.Rows resultFromdb))
                      w3))
          | Panic p w3 => Panic p w3
          | OutOfFuel => OutOfFuel
          end
      end
  end.
Proof.
  intros Hf Hti Hrows Hlimit Hmult Hrand Hfreq keys rcresults found missing hits w1.
  assert ((Go.len pkRows =? 0) = false) as Hlen.
  { apply Z.eqb_neq. unfold Go.len. destruct pkRows; [congruence|cbn; lia]. }
  assert ((limit =? 0) = false) as Hlim by (apply Z.eqb_neq; exact Hlimit).
  unfold fetchMulti. rewrite Hf, Hlen, Hlim. cbn [orb].
  unfold tableInfo_deref at 1. rewrite Hti.
  cbv beta iota zeta delta [bind lift_option ret ask].
  fold keys. fold rcresults.
  rewrite fetchMulti_hit_loop by (auto; lia).
  cbn [app]. fold found. fold missing. rewrite Z.add_0_l. fold hits.
  change (set_history (history (set_history (history w ++ [EvCacheGet keys]) w)
                         ++ repeat EvRand (length found))
            (set_history (history w ++ [EvCacheGet keys]) w)) with
    (set_history ((history w ++ [EvCacheGet keys]) ++ repeat EvRand (length found)) w).
  rewrite <- app_assoc. cbn [app]. fold w1.
  destruct missing as [|pk0 rest] eqn:Hmiss.
  - change (Go.len (@nil Row) =? 0) with true. cbn [negb].
    cbv beta iota zeta delta [modify emit]. unfold assembled, counted, push.
    destruct ((0 <? limit) && (limit <? Go.len found)); reflexivity.
  - assert ((Go.len (pk0 :: rest) =? 0) = false) as ->
      by (apply Z.eqb_neq; unfold Go.len; cbn [length]; lia).
    cbn [negb]. unfold index0_Columns, tableInfo_deref. rewrite Hti.
    cbv beta iota zeta delta [bind lift_option ret].
    destruct (head (schema.Indexes ti)) as [ix|]; [|reflexivity].
    cbv beta iota zeta delta [map_new bind ret].
    change (localMaps w1) with (localMaps w).
    destruct (qFetch E _ _ _) as [db w3|p w3|]; [|reflexivity..].
    rewrite (fetchMulti_fill_loop E qre rcresults ti Hti).
    cbv beta iota zeta delta [modify emit]. unfold assembled, counted, push.
    destruct ((0 <? limit) && (limit <? Go.len _)); reflexivity.
Qed.

Lemma all_cached E qre rcresults pkRows full :
  Forall2 (fun pk row => cached E rcresults pk = Some row) pkRows full ->
  hit_rows E qre rcresults pkRows
  = map (applyFilter E (ExecPlan.ColumnNumbers (plan qre))) full
  /\ missing_rows E rcresults pkRows = [].
Proof.
  unfold hit_rows, missing_rows.
  induction 1 as [|pk row pkRows full Hc _ [IHh IHm]]; [split; reflexivity|].
  cbn [omap list_omap map]. rewrite Hc. cbn. rewrite IHh, IHm. split; reflexivity.
Qed.

Lemma missing_rows_spec E rcresults pkRows pk :
  In pk (missing_rows E rcresults pkRows) <-> In pk pkRows /\ cached E rcresults pk = None.
Proof.
  unfold missing_rows. induction pkRows as [|pk' pkRows IH]; cbn [omap list_omap In].
  - tauto.
  - destruct (cached E rcresults pk') as [row|] eqn:Hc; cbn [In]; rewrite IH.
    + split; [tauto|]. intros [[<-|Hin] Hnone]; [congruence|tauto].
    + split; [|tauto]. intros [<-|H]; tauto.
Qed.

(** X19: with no spot check due, a [fetchMulti] whose keys are all in
    the row cache answers from the cache alone: the calls it makes are the
    batched [Get], one random draw per key and the table stats; the rows
    are the cached rows in the order of the keys, cut to the plan's
    columns; the request counts one hit per key, nothing absent and no
    miss; bind variables, local maps and stats log are not touched. *)
Theorem fetchMulti_all_cached E qre pkRows limit w fields ti full :
  ExecPlan.Fields (plan qre) = Some fields ->
  ExecPlan.TableInfo (plan qre) = Some ti ->
  pkRows <> [] -> limit <> 0 -> Go.len pkRows < 2 ^ 63 ->
  0 < spotCheckMultiplier E -> (forall h, 0 <= Rand E h) ->
  spotCheckFreq (tunables w) <= 0 ->
  let keys := map (buildKey E) pkRows in
  Forall2 (fun pk row => cached E (cache_Get E (history w) keys) pk = Some row) pkRows full ->
  exists w',
    fetchMulti E qre pkRows limit w
    = Ret (assembled fields limit
             (map (applyFilter E (ExecPlan.ColumnNumbers (plan qre))) full)) w'
    /\ history w'
       = history w ++ EvCacheGet keys :: repeat EvRand (length pkRows)
           ++ [EvTableStats (Go.len pkRows) 0 0]
    /\ bindVars w' = bindVars w /\ localMaps w' = localMaps w
    /\ stats_log w' = stats_log w
    /\ LogStats.CacheHits (logStats w') = Go.len pkRows
    /\ LogStats.CacheAbsent (logStats w') = 0
    /\ LogStats.CacheMisses (logStats w') = 0.
Proof.
  intros Hf Hti Hrows Hlimit Hlen Hmult Hrand Hfreq keys Hall.
  rewrite (fetchMulti_run E qre pkRows limit w fields ti) by assumption. cbv zeta.
  fold keys. destruct (all_cached E qre _ _ _ Hall) as [-> ->].
  rewrite length_map. pose proof (Forall2_length _ _ _ Hall) as Hn.
  assert (Go.wrap64 (Go.len (map (applyFilter E (ExecPlan.ColumnNumbers (plan qre))) full))
          = Go.len pkRows) as ->.
  { unfold Go.len in *. rewrite length_map, <- Hn. apply wrap64_small. lia. }
  rewrite <- Hn. eexists. split; [reflexivity|].
  split; [cbn; rewrite <- app_assoc; reflexivity|]. repeat split.
Qed.

(** X20: with no spot check due, a [fetchMulti] that misses keys in the
    row cache asks the backend once, through [qFetch] on [OuterQuery] with
    a fresh map binding [#pk] to the missing keys only, in the order of the
    request.  When the read returns, the reply is the cached rows followed
    by the rows read, each cut to the plan's columns, and every row read
    is written to the cache under its own key with the CAS the batched
    [Get] gave for that key, before the table stats are updated.  When the
    read fails so does [fetchMulti], and nothing is written. *)
Theorem fetchMulti_fetches_missing E qre pkRows limit w fields ti ix :
  ExecPlan.Fields (plan qre) = Some fields ->
  ExecPlan.TableInfo (plan qre) = Some ti ->
  head (schema.Indexes ti) = Some ix ->
  limit <> 0 ->
  0 < spotCheckMultiplier E -> (forall h, 0 <= Rand E h) ->
  spotCheckFreq (tunables w) <= 0 ->
  let keys := map (buildKey E) pkRows in
  let rcresults := cache_Get E (history w) keys in
  let found := hit_rows E qre rcresults pkRows in
  let missing := missing_rows E rcresults pkRows in
  missing <> [] ->
  (forall pk, In pk missing <-> In pk pkRows /\ cached E rcresults pk = None)
  /\ let w2 :=
       set_localMaps
         (localMaps w ++ [ {[ "#pk" := BVTupleEqualityList (schema.Columns ix) missing ]} ])
         (set_history (history w ++ EvCacheGet keys :: repeat EvRand (length found)) w) in
     match qFetch E (ExecPlan.OuterQuery (plan qre)) (LocalMap (length (localMaps w))) w2 with
     | Ret resultFromdb w3 =>
         exists w',
           fetchMulti E qre pkRows limit w
           = Ret (assembled fields limit
                    (found ++ map (applyFilter E (ExecPlan.ColumnNumbers (plan qre)))
                                  (mproto.Rows resultFromdb))) w'
           /\ exists absent,
                history w'
                = history w3
                    ++ map (write_back E ti rcresults) (mproto.Rows resultFromdb)
                    ++ [EvTableStats (Go.wrap64 (Go.len found)) absent
                          (Go.len (mproto.Rows resultFromdb))]
     | Panic p w3 => fetchMulti E qre pkRows limit w = Panic p w3
     | OutOfFuel => True
     end.
Proof.
  intros Hf Hti Hix Hlimit Hmult Hrand Hfreq keys rcresults found missing Hmiss.
  split; [intros pk; apply missing_rows_spec|].
  assert (pkRows <> []) as Hrows.
  { intros ->. apply Hmiss. reflexivity. }
  rewrite (fetchMulti_run E qre pkRows limit w fields ti) by assumption. cbv zeta.
  fold keys. fold rcresults. fold found. fold missing. rewrite Hix.
  destruct missing as [|pk0 rest] eqn:Hm; [congruence|].
  cbv zeta.
  destruct (qFetch E _ _ _) as [db w3|p w3|] eqn:Hq; [|reflexivity|exact I].
  eexists. split; [reflexivity|]. eexists. cbn. rewrite <- app_assoc. reflexivity.
Qed.

(** The same tablet with another row cache. *)
Definition with_cache (get : History -> list string -> gmap string RCResult)
    (E : Collaborators) : Collaborators :=
  {| buildValueList := buildValueList E;
     buildSecondaryList := buildSecondaryList E;
     buildStreamComment := buildStreamComment E;
     buildKey := buildKey E;
     applyFilter := applyFilter E;
     applyFilterWithPKDefaults := applyFilterWithPKDefaults E;
     validateRow := validateRow E;
     getLimit := getLimit E;
     restoreTrailing := restoreTrailing E;
     GenerateQuery := GenerateQuery E;
     DDLParse := DDLParse E;
     NewTabletErrorSql := NewTabletErrorSql E;
     Error := Error E;
     PlanId_String := PlanId_String E;
     quote := quote E;
     spotCheckMultiplier := spotCheckMultiplier E;
     QuerySourceRowcache := QuerySourceRowcache E;
     QuerySourceConsolidator := QuerySourceConsolidator E;
     int64_to_float64 := int64_to_float64 E;
     float64_to_duration := float64_to_duration E;
     float64_to_spotCheckFreq := float64_to_spotCheckFreq E;
     pool_Get := pool_Get E;
     txPool_Get := txPool_Get E;
     txPool_Begin := txPool_Begin E;
     qe_Commit := qe_Commit E;
     conn_Exec := conn_Exec E;
     consolidator_Create := consolidator_Create E;
     consolidator_Wait := consolidator_Wait E;
     cache_Get := get;
     Rand := Rand E |}.

(** A cache that holds the rows of keys 1 and 2. *)
Definition warm (h : History) (keys : list string) : gmap string RCResult :=
  {[ "1" := {| Row_ := Some [VRaw "1"; VRaw "a"]; Cas := 11 |};
     "2" := {| Row_ := Some [VRaw "2"; VRaw "b"]; Cas := 12 |} ]}.

(** Keys 2 and 1, both cached: the reply is made of the cached rows and
    the backend is not asked. *)
Lemma fetchMulti_all_cached_witness :
  let q := Scenario.mkQre 0 Scenario.client
             (Scenario.mkPlan planbuilder.PLAN_PK_IN "" (SVInt64 0) [] Scenario.noRules) in
  exists r w',
    fetchMulti (with_cache warm Scenario.reading) q [[VRaw "2"]; [VRaw "1"]] (-1)
      (Scenario.world 0) = Ret r w'
    /\ mproto.Rows r = [[VRaw "2"]; [VRaw "1"]]
    /\ history w' = [EvCacheGet ["2"; "1"]; EvRand; EvRand; EvTableStats 2 0 0].
Proof.
  intros q.
  destruct (fetchMulti_all_cached (with_cache warm Scenario.reading) q
              [[VRaw "2"]; [VRaw "1"]] (-1) (Scenario.world 0)
              [ {| mproto.Name := "id"; mproto.Type_ := 3 |} ] Scenario.table
              [[VRaw "2"; VRaw "b"]; [VRaw "1"; VRaw "a"]])
    as (w' & Hrun & Hhist & _).
  - reflexivity.
  - reflexivity.
  - discriminate.
  - discriminate.
  - reflexivity.
  - reflexivity.
  - intros h. cbn. lia.
  - cbn. lia.
  - repeat constructor.
  - eexists. exists w'. split; [exact Hrun|]. split; [reflexivity|exact Hhist].
Defined.

(** Keys 1 and 5, of which only 1 is cached: the backend is asked for key
    5 alone and what it returns is written to the cache. *)
Lemma fetchMulti_fetches_missing_witness :
  let q := Scenario.mkQre 0 Scenario.client
             (Scenario.mkPlan planbuilder.PLAN_PK_IN "" (SVInt64 0) [] Scenario.noRules) in
  let E := with_cache warm
             (Scenario.on_backend
                (fun _ _ _ _ _ => inr (Scenario.okResult 0 [[VRaw "5"; VRaw "e"]]))
                Scenario.collab) in
  exists r w',
    fetchMulti E q [[VRaw "1"]; [VRaw "5"]] (-1) (Scenario.world 0) = Ret r w'
    /\ mproto.Rows r = [[VRaw "1"]; [VRaw "5"]]
    /\ localMaps w'
       = [ {[ "#pk" := BVTupleEqualityList ["id"] [[VRaw "5"]];
              "#maxLimit" := BVInt64 10001 ]} ]
    /\ history w'
       = [EvCacheGet ["1"; "5"]; EvRand; EvConsolidatorCreate "outer" true;
          EvPoolGet connPool (inr 7%nat);
          EvExec 7%nat "outer" 10000 false (inr (Scenario.okResult 0 [[VRaw "5"; VRaw "e"]]));
          EvConsolidatorStore "outer" (inr (Scenario.okResult 0 [[VRaw "5"; VRaw "e"]]));
          EvRecycle 7%nat; EvConsolidatorBroadcast "outer";
          EvCacheSet "5" [VRaw "5"; VRaw "e"] 0; EvTableStats 1 0 1].
Proof.
  intros q E.
  pose proof (fetchMulti_fetches_missing E q [[VRaw "1"]; [VRaw "5"]] (-1) (Scenario.world 0)
                [ {| mproto.Name := "id"; mproto.Type_ := 3 |} ] Scenario.table
                {| schema.Columns := ["id"] |} eq_refl eq_refl eq_refl ltac:(discriminate)
                eq_refl ltac:(intros h; cbn; lia) ltac:(cbn; lia) ltac:(discriminate))
    as [_ Hrun].
  vm_compute in Hrun. destruct Hrun as (w' & Hrun & _).
  eexists. exists w'. split; [exact Hrun|].
  injection Hrun as <-. repeat split; reflexivity.
Defined.

Lemma for_range_state {A S} (body : S -> A -> M S) (I : list A -> S -> Prop) :
  (forall done x s w s' w', I done s -> body s x w = Ret s' w' -> I (done ++ [x]) s') ->
  forall l done s w s' w',
    I done s -> for_range body l s w = Ret s' w' -> I (done ++ l) s'.
Proof.
  intros Hstep. induction l as [|x l IH]; intros done s w s' w' HI Hrun.
  - cbn in Hrun. injection Hrun as <- <-. rewrite app_nil_r. exact HI.
  - cbn [for_range] in Hrun. apply bind_Ret in Hrun as (s1 & w1 & Hbody & Hrest).
    replace (done ++ x :: l) with ((done ++ [x]) ++ l) by (rewrite <- app_assoc; reflexivity).
    eapply IH; [|exact Hrest]. eapply Hstep; eassumption.
Qed.

(** After the first loop of [fetchMulti] every key is either counted as a
    hit, with its row, or listed as missing. *)
Definition keys_split (done : list Row) (st : list Row * list Row * Z) : Prop :=
  let '(rows, missingRows, hits) := st in
  hits = Go.wrap64 (Go.len rows) /\ (length rows + length missingRows = length done)%nat.

Lemma fetchMulti_hit_split E qre rcresults done pk st w st' w' :
  keys_split done st ->
  fetchMulti_hit E qre rcresults st pk w = Ret st' w' ->
  keys_split (done ++ [pk]) st'.
Proof.
  destruct st as [[rows missingRows] hits]. intros [Hhits Hlen] Hrun.
  unfold fetchMulti_hit in Hrun.
  destruct (Row_ (default RCResult_zero (rcresults !! buildKey E pk))) as [row|].
  - apply bind_Ret in Hrun as (verify & w1 & _ & Hrun).
    apply bind_Ret in Hrun as (_ & w2 & _ & Hrun).
    injection Hrun as <- <-. unfold keys_split. rewrite !length_app. cbn [length].
    split; [|lia]. subst hits. unfold Go.int64_add. rewrite wrap64_add_l. f_equal.
    unfold Go.len. rewrite length_app. cbn [length]. lia.
  - injection Hrun as <- <-. unfold keys_split. rewrite !length_app. cbn [length].
    split; [exact Hhits|lia].
Qed.

Lemma wrap64_conserved l h m :
  Go.wrap64 (h + Go.int64_sub (Go.int64_sub l h) m + m) = Go.wrap64 l.
Proof.
  unfold Go.int64_sub.
  destruct (wrap64_congr (l - h)) as (q1 & ->).
  destruct (wrap64_congr (l - h - 2 ^ 64 * q1 - m)) as (q2 & ->).
  replace (h + (l - h - 2 ^ 64 * q1 - m - 2 ^ 64 * q2) + m)
    with (l + 2 ^ 63 + (- q1 - q2) * 2 ^ 64 - 2 ^ 63) by lia.
  unfold Go.wrap64.
  replace (l + 2 ^ 63 + (- q1 - q2) * 2 ^ 64 - 2 ^ 63 + 2 ^ 63)
    with (l + 2 ^ 63 + (- q1 - q2) * 2 ^ 64) by lia.
  rewrite Z.mod_add by lia. reflexivity.
Qed.

(** X21: whenever [fetchMulti] goes to the cache and returns, with or
    without spot checks, the hits it reports are between 0 and the number
    of keys, and hits, absent and misses add up to the number of keys (as
    int64, and exactly when the misses are an int64); the last call is the
    update of the table stats with these three numbers; with no limit the
    reply has hits + misses rows. *)
Theorem fetchMulti_cache_counters E qre pkRows limit w r w' :
  pkRows <> [] -> limit <> 0 -> Go.len pkRows < 2 ^ 63 ->
  fetchMulti E qre pkRows limit w = Ret r w' ->
  let hits := LogStats.CacheHits (logStats w') in
  let absent := LogStats.CacheAbsent (logStats w') in
  let misses := LogStats.CacheMisses (logStats w') in
  0 <= hits <= Go.len pkRows
  /\ 0 <= misses
  /\ Go.wrap64 (hits + absent + misses) = Go.len pkRows
  /\ (misses < 2 ^ 63 -> hits + absent + misses = Go.len pkRows)
  /\ last (history w') = Some (EvTableStats hits absent misses)
  /\ (limit < 0 -> Go.len (mproto.Rows r) = hits + misses).
Proof.
  intros Hrows Hlimit Hbound Hrun.
  assert ((Go.len pkRows =? 0) = false) as Hlen.
  { apply Z.eqb_neq. unfold Go.len. destruct pkRows; [congruence|cbn; lia]. }
  assert ((limit =? 0) = false) as Hlim by (apply Z.eqb_neq; exact Hlimit).
  unfold fetchMulti in Hrun.
  destruct (ExecPlan.Fields (plan qre)) as [fields|]; [|discriminate].
  rewrite Hlen, Hlim in Hrun. cbn [orb] in Hrun.
  apply bind_Ret in Hrun as (ti & w1 & Hti & Hrun).
  unfold tableInfo_deref in Hti.
  destruct (ExecPlan.TableInfo (plan qre)) as [ti'|] eqn:Hti'; [|discriminate].
  injection Hti as <- <-.
  apply bind_Ret in Hrun as (rcresults & w2 & _ & Hrun).
  apply bind_Ret in Hrun as (st & w3 & Hloop & Hrun).
  apply (for_range_state _ keys_split (fetchMulti_hit_split E qre rcresults) pkRows []) in Hloop;
    [|split; reflexivity].
  destruct st as [[rows missingRows] hits0]. destruct Hloop as [Hhits Hsplit].
  cbn [app] in Hsplit.
  assert (hits0 = Go.len rows) as Hh.
  { rewrite Hhits. apply wrap64_small. unfold Go.len in *. lia. }
  clear Hhits. subst hits0.
  apply bind_Ret in Hrun as (st2 & w4 & Hfill & Hrun).
  destruct st2 as [[rows' absent0] misses0].
  apply bind_Ret in Hrun as (u5 & w5 & Hmod & Hrun).
  apply bind_Ret in Hrun as (u6 & w6 & Hemit & Hrun).
  unfold modify in Hmod. injection Hmod as _ <-.
  unfold emit, modify in Hemit. injection Hemit as _ <-.
  assert (Go.wrap64 (Go.len rows + absent0 + misses0) = Go.len pkRows
          /\ 0 <= misses0
          /\ (misses0 < 2 ^ 63 -> Go.len rows + absent0 + misses0 = Go.len pkRows)
          /\ Go.len rows' = Go.len rows + misses0) as (Hsum & Hm & Hexact & Hall).
  { destruct (Go.len missingRows =? 0) eqn:Hmiss; cbn [negb] in Hfill.
    - injection Hfill as <- <- <- <-. apply Z.eqb_eq in Hmiss.
      assert (Go.len rows = Go.len pkRows) as -> by (unfold Go.len in *; lia).
      rewrite !Z.add_0_r. split; [apply wrap64_small; unfold Go.len in *; lia|].
      split; [lia|]. split; [reflexivity|reflexivity].
    - apply bind_Ret in Hfill as (cols & w7 & _ & Hfill).
      apply bind_Ret in Hfill as (bv & w8 & _ & Hfill).
      apply bind_Ret in Hfill as (db & w9 & _ & Hfill).
      apply bind_Ret in Hfill as (rows2 & w10 & Hloop2 & Hfill).
      injection Hfill as <- <- <- <-.
      rewrite (fetchMulti_fill_loop E qre rcresults ti' Hti') in Hloop2.
      injection Hloop2 as <- _.
      split; [|split; [unfold Go.len; lia|split]].
      + rewrite wrap64_conserved. apply wrap64_small. unfold Go.len in *. lia.
      + intros Hlt. unfold Go.int64_sub.
        rewrite (wrap64_small (Go.len pkRows - Go.len rows)) by (unfold Go.len in *; lia).
        rewrite wrap64_small by (unfold Go.len in *; lia). lia.
      + unfold Go.len. rewrite length_app, length_map. lia. }
  cbv zeta.
  assert (logStats w' = LogStats.or_QuerySources (QuerySourceRowcache E)
                          (LogStats.set_cache (Go.len rows) absent0 misses0 (logStats w4))
          /\ history w' = history w4 ++ [EvTableStats (Go.len rows) absent0 misses0]
          /\ (limit < 0 -> mproto.Rows r = rows')) as (Hlog & Hhist & Hr).
  { destruct ((0 <? limit) && (limit <? Go.len rows')) eqn:Hcut;
      injection Hrun as <- <-; (split; [reflexivity|]); (split; [reflexivity|]);
      intros Hneg; [|reflexivity].
    apply andb_true_iff in Hcut as [H0 _]. apply Z.ltb_lt in H0. lia. }
  rewrite Hlog, Hhist. cbn [LogStats.or_QuerySources LogStats.set_cache LogStats.CacheHits
                              LogStats.CacheAbsent LogStats.CacheMisses].
  split; [unfold Go.len in *; lia|]. split; [exact Hm|]. split; [exact Hsum|].
  split; [exact Hexact|]. split; [apply last_snoc|].
  intros Hneg. rewrite (Hr Hneg). exact Hall.
Qed.

(** The read of keys 1 and 5 on the sample tablet with key 1 cached: one
    hit, one miss, no key absent. *)
Lemma fetchMulti_cache_counters_witness :
  let q := Scenario.mkQre 0 Scenario.client
             (Scenario.mkPlan planbuilder.PLAN_PK_IN "" (SVInt64 0) [] Scenario.noRules) in
  let E := with_cache warm
             (Scenario.on_backend
                (fun _ _ _ _ _ => inr (Scenario.okResult 0 [[VRaw "5"; VRaw "e"]]))
                Scenario.collab) in
  exists r w',
    fetchMulti E q [[VRaw "1"]; [VRaw "5"]] (-1) (Scenario.world 0) = Ret r w'
    /\ LogStats.CacheHits (logStats w') = 1
    /\ LogStats.CacheHits (logStats w') + LogStats.CacheAbsent (logStats w')
       + LogStats.CacheMisses (logStats w') = 2.
Proof.
  intros q E.
  assert (exists r w', fetchMulti E q [[VRaw "1"]; [VRaw "5"]] (-1) (Scenario.world 0)
                       = Ret r w' /\ LogStats.CacheHits (logStats w') = 1
                       /\ LogStats.CacheMisses (logStats w') < 2 ^ 63)
    as (r & w' & Hrun & Hhits & Hm)
    by (eexists; eexists; split; [vm_compute; reflexivity|split; [reflexivity|reflexivity]]).
  exists r, w'. split; [exact Hrun|]. split; [exact Hhits|].
  exact (proj1 (proj2 (proj2 (proj2
           (fetchMulti_cache_counters E q [[VRaw "1"]; [VRaw "5"]] (-1) (Scenario.world 0) r w'
              ltac:(discriminate) ltac:(discriminate) ltac:(reflexivity) Hrun)))) Hm).
Defined.

(** ** Requests inside a transaction *)

(** The calls made on one connection: statements, the query record, the
    dirty-key set and its deletions. *)
Definition on_connection (conn : Conn) (e : Event) : bool :=
  match e with
  | EvExec c _ _ _ _ => Nat.eqb c conn
  | EvRecordQuery c _ => Nat.eqb c conn
  | EvDirtyKeys c _ => Nat.eqb c conn
  | EvInvalidatorDelete inv _ => Nat.eqb (inv_conn inv) conn
  | _ => false
  end.

Definition stays_on (conn : Conn) (w w' : World) : Prop :=
  exists calls,
    history w' = history w ++ calls /\ Forall (fun e => on_connection conn e = true) calls.

(** What [Execute] runs on the connection of the transaction, between
    [txPool.Get] and the deferred [Recycle]: the query is recorded on the
    connection, then the plan is carried out. *)
Definition tx_statements (E : Collaborators) (qre : QueryExecutor) (fuel : nat) (conn : Conn)
  : M (option mproto.QueryResult) :=
  bind (make_invalidator qre conn) (fun invalidator =>
    match ExecPlan.PlanId (plan qre) with
    | planbuilder.PLAN_PASS_DML =>
        bind strict_check (fun _ =>
          some (directFetch E conn (ExecPlan.FullQuery (plan qre)) QreBindVars None))
    | planbuilder.PLAN_INSERT_PK => some (execInsertPK E qre conn)
    | planbuilder.PLAN_INSERT_SUBQUERY => some (execInsertSubquery E qre conn)
    | planbuilder.PLAN_DML_PK => some (execDMLPK E qre fuel conn invalidator)
    | planbuilder.PLAN_DML_SUBQUERY => some (execDMLSubquery E qre fuel conn invalidator)
    | planbuilder.PLAN_OTHER => some (execSQL E conn (query qre) true)
    | _ => some (execDirect E qre conn)
    end).

Definition tx_branch (E : Collaborators) (qre : QueryExecutor) (fuel : nat) (conn : Conn)
  : M (option mproto.QueryResult) :=
  bind (emit (EvRecordQuery conn (query qre))) (fun _ => tx_statements E qre fuel conn).

Section Stays_on.

Variable conn : Conn.

Lemma stays_on_refl w : stays_on conn w w.
Proof. exists []. rewrite app_nil_r. split; [reflexivity|constructor]. Qed.

Lemma stays_on_trans a b c : stays_on conn a b -> stays_on conn b c -> stays_on conn a c.
Proof.
  intros (l1 & H1 & F1) (l2 & H2 & F2). exists (l1 ++ l2).
  rewrite H2, H1, app_assoc. split; [reflexivity|]. apply Forall_app; split; assumption.
Qed.

Lemma stays_on_same w w' : history w' = history w -> stays_on conn w w'.
Proof. intros H. exists []. rewrite app_nil_r. split; [exact H|constructor]. Qed.

Lemma stays_on_bindVars m w : stays_on conn w (set_bindVars m w).
Proof. apply stays_on_same. reflexivity. Qed.

Lemma stays_on_localMaps l w : stays_on conn w (set_localMaps l w).
Proof. apply stays_on_same. reflexivity. Qed.

Lemma stays_on_push e w : on_connection conn e = true -> stays_on conn w (push e w).
Proof. intros He. exists [e]. split; [reflexivity|]. repeat constructor. exact He. Qed.

Ltac stays_side :=
  first [ exact stays_on_refl | exact stays_on_trans
        | exact stays_on_bindVars | exact stays_on_localMaps
        | exact (unknown_back (stays_on conn)) | exact unknown_any ].

Create HintDb stays discriminated.

Ltac stays :=
  repeat first
    [ solve [auto with stays]
    | apply post_ret; stays_side | apply post_panic; stays_side
    | apply post_get_world; stays_side
    | apply post_lift_option; stays_side | apply post_lift_error; stays_side
    | apply post_map_store; stays_side
    | apply post_strict_check; stays_side
    | apply post_index0_Columns; stays_side
    | apply post_generateFinalSql; stays_side
    | apply post_some; [stays_side..|]
    | apply post_bind; [stays_side..| |intro]
    | match goal with
      | |- post _ _ (match ?x with _ => _ end) => destruct x
      | |- post _ _ (if ?b then _ else _) => destruct b
      end ].

Variable E : Collaborators.
Variable qre : QueryExecutor.

Lemma execSQL_stays sql wantfields : post (stays_on conn) unknown (execSQL E conn sql wantfields).
Proof.
  intros w. rewrite execSQL_run. cbv zeta.
  assert (stays_on conn w
            (after_Exec conn sql true
               (conn_Exec E (history w) conn sql (maxResultSize (tunables w)) true) w)) as H.
  { eexists. split; [reflexivity|]. repeat constructor. cbn. apply Nat.eqb_refl. }
  destruct (conn_Exec E _ conn sql _ true); exact H.
Qed.
#[local] Hint Resolve execSQL_stays : stays.

Lemma directFetch_stays pq r bsc : post (stays_on conn) unknown (directFetch E conn pq r bsc).
Proof. unfold directFetch. stays. Qed.
#[local] Hint Resolve directFetch_stays : stays.

Lemma fullFetch_stays pq r bsc : post (stays_on conn) unknown (fullFetch E conn pq r bsc).
Proof. unfold fullFetch. stays. Qed.
#[local] Hint Resolve fullFetch_stays : stays.

Lemma execDirect_stays : post (stays_on conn) unknown (execDirect E qre conn).
Proof. unfold execDirect. stays. Qed.

Lemma execInsertPKRows_stays pkRows :
  post (stays_on conn) unknown (execInsertPKRows E qre conn pkRows).
Proof. unfold execInsertPKRows. stays. Qed.
#[local] Hint Resolve execInsertPKRows_stays : stays.

Lemma execInsertPK_stays : post (stays_on conn) unknown (execInsertPK E qre conn).
Proof. unfold execInsertPK. stays. Qed.

Lemma execInsertSubquery_stays : post (stays_on conn) unknown (execInsertSubquery E qre conn).
Proof.
  unfold execInsertSubquery, tableInfo_deref. stays.
Qed.

Lemma execDMLPKRows_loop_stays fuel pkRows sl maxRows :
  forall i result,
    post (stays_on conn) unknown (execDMLPKRows_loop E qre fuel conn pkRows sl maxRows i result).
Proof.
  induction fuel as [|fuel IH]; intros i result; cbn [execDMLPKRows_loop].
  - destruct (negb _); [stays|]. intros w. exact I.
  - destruct (negb _); [stays|].
    repeat (apply post_bind; [stays_side..|stays|intro]).
    apply IH.
Qed.

Definition of_connection (invalidator : option Invalidator) : Prop :=
  match invalidator with Some inv => inv_conn inv = conn | None => True end.

Lemma execDMLPKRows_stays fuel pkRows invalidator :
  of_connection invalidator ->
  post (stays_on conn) unknown (execDMLPKRows E qre fuel conn pkRows invalidator).
Proof.
  intros Hinv. unfold execDMLPKRows. destruct (Go.len pkRows =? 0); [stays|].
  apply post_bind; [stays_side..|stays|intros w0].
  apply post_bind; [stays_side..|stays|intros sl].
  apply post_bind; [stays_side..|apply execDMLPKRows_loop_stays|intros result].
  destruct invalidator as [inv|]; [|stays].
  apply post_bind; [stays_side..| |intro; stays].
  apply post_for_range; [stays_side..|]. intros [] pk w.
  apply stays_on_push. cbn. rewrite Hinv. apply Nat.eqb_refl.
Qed.

Lemma execDMLPK_stays fuel invalidator :
  of_connection invalidator ->
  post (stays_on conn) unknown (execDMLPK E qre fuel conn invalidator).
Proof. intros Hinv. unfold execDMLPK. stays. apply execDMLPKRows_stays. exact Hinv. Qed.

Lemma execDMLSubquery_stays fuel invalidator :
  of_connection invalidator ->
  post (stays_on conn) unknown (execDMLSubquery E qre fuel conn invalidator).
Proof.
  intros Hinv. unfold execDMLSubquery.
  apply post_bind; [stays_side..|apply directFetch_stays|intro].
  apply execDMLPKRows_stays. exact Hinv.
Qed.

Lemma invalidator_of_connection : of_connection (invalidator_of qre conn).
Proof.
  unfold invalidator_of, of_connection.
  destruct (ExecPlan.TableInfo (plan qre)) as [ti|]; [|exact I].
  destruct (schema.CacheType ti); [exact I|reflexivity..].
Qed.

Lemma tx_statements_stays fuel : post (stays_on conn) unknown (tx_statements E qre fuel conn).
Proof.
  unfold tx_statements.
  apply post_bind_val; [stays_side..| |intros invalidator (w0 & w0' & Hinv)].
  { intros w. rewrite make_invalidator_run. unfold with_invalidator.
    destruct (invalidator_of qre conn); [|apply stays_on_refl].
    apply stays_on_push. cbn. apply Nat.eqb_refl. }
  rewrite make_invalidator_run in Hinv. injection Hinv as <- _.
  pose proof invalidator_of_connection as Hinv.
  pose proof execDirect_stays. pose proof execInsertPK_stays.
  pose proof execInsertSubquery_stays.
  pose proof (execDMLPK_stays fuel _ Hinv). pose proof (execDMLSubquery_stays fuel _ Hinv).
  destruct (ExecPlan.PlanId (plan qre));
    try (apply post_bind; [stays_side..|stays|intros _]);
    (apply post_some; [stays_side..|]); first [assumption|stays].
Qed.

End Stays_on.

Lemma dispatch_in_transaction E qre fuel :
  ExecPlan.PlanId (plan qre) <> planbuilder.PLAN_DDL ->
  transactionID qre <> 0 ->
  dispatch E qre fuel
  = bind (txPool_Get_call E (transactionID qre)) (fun conn =>
      defer_call (Recycle conn) (tx_branch E qre fuel conn)).
Proof.
  intros Hplan Htx. unfold dispatch, tx_branch, tx_statements.
  apply Z.eqb_neq in Htx. rewrite Htx. cbn [negb].
  destruct (ExecPlan.PlanId (plan qre)); try reflexivity. congruence.
Qed.


Definition is_stat (e : Event) : bool :=
  match e with
  | EvQueryStats _ | EvPlanStats _ _ _ | EvResultStats _ => true
  | _ => false
  end.

(** X22: a request inside a transaction, for any plan but DDL, that has
    passed the policy gate and obtained the connection of its transaction:
    whenever [Execute] leaves, the calls it made after [txPool.Get] are
    the query record on that connection, then statements, dirty-key
    bookkeeping and invalidations on that connection only, then its
    [Recycle], then stats.  No connection is taken from a pool, no
    transaction is begun or ended, and neither the row cache nor the
    consolidator is used. *)
Theorem transaction_stays_on_its_connection E qre fuel w w1 conn w' :
  ExecPlan.PlanId (plan qre) <> planbuilder.PLAN_DDL ->
  transactionID qre <> 0 ->
  checkPermissions E qre (header E qre w) = Ret tt w1 ->
  txPool_Get E (history w1) (transactionID qre) = inr conn ->
  final_world (Execute E qre fuel w) = Some w' ->
  exists calls stats,
    history w'
    = history w1
        ++ EvTxPoolGet (transactionID qre) (inr conn) :: EvRecordQuery conn (query qre)
           :: calls ++ EvRecycle conn :: stats
    /\ Forall (fun e => on_connection conn e = true) calls
    /\ Forall (fun e => is_stat e = true) stats.
Proof.
  intros Hplan Htx Hperm Hget. rewrite Execute_dispatch.
  unfold bind at 1. rewrite Hperm, dispatch_in_transaction by assumption.
  cbv beta iota zeta delta [bind txPool_Get_call ask]. rewrite Hget.
  cbv beta iota zeta delta [ret defer_call Recycle tx_branch bind emit modify].
  set (w2 := set_history (history (set_history _ w1) ++ [EvRecordQuery conn (query qre)]) _).
  assert (history w2 = history w1 ++ [EvTxPoolGet (transactionID qre) (inr conn);
                                      EvRecordQuery conn (query qre)]) as Hw2
    by (subst w2; cbn; rewrite <- app_assoc; reflexivity).
  pose proof (tx_statements_stays conn E qre fuel w2) as Hstay.
  destruct (tx_statements E qre fuel conn w2) as [[r|] w3|p w3|];
    [| | |discriminate];
    destruct Hstay as (calls & Hcalls & Hall); intros [= <-]; exists calls;
    eexists; (split; [|split; [exact Hall|]]);
    try (unfold served_stats, failed_stats; cbn; rewrite Hcalls, Hw2;
         rewrite <- !app_assoc; cbn; reflexivity);
    repeat constructor.
Qed.

(** An update of three rows inside transaction 5 on the sample tablet. *)
Lemma transaction_stays_on_its_connection_witness :
  let q := Scenario.mkQre 5 Scenario.client
             (Scenario.mkPlan planbuilder.PLAN_DML_PK "" (SVInt64 0)
                [Scenario.pk "1"; Scenario.pk "2"; Scenario.pk "3"] Scenario.noRules) in
  exists w' calls stats,
    final_world (Execute Scenario.collab q 3 (Scenario.world 0)) = Some w'
    /\ history w'
       = EvTxPoolGet 5 (inr 3%nat) :: EvRecordQuery 3%nat "q"
           :: calls ++ EvRecycle 3%nat :: stats
    /\ Forall (fun e => on_connection 3%nat e = true) calls
    /\ Forall (fun e => is_stat e = true) stats.
Proof.
  intros q.
  assert (exists w', final_world (Execute Scenario.collab q 3 (Scenario.world 0)) = Some w')
    as [w' Hrun] by (eexists; vm_compute; reflexivity).
  destruct (transaction_stays_on_its_connection Scenario.collab q 3 (Scenario.world 0)
              _ 3%nat w' ltac:(discriminate) ltac:(discriminate) eq_refl eq_refl Hrun)
    as (calls & stats & Hhist & Hcalls & Hstats).
  exists w', calls, stats. split; [exact Hrun|]. split; [exact Hhist|].
  split; [exact Hcalls|exact Hstats].
Defined.

(** ** Taking a connection from a pool *)

(** X23: when a pool gives no connection, [getConn] raises
    [ErrConnPoolClosed] itself if that is the error and an [ErrFatal]
    tablet error made of it otherwise; the failed [Get] is the only call.
    A select without field info fails in the same way. *)
Theorem getConn_failure E qre pool err w :
  pool_Get E (history w) pool = inl err ->
  let raised := PError match err with
                       | ErrConnPoolClosed => ErrConnPoolClosed
                       | _ => ErrTablet (NewTabletErrorSql E ErrFatal err)
                       end in
  getConn E pool w = Panic raised (push (EvPoolGet pool (inl err)) w)
  /\ (pool = connPool -> ExecPlan.Fields (plan qre) = None ->
      execSelect E qre w = Panic raised (push (EvPoolGet connPool (inl err)) w)).
Proof.
  intros Hget raised.
  assert (getConn E pool w = Panic raised (push (EvPoolGet pool (inl err)) w)) as Hconn.
  { unfold getConn. cbv beta iota zeta delta [bind ask]. rewrite Hget.
    subst raised. destruct err; reflexivity. }
  split; [exact Hconn|].
  intros -> Hfields. unfold execSelect. rewrite Hfields. unfold bind. rewrite Hconn.
  reflexivity.
Qed.

(** A select with no field info on a tablet whose pool is closed, and on
    one whose pool fails otherwise. *)
Lemma getConn_failure_witness :
  let without_pool err :=
    {| buildValueList := buildValueList Scenario.collab;
       buildSecondaryList := buildSecondaryList Scenario.collab;
       buildStreamComment := buildStreamComment Scenario.collab;
       buildKey := buildKey Scenario.collab;
       applyFilter := applyFilter Scenario.collab;
       applyFilterWithPKDefaults := applyFilterWithPKDefaults Scenario.collab;
       validateRow := validateRow Scenario.collab;
       getLimit := getLimit Scenario.collab;
       restoreTrailing := restoreTrailing Scenario.collab;
       GenerateQuery := GenerateQuery Scenario.collab;
       DDLParse := DDLParse Scenario.collab;
       NewTabletErrorSql := NewTabletErrorSql Scenario.collab;
       Error := Error Scenario.collab;
       PlanId_String := PlanId_String Scenario.collab;
       quote := quote Scenario.collab;
       spotCheckMultiplier := spotCheckMultiplier Scenario.collab;
       QuerySourceRowcache := QuerySourceRowcache Scenario.collab;
       QuerySourceConsolidator := QuerySourceConsolidator Scenario.collab;
       int64_to_float64 := int64_to_float64 Scenario.collab;
       float64_to_duration := float64_to_duration Scenario.collab;
       float64_to_spotCheckFreq := float64_to_spotCheckFreq Scenario.collab;
       pool_Get := fun _ _ => inl err;
       txPool_Get := txPool_Get Scenario.collab;
       txPool_Begin := txPool_Begin Scenario.collab;
       qe_Commit := qe_Commit Scenario.collab;
       conn_Exec := conn_Exec Scenario.collab;
       consolidator_Create := consolidator_Create Scenario.collab;
       consolidator_Wait := consolidator_Wait Scenario.collab;
       cache_Get := cache_Get Scenario.collab;
       Rand := Rand Scenario.collab |} in
  let q := (Scenario.mkQre 0 Scenario.client
             (Scenario.mkPlan planbuilder.PLAN_PASS_SELECT "" (SVInt64 0) [] Scenario.noRules)) in
  getConn (without_pool ErrConnPoolClosed) streamConnPool (Scenario.world 0)
  = Panic (PError ErrConnPoolClosed)
      (push (EvPoolGet streamConnPool (inl ErrConnPoolClosed)) (Scenario.world 0))
  /\ getConn (without_pool (ErrOther "timeout")) connPool (Scenario.world 0)
     = Panic (NewTabletError ErrFatal "sql error")
         (push (EvPoolGet connPool (inl (ErrOther "timeout"))) (Scenario.world 0)).
Proof.
  intros without_pool q. split.
  - exact (proj1 (getConn_failure (without_pool ErrConnPoolClosed) q streamConnPool
                    ErrConnPoolClosed (Scenario.world 0) eq_refl)).
  - exact (proj1 (getConn_failure (without_pool (ErrOther "timeout")) q connPool
                    (ErrOther "timeout") (Scenario.world 0) eq_refl)).
Defined.

(** * What every request sends

    [generateFinalSql] is one of two sources of what goes to the backend.
    The other is the text of the query itself: [Execute] hands it to
    [execSQL] for an OTHER plan, and [execDDL] does for a DDL plan. *)

(** The history grows by events that send only [allowed] statements. *)
Definition sends (allowed : string -> Prop) (w w' : World) : Prop :=
  exists new, history w' = history w ++ new /\ Forall (permitted allowed) new.

(** Read over everything a request sends, "for every executed statement"
    says that all of it is [generated]. *)
Definition every_statement_generated (E : Collaborators) (qre : QueryExecutor) (fuel : nat)
    (w : World) : Prop :=
  forall w', final_world (Execute E qre fuel w) = Some w' ->
             sends (generated E (plan qre)) w w'.

(** A generated statement is the final text of one of the templates under
    bind variables that hold the row cap of some world plus one. *)
Lemma generated_final_sql E p sql :
  generated E p sql <->
  exists pq bsc bv w,
    In pq (templates p)
    /\ bv !! "#maxLimit" = Some (BVInt64 (maxLimit_of w))
    /\ final_sql E pq bsc bv = inr sql.
Proof.
  split.
  - intros (pq & r & bsc & w & w' & Hpq & Hrun).
    destruct (ref_get r w) as [m|] eqn:Hm.
    + rewrite (generateFinalSql_run E pq r bsc w m Hm) in Hrun.
      exists pq, bsc, (with_maxLimit w m), w. split; [exact Hpq|]. split.
      * apply lookup_insert_eq.
      * destruct (final_sql E pq bsc _); [discriminate|]. injection Hrun as -> _. reflexivity.
    + destruct r as [|n]; [discriminate|]. cbn in Hm.
      unfold generateFinalSql, bind, get_world, map_store in Hrun.
      rewrite Hm in Hrun. discriminate.
  - intros (pq & bsc & bv & w & Hpq & Hlimit & Hsql).
    exists pq, QreBindVars, bsc, (set_bindVars bv w), (set_bindVars bv w).
    split; [exact Hpq|].
    rewrite (generateFinalSql_run E pq QreBindVars bsc (set_bindVars bv w) bv eq_refl).
    assert (with_maxLimit (set_bindVars bv w) bv = bv) as ->.
    { unfold with_maxLimit. apply insert_id. exact Hlimit. }
    rewrite Hsql. reflexivity.
Qed.


(** ** Under which cap *)

(** A statement made for a request whose row cap is [cap]: the final text
    of one of the plan's templates under bind variables that hold
    [cap + 1] (an int64 sum) as ["#maxLimit"], or, for a DDL or OTHER
    plan, the text of the query as it came. *)
Definition made_for (E : Collaborators) (qre : QueryExecutor) (cap : Z) (sql : string)
  : Prop :=
  (exists pq bsc bv,
     In pq (templates (plan qre))
     /\ bv !! "#maxLimit" = Some (BVInt64 (Go.int64_add cap 1))
     /\ final_sql E pq bsc bv = inr sql)
  \/ raw qre sql.

(** A call to the backend made for such a request: the statement is
    [made_for] it, the row cap handed to [conn.Exec] is [cap], and the
    answer recorded is the one the connection gave under that cap. *)
Definition exec_under (E : Collaborators) (qre : QueryExecutor) (cap : Z) (e : Event) : Prop :=
  match e with
  | EvExec conn sql maxrows wantfields answer =>
      maxrows = cap
      /\ made_for E qre cap sql
      /\ exists h, answer = conn_Exec E h conn sql cap wantfields
  | _ => True
  end.

(** From a world whose [maxResultSize] is [cap] the cap is kept and the
    history grows by calls that are all [exec_under] it. *)
Definition capped (E : Collaborators) (qre : QueryExecutor) (cap : Z) (w w' : World) : Prop :=
  maxResultSize (tunables w) = cap ->
  maxResultSize (tunables w') = cap
  /\ exists new, history w' = history w ++ new /\ Forall (exec_under E qre cap) new.

Section Capped.

Variable E : Collaborators.
Variable qre : QueryExecutor.
Variable cap : Z.

Let R := capped E qre cap.

Lemma capped_refl w : R w w.
Proof.
  intros Hc. split; [exact Hc|]. exists []. rewrite app_nil_r. split; [reflexivity|constructor].
Qed.

Lemma capped_trans a b c : R a b -> R b c -> R a c.
Proof.
  intros Hab Hbc Hc. destruct (Hab Hc) as (Hb & l1 & H1 & F1).
  destruct (Hbc Hb) as (Hc' & l2 & H2 & F2). split; [exact Hc'|].
  exists (l1 ++ l2). rewrite H2, H1, app_assoc. split; [reflexivity|].
  apply Forall_app; split; assumption.
Qed.

Lemma capped_same w w' :
  history w' = history w -> tunables w' = tunables w -> R w w'.
Proof.
  intros Hh Ht Hc. rewrite Ht. split; [exact Hc|].
  exists []. rewrite app_nil_r. split; [exact Hh|constructor].
Qed.

Lemma capped_push e w : is_exec e = false -> R w (push e w).
Proof.
  intros He Hc. split; [exact Hc|]. exists [e]. split; [reflexivity|].
  constructor; [|constructor]. destruct e; try exact I. discriminate He.
Qed.

Lemma capped_back w w' : R w w' -> unknown w' -> unknown w.
Proof. intros _ _. exact I. Qed.

Lemma c_ret {A} (a : A) : post R unknown (ret a).
Proof. apply post_ret. exact capped_refl. Qed.

Lemma c_panic {A} p : post R unknown (@panic A p).
Proof. apply post_panic. exact capped_refl. Qed.

Lemma c_get_world : post R unknown get_world.
Proof. apply post_get_world. exact capped_refl. Qed.

Lemma c_bind {A B} (m : M A) (k : A -> M B) :
  post R unknown m -> (forall a, post R unknown (k a)) -> post R unknown (bind m k).
Proof. apply post_bind; [exact capped_trans|exact capped_back]. Qed.

Lemma c_some {A} (m : M A) : post R unknown m -> post R unknown (some m).
Proof. apply post_some; [exact capped_refl|exact capped_trans|exact capped_back]. Qed.

Lemma c_defer_call {A} (d : M unit) (rest : M A) :
  post R unknown d -> post R unknown rest -> post R unknown (defer_call d rest).
Proof. apply post_defer_call; [exact capped_trans|exact capped_back]. Qed.

Lemma c_defer_named {A} (d : option A -> M unit) (rest : M (option A)) :
  (forall a, post R unknown (d a)) -> post R unknown rest ->
  post R unknown (defer_named d rest).
Proof. apply post_defer_named; [exact capped_trans|exact capped_back]. Qed.

Lemma c_defer_recover {A} (d : option PanicVal -> M unit) (zero : A) (rest : M A) :
  (forall e, post R unknown (d e)) -> post R unknown rest ->
  post R unknown (defer_recover d zero rest).
Proof. apply post_defer_recover; [exact capped_trans|exact capped_back]. Qed.

Lemma c_for_range {A S} (body : S -> A -> M S) (l : list A) :
  (forall s x, post R unknown (body s x)) -> forall s, post R unknown (for_range body l s).
Proof. apply post_for_range; [exact capped_refl|exact capped_trans|exact capped_back]. Qed.

Lemma c_lift_option {A} msg (o : option A) : post R unknown (lift_option msg o).
Proof. apply post_lift_option. exact capped_refl. Qed.

Lemma c_lift_error {A} (r : GoError + A) : post R unknown (lift_error r).
Proof. apply post_lift_error. exact capped_refl. Qed.

Lemma c_modify (f : World -> World) :
  (forall w, history (f w) = history w /\ tunables (f w) = tunables w) ->
  post R unknown (modify f).
Proof. intros Hf w. apply capped_same; apply Hf. Qed.

Lemma c_map_store r k v : post R unknown (map_store r k v).
Proof.
  apply post_map_store; [exact capped_refl| |]; intros; apply capped_same; reflexivity.
Qed.

Lemma c_map_load r : post R unknown (map_load r).
Proof. intros w. unfold map_load. destruct r; apply capped_refl. Qed.

Lemma c_map_new m : post R unknown (map_new m).
Proof. intros w. apply capped_same; reflexivity. Qed.

Lemma c_emit e : is_exec e = false -> post R unknown (emit e).
Proof. intros He w. apply capped_push. exact He. Qed.

Lemma c_ask {A} (f : History -> A) (ev : A -> Event) :
  (forall a, is_exec (ev a) = false) -> post R unknown (ask f ev).
Proof. intros He w. apply (capped_push _ w). apply He. Qed.

Create HintDb capped discriminated.

Ltac capped :=
  repeat first
    [ solve [eauto with capped]
    | apply c_ret | apply c_panic | apply c_get_world
    | apply c_lift_option | apply c_lift_error
    | apply c_map_store | apply c_map_load | apply c_map_new
    | apply c_emit; reflexivity
    | apply c_ask; intros; reflexivity
    | apply c_modify; intros; split; reflexivity
    | apply c_defer_named; [intro|]
    | apply c_defer_recover; [intro|]
    | apply c_defer_call
    | apply c_for_range; intros
    | apply c_some
    | apply c_bind; [|intro]
    | match goal with
      | |- post _ _ (match ?x with _ => _ end) => destruct x
      | |- post _ _ (if ?b then _ else _) => destruct b
      end ].

(** One statement on a connection. *)
Lemma c_execSQLNoPanic conn sql wantfields :
  made_for E qre cap sql -> post R unknown (execSQLNoPanic E conn sql wantfields).
Proof.
  intros Hsql w. rewrite execSQLNoPanic_run. cbv zeta. intros Hc.
  split; [exact Hc|]. eexists. split; [reflexivity|].
  constructor; [|constructor]. cbn. rewrite Hc. split; [reflexivity|].
  split; [exact Hsql|]. exists (history w). reflexivity.
Qed.
#[local] Hint Resolve c_execSQLNoPanic : capped.

Lemma c_execSQL conn sql wantfields :
  made_for E qre cap sql -> post R unknown (execSQL E conn sql wantfields).
Proof. intros Hsql. unfold execSQL. capped. Qed.
#[local] Hint Resolve c_execSQL : capped.

(** What follows [generateFinalSql] is given a statement made for the
    request. *)
Lemma c_generate {A} (k : string -> M A) pq r bsc :
  In pq (templates (plan qre)) ->
  (forall sql, made_for E qre cap sql -> post R unknown (k sql)) ->
  post R unknown (bind (generateFinalSql E pq r bsc) k).
Proof.
  intros Hpq Hk w.
  destruct (Z.eq_dec (maxResultSize (tunables w)) cap) as [Hc|Hne]; cycle 1.
  { destruct (bind _ _ w); try exact I; intros Hc; contradiction. }
  assert (post R unknown (generateFinalSql E pq r bsc)) as Hgen.
  { apply post_generateFinalSql;
      first [exact capped_refl|exact capped_trans|exact capped_back
            |intros; apply capped_same; reflexivity]. }
  specialize (Hgen w). unfold bind.
  destruct (generateFinalSql E pq r bsc w) as [sql w1|p w1|] eqn:Hrun; [|exact Hgen|exact I].
  assert (made_for E qre cap sql) as Hsql.
  { left. destruct (ref_get r w) as [m|] eqn:Hm.
    - rewrite (generateFinalSql_run E pq r bsc w m Hm) in Hrun.
      exists pq, bsc, (with_maxLimit w m). split; [exact Hpq|]. split.
      + unfold with_maxLimit, maxLimit_of. rewrite Hc. apply lookup_insert_eq.
      + destruct (final_sql E pq bsc _); [discriminate|]. injection Hrun as -> _. reflexivity.
    - destruct r as [|n]; [discriminate|]. cbn in Hm.
      unfold generateFinalSql, bind, get_world, map_store in Hrun.
      rewrite Hm in Hrun. discriminate. }
  specialize (Hk sql Hsql w1).
  destruct (k sql w1) as [a w2|p w2|]; [| |exact I]; eapply capped_trans; eassumption.
Qed.

Lemma template_full : In (ExecPlan.FullQuery (plan qre)) (templates (plan qre)).
Proof. left. reflexivity. Qed.

Lemma template_outer : In (ExecPlan.OuterQuery (plan qre)) (templates (plan qre)).
Proof. right. left. reflexivity. Qed.

Lemma template_sub : In (ExecPlan.Subquery (plan qre)) (templates (plan qre)).
Proof. right. right. left. reflexivity. Qed.
#[local] Hint Resolve template_full template_outer template_sub : capped.

Lemma c_directFetch conn pq r bsc :
  In pq (templates (plan qre)) -> post R unknown (directFetch E conn pq r bsc).
Proof. intros Hpq. unfold directFetch. apply c_generate; [exact Hpq|]. intros. capped. Qed.
#[local] Hint Resolve c_directFetch : capped.

Lemma c_fullFetch conn pq r bsc :
  In pq (templates (plan qre)) -> post R unknown (fullFetch E conn pq r bsc).
Proof. intros Hpq. unfold fullFetch. apply c_generate; [exact Hpq|]. intros. capped. Qed.
#[local] Hint Resolve c_fullFetch : capped.

Lemma c_q_finish q : post R unknown (q_finish q).
Proof. unfold q_finish. capped. Qed.
#[local] Hint Resolve c_q_finish : capped.

Lemma c_qFetch pq r : In pq (templates (plan qre)) -> post R unknown (qFetch E pq r).
Proof.
  intros Hpq. unfold qFetch. apply c_generate; [exact Hpq|]. intros sql Hsql. capped.
Qed.
#[local] Hint Resolve c_qFetch : capped.

Lemma c_getConn pool : post R unknown (getConn E pool).
Proof. unfold getConn. capped. Qed.
#[local] Hint Resolve c_getConn : capped.

Lemma c_txPool_Get_call txid : post R unknown (txPool_Get_call E txid).
Proof. unfold txPool_Get_call. capped. Qed.
#[local] Hint Resolve c_txPool_Get_call : capped.

Lemma c_txPool_Begin_call : post R unknown (txPool_Begin_call E).
Proof. unfold txPool_Begin_call. capped. Qed.
#[local] Hint Resolve c_txPool_Begin_call : capped.

Lemma c_qe_Commit_call txid : post R unknown (qe_Commit_call E txid).
Proof. unfold qe_Commit_call. capped. Qed.
#[local] Hint Resolve c_qe_Commit_call : capped.

Lemma c_tableInfo_deref : post R unknown (tableInfo_deref qre).
Proof. unfold tableInfo_deref. capped. Qed.
#[local] Hint Resolve c_tableInfo_deref : capped.

Lemma c_index0_Columns : post R unknown (index0_Columns qre).
Proof. unfold index0_Columns. capped. Qed.
#[local] Hint Resolve c_index0_Columns : capped.

Lemma c_checkPermissions : post R unknown (checkPermissions E qre).
Proof. unfold checkPermissions. capped. Qed.
#[local] Hint Resolve c_checkPermissions : capped.

Lemma c_strict_check : post R unknown strict_check.
Proof. unfold strict_check. capped. Qed.
#[local] Hint Resolve c_strict_check : capped.

Lemma c_make_invalidator conn : post R unknown (make_invalidator qre conn).
Proof. unfold make_invalidator. capped. Qed.
#[local] Hint Resolve c_make_invalidator : capped.

Lemma c_execDDL :
  ExecPlan.PlanId (plan qre) = planbuilder.PLAN_DDL -> post R unknown (execDDL E qre).
Proof.
  intros Hplan.
  assert (made_for E qre cap (query qre)) as Hraw by (right; split; [reflexivity|auto]).
  unfold execDDL, txPool_SafeCommit. capped.
Qed.

Lemma c_mustVerify : post R unknown (mustVerify E).
Proof. unfold mustVerify. capped. Qed.
#[local] Hint Resolve c_mustVerify : capped.

Lemma c_spotCheck rcresult pk : post R unknown (spotCheck E qre rcresult pk).
Proof. unfold spotCheck. capped. Qed.
#[local] Hint Resolve c_spotCheck : capped.

Lemma c_fetchMulti_hit rc st pk : post R unknown (fetchMulti_hit E qre rc st pk).
Proof. unfold fetchMulti_hit. destruct st as [[rows missingRows] hits]. capped. Qed.
#[local] Hint Resolve c_fetchMulti_hit : capped.

Lemma c_fetchMulti_fill rc rows row : post R unknown (fetchMulti_fill E qre rc rows row).
Proof. unfold fetchMulti_fill. capped. Qed.
#[local] Hint Resolve c_fetchMulti_fill : capped.

Lemma c_fetchMulti pkRows limit : post R unknown (fetchMulti E qre pkRows limit).
Proof. unfold fetchMulti. capped. Qed.
#[local] Hint Resolve c_fetchMulti : capped.

Lemma c_execPKIN : post R unknown (execPKIN E qre).
Proof. unfold execPKIN. capped. Qed.

Lemma c_execSubquery : post R unknown (execSubquery E qre).
Proof. unfold execSubquery. capped. Qed.

Lemma c_execDirect conn : post R unknown (execDirect E qre conn).
Proof. unfold execDirect. capped. Qed.

Lemma c_execSelect : post R unknown (execSelect E qre).
Proof. unfold execSelect. capped. Qed.

Lemma c_execInsertPKRows conn pkRows : post R unknown (execInsertPKRows E qre conn pkRows).
Proof. unfold execInsertPKRows. capped. Qed.
#[local] Hint Resolve c_execInsertPKRows : capped.

Lemma c_execInsertPK conn : post R unknown (execInsertPK E qre conn).
Proof. unfold execInsertPK. capped. Qed.

Lemma c_execInsertSubquery conn : post R unknown (execInsertSubquery E qre conn).
Proof. unfold execInsertSubquery. capped. Qed.

Lemma c_execDMLPKRows_loop fuel conn pkRows sl maxRows :
  forall i result,
    post R unknown (execDMLPKRows_loop E qre fuel conn pkRows sl maxRows i result).
Proof.
  induction fuel as [|fuel IH]; intros i result; cbn [execDMLPKRows_loop].
  - destruct (negb _); [capped|]. intros w. exact I.
  - destruct (negb _); [capped|].
    repeat (apply c_bind; [capped|intro]). apply IH.
Qed.
#[local] Hint Resolve c_execDMLPKRows_loop : capped.

Lemma c_execDMLPKRows fuel conn pkRows inv :
  post R unknown (execDMLPKRows E qre fuel conn pkRows inv).
Proof. unfold execDMLPKRows. capped. Qed.
#[local] Hint Resolve c_execDMLPKRows : capped.

Lemma c_execDMLPK fuel conn inv : post R unknown (execDMLPK E qre fuel conn inv).
Proof. unfold execDMLPK. capped. Qed.

Lemma c_execDMLSubquery fuel conn inv : post R unknown (execDMLSubquery E qre fuel conn inv).
Proof. unfold execDMLSubquery. capped. Qed.

Lemma c_execDmlAutoCommit fuel : post R unknown (execDmlAutoCommit E qre fuel).
Proof.
  pose proof c_execInsertPK. pose proof c_execInsertSubquery.
  pose proof (c_execDMLPK fuel). pose proof (c_execDMLSubquery fuel).
  unfold execDmlAutoCommit, txPool_Rollback, Recycle, AddRewrittenSql. capped.
Qed.

(** Everything but a SET outside a transaction, which may change the cap. *)
Lemma c_dispatch fuel :
  (ExecPlan.PlanId (plan qre) = planbuilder.PLAN_SET -> transactionID qre <> 0) ->
  post R unknown (dispatch E qre fuel).
Proof.
  intros Hset.
  pose proof c_execInsertPK. pose proof c_execInsertSubquery.
  pose proof (c_execDMLPK fuel). pose proof (c_execDMLSubquery fuel).
  pose proof c_execDirect. pose proof c_execSelect. pose proof c_execPKIN.
  pose proof c_execSubquery. pose proof (c_execDmlAutoCommit fuel).
  unfold dispatch, Recycle.
  destruct (ExecPlan.PlanId (plan qre)) eqn:Hplan;
    try (apply c_some; apply c_execDDL; exact Hplan);
    try (assert (made_for E qre cap (query qre)) as Hraw
           by (right; split; [reflexivity|right; exact Hplan]));
    destruct (transactionID qre =? 0) eqn:Htx; cbn [negb];
    try (apply Z.eqb_eq in Htx; elim (Hset eq_refl); exact Htx);
    capped.
Qed.

(** What [execSet] does with a variable it does not know. *)
Lemma c_execSet_default :
  post R unknown
    (bind (getConn E connPool) (fun conn =>
       defer_call (Recycle conn)
         (directFetch E conn (ExecPlan.FullQuery (plan qre)) QreBindVars None))).
Proof. unfold Recycle. capped. Qed.

End Capped.

(** The calls a request has added are all [exec_under] the cap it
    started with. *)
Definition sent_under (E : Collaborators) (qre : QueryExecutor) (w w' : World) : Prop :=
  exists new,
    history w' = history w ++ new
    /\ Forall (exec_under E qre (maxResultSize (tunables w))) new.

Lemma capped_sent_under E qre w w' :
  capped E qre (maxResultSize (tunables w)) w w' -> sent_under E qre w w'.
Proof. intros H. destruct (H eq_refl) as (_ & new & Hh & Hf). exists new. auto. Qed.

(** A SET sends nothing for the variables [execSet] knows, whatever it
    does to the tunables, and [FullQuery] for the others. *)
Lemma execSet_sent_under E qre w :
  match execSet E qre w with
  | Ret _ w' | Panic _ w' => sent_under E qre w w'
  | OutOfFuel => True
  end.
Proof.
  pose proof (c_execSet_default E qre (maxResultSize (tunables w)) w) as Hdefault.
  unfold execSet. cbv zeta.
  repeat match goal with
         | |- context [if String.eqb ?a ?b then _ else _] => destruct (String.eqb a b)
         end;
    try (destruct (bind (getConn E connPool) _ w); [| |exact I];
         apply capped_sent_under; exact Hdefault);
    destruct (ExecPlan.SetValue (plan qre)) as [val|bits|other];
    cbv beta iota zeta delta [bind getInt64 getDuration getFloat64 ret panic emit modify
                                modify_tunables];
    try match goal with |- context [if ?c then _ else _] => destruct c end;
    first [ exists []; split; [cbn; rewrite app_nil_r; reflexivity|constructor]
          | eexists; split; [cbn; rewrite <- ?app_assoc; reflexivity|repeat constructor] ].
Qed.

Lemma sent_under_more E qre w w1 w2 quiet :
  sent_under E qre w w1 ->
  history w2 = history w1 ++ quiet ->
  Forall (fun e => is_exec e = false) quiet ->
  sent_under E qre w w2.
Proof.
  intros (new & Hh & Hf) H2 Hq. exists (new ++ quiet).
  rewrite H2, Hh, app_assoc. split; [reflexivity|].
  apply Forall_app. split; [exact Hf|].
  eapply Forall_impl; [exact Hq|]. intros e He. destruct e; try exact I. discriminate He.
Qed.

(** Between the policy gate and the stats. *)
Lemma gate_dispatch_sent_under E qre fuel w :
  match bind (checkPermissions E qre) (fun _ => dispatch E qre fuel) (header E qre w) with
  | Ret _ w' | Panic _ w' => sent_under E qre w w'
  | OutOfFuel => True
  end.
Proof.
  set (cap := maxResultSize (tunables w)).
  assert (maxResultSize (tunables (header E qre w)) = cap) as Hcap by reflexivity.
  pose proof (c_checkPermissions E qre cap (header E qre w)) as Hgate.
  unfold bind. destruct (checkPermissions E qre (header E qre w)) as [[] w1|p w1|];
    [| |exact I].
  2: { destruct (Hgate Hcap) as (_ & new & Hh & Hf). exists new. auto. }
  destruct (Hgate Hcap) as (Hcap1 & new1 & Hh1 & Hf1).
  assert (match dispatch E qre fuel w1 with
          | Ret _ w' | Panic _ w' =>
              exists new, history w' = history w1 ++ new /\ Forall (exec_under E qre cap) new
          | OutOfFuel => True
          end) as Hrun.
  { destruct (ExecPlan.PlanId (plan qre)) eqn:Hplan;
      try (pose proof (c_dispatch E qre cap fuel
                         ltac:(rewrite Hplan; discriminate) w1) as H;
           destruct (dispatch E qre fuel w1); [| |exact I];
           destruct (H Hcap1) as (_ & new & Hh & Hf); exists new; auto).
    destruct (transactionID qre =? 0) eqn:Htx.
    - unfold dispatch. rewrite Hplan, Htx. cbn [negb].
      pose proof (execSet_sent_under E qre w1) as H. unfold some, bind.
      destruct (execSet E qre w1) as [r w2|p w2|]; [| |exact I];
        destruct H as (new & Hh & Hf); rewrite Hcap1 in Hf; exists new; auto.
    - apply Z.eqb_neq in Htx.
      pose proof (c_dispatch E qre cap fuel (fun _ => Htx) w1) as H.
      destruct (dispatch E qre fuel w1); [| |exact I];
        destruct (H Hcap1) as (_ & new & Hh & Hf); exists new; auto. }
  destruct (dispatch E qre fuel w1) as [r w2|p w2|]; [| |exact I];
    destruct Hrun as (new & Hh & Hf); exists (new1 ++ new);
    (split; [rewrite Hh, Hh1, app_assoc; reflexivity|apply Forall_app; split; assumption]).
Qed.

Lemma Execute_sent_under E qre fuel w w' :
  final_world (Execute E qre fuel w) = Some w' -> sent_under E qre w w'.
Proof.
  rewrite Execute_dispatch. pose proof (gate_dispatch_sent_under E qre fuel w) as H.
  destruct (bind (checkPermissions E qre) _ (header E qre w)) as [[r|] w1|p w1|];
    [| | |discriminate]; intros [= <-].
  - apply (sent_under_more E qre w w1 _
             [EvQueryStats (PlanId_String E (ExecPlan.PlanId (plan qre)));
              EvPlanStats 1 (Go.wrap64 (mproto.RowsAffected r)) 0;
              EvResultStats (Go.len (mproto.Rows r))]); [exact H| |repeat constructor].
    unfold served_stats. cbn. rewrite <- !app_assoc. reflexivity.
  - apply (sent_under_more E qre w w1 _
             [EvQueryStats (PlanId_String E (ExecPlan.PlanId (plan qre)));
              EvPlanStats 1 0 1]); [exact H| |repeat constructor].
    unfold failed_stats. cbn. rewrite <- !app_assoc. reflexivity.
  - apply (sent_under_more E qre w w1 _
             [EvQueryStats (PlanId_String E (ExecPlan.PlanId (plan qre)));
              EvPlanStats 1 0 1]); [exact H| |repeat constructor].
    unfold failed_stats. cbn. rewrite <- !app_assoc. reflexivity.
Qed.

(** C6, as it holds: [generateFinalSql] first stores [maxResultSize + 1]
    (an int64 sum) under ["#maxLimit"] in the map it is given, then
    expands the template with that map, appends the stream comment if
    there is one and restores the trailing token.  [execSQLNoPanic] sends
    the text it is given and hands [maxResultSize] to [conn.Exec] as the
    row cap, so with a connection that enforces its cap no result of more
    than [maxResultSize] rows is returned.  Over a whole request, whichever
    way [Execute] leaves: every call to the backend it has added carries
    the [maxResultSize] the request started with as its row cap, its
    answer is what the connection gave under that cap (so, with such a
    connection, a result of at most that many rows), and its text is
    either what [GenerateQuery], the stream comment and [restoreTrailing]
    make of one of the plan's templates under bind variables that hold
    [maxResultSize + 1] as ["#maxLimit"] or, for a DDL or OTHER plan only,
    the text of the query as it came. *)
Theorem generateFinalSql_maxLimit E pq r bsc m conn sql wantfields w :
  ref_get r w = Some m ->
  let limit := Go.int64_add (maxResultSize (tunables w)) 1 in
  let bv := <["#maxLimit" := BVInt64 limit]> m in
  generateFinalSql E pq r bsc w =
    match GenerateQuery E pq bv with
    | inl err => Panic (NewTabletError ErrFail (Error E err)) (ref_set r bv w)
    | inr text =>
        Ret (restoreTrailing E (match bsc with Some c => text +:+ c | None => text end) bv)
            (ref_set r bv w)
    end
  /\ bv !! "#maxLimit" = Some (BVInt64 limit)
  /\ (- 2 ^ 63 <= maxResultSize (tunables w) < 2 ^ 63 - 1 ->
      limit = maxResultSize (tunables w) + 1)
  /\ (exists answer,
        answer = conn_Exec E (history w) conn sql (maxResultSize (tunables w)) wantfields
        /\ execSQLNoPanic E conn sql wantfields w
           = Ret answer (after_Exec conn sql wantfields answer w))
  /\ (Exec_caps_rows E ->
      forall result w',
        execSQLNoPanic E conn sql wantfields w = Ret (inr result) w' ->
        Go.len (mproto.Rows result) <= maxResultSize (tunables w))
  /\ (forall qre fuel w',
        final_world (Execute E qre fuel w) = Some w' ->
        exists new,
          history w' = history w ++ new
          /\ forall c text maxrows wf answer,
               In (EvExec c text maxrows wf answer) new ->
               maxrows = maxResultSize (tunables w)
               /\ (exists h, answer = conn_Exec E h c text (maxResultSize (tunables w)) wf)
               /\ (Exec_caps_rows E ->
                   forall result,
                     answer = inr result ->
                     Go.len (mproto.Rows result) <= maxResultSize (tunables w))
               /\ ((exists tpl comment vars expanded,
                      In tpl (templates (plan qre))
                      /\ vars !! "#maxLimit" = Some (BVInt64 limit)
                      /\ GenerateQuery E tpl vars = inr expanded
                      /\ text = restoreTrailing E
                                  (match comment with
                                   | Some c' => expanded +:+ c'
                                   | None => expanded
                                   end) vars)
                   \/ (text = query qre
                       /\ (ExecPlan.PlanId (plan qre) = planbuilder.PLAN_DDL
                           \/ ExecPlan.PlanId (plan qre) = planbuilder.PLAN_OTHER)))).
Proof.
  intros Hm limit bv. repeat split.
  - rewrite (generateFinalSql_run E pq r bsc w m Hm). unfold final_sql.
    fold (maxLimit_of w) in limit. subst bv limit. unfold with_maxLimit.
    destruct (GenerateQuery E pq _); reflexivity.
  - subst bv. apply lookup_insert_eq.
  - intros Hrange. subst limit. unfold Go.int64_add. apply wrap64_small. lia.
  - eexists. split; [reflexivity|]. apply execSQLNoPanic_run.
  - intros Hcap result w' Hrun. rewrite execSQLNoPanic_run in Hrun. cbv zeta in Hrun.
    injection Hrun as Hans _. exact (Hcap _ _ _ _ _ _ Hans).
  - intros qre fuel w' Hw'.
    destruct (Execute_sent_under E qre fuel w w' Hw') as (new & Hh & Hf).
    exists new. split; [exact Hh|]. intros c text maxrows wf answer Hin.
    rewrite Forall_forall in Hf.
    specialize (Hf _ (proj2 (list_elem_of_In _ _) Hin)). cbn in Hf.
    destruct Hf as (Hmax & Hmade & h & Hans). split; [exact Hmax|].
    split; [exists h; exact Hans|]. split.
    + intros Hcap result Hres. rewrite Hres in Hans. symmetry in Hans.
      exact (Hcap _ _ _ _ _ _ Hans).
    + destruct Hmade as [(tpl & comment & vars & Htpl & Hlimit & Hsql)|Hraw];
        [left|right; exact Hraw].
      unfold final_sql in Hsql.
      destruct (GenerateQuery E tpl vars) as [err|expanded] eqn:Hgen; [discriminate|].
      injection Hsql as <-. exists tpl, comment, vars, expanded. auto.
Qed.

Lemma Scenario_backend_caps : Exec_caps_rows Scenario.collab.
Proof.
  intros h conn sql maxrows wantfields result. cbn. unfold Scenario.backend.
  destruct (maxrows <? 0) eqn:Hm; [discriminate|].
  intros [= <-]. cbn. apply Z.ltb_ge in Hm. exact Hm.
Qed.

(** On the sample tablet the cap is 10000, so the limit bound is 10001;
    an update of three rows in transaction 5 sends its two batches under
    that cap. *)
Lemma generateFinalSql_maxLimit_witness :
  generateFinalSql Scenario.collab {| Query := "select" |} QreBindVars (Some " /* c */")
    (Scenario.world 0)
  = Ret "select /* c */"
      (set_bindVars (<["#maxLimit" := BVInt64 10001]> ∅) (Scenario.world 0))
  /\ (forall result w',
        execSQLNoPanic Scenario.collab 7%nat "select" false (Scenario.world 0)
        = Ret (inr result) w' ->
        Go.len (mproto.Rows result) <= 10000)
  /\ exists w',
       final_world
         (Execute Scenario.collab
            (Scenario.mkQre 5 Scenario.client
               (Scenario.mkPlan planbuilder.PLAN_DML_PK "" (SVInt64 0)
                  [Scenario.pk "1"; Scenario.pk "2"; Scenario.pk "3"] Scenario.noRules))
            3 (Scenario.world 0)) = Some w'
       /\ count is_exec (history w') = 2%nat
       /\ forall c text maxrows wf answer,
            In (EvExec c text maxrows wf answer) (history w') ->
            maxrows = 10000
            /\ forall result, answer = inr result -> Go.len (mproto.Rows result) <= 10000.
Proof.
  pose proof (generateFinalSql_maxLimit Scenario.collab {| Query := "select" |} QreBindVars
                (Some " /* c */") ∅ 7%nat "select" false (Scenario.world 0) eq_refl) as H.
  cbv zeta in H. destruct H as (Hgen & _ & _ & _ & Hcap & Hall). split; [exact Hgen|].
  split; [exact (Hcap Scenario_backend_caps)|].
  set (q := Scenario.mkQre 5 _ _).
  assert (exists w', final_world (Execute Scenario.collab q 3 (Scenario.world 0)) = Some w'
                     /\ count is_exec (history w') = 2%nat) as (w' & Hrun & Hcount)
    by (eexists; split; vm_compute; reflexivity).
  exists w'. split; [exact Hrun|]. split; [exact Hcount|].
  destruct (Hall q 3%nat w' Hrun) as (new & Hh & Hnew). cbn [history Scenario.world app] in Hh.
  rewrite Hh. intros c text maxrows wf answer Hin.
  destruct (Hnew c text maxrows wf answer Hin) as (Hmax & _ & Hrows & _).
  split; [exact Hmax|exact (Hrows Scenario_backend_caps)].
Defined.

(** C6 does not hold of every executed statement: for an OTHER plan on
    the sample tablet the statement that reaches the backend is the query
    text ["q"], which [generateFinalSql] makes of no template of the
    plan. *)
Lemma raw_query_is_not_generated :
  ~ every_statement_generated Scenario.collab
      (Scenario.mkQre 0 Scenario.client
         (Scenario.mkPlan planbuilder.PLAN_OTHER "" (SVOther "") [] Scenario.noRules))
      0 (Scenario.world 0).
Proof.
  intros Hall.
  set (request := Scenario.mkQre _ _ _) in Hall.
  set (sent_q := EvExec 7%nat "q" 10000 true (inr (Scenario.okResult 1 []))).
  assert (exists w',
             final_world (Execute Scenario.collab request 0 (Scenario.world 0)) = Some w'
             /\ In sent_q (history w')) as (w' & Hrun & Hsent).
  { vm_compute. eexists. split; [reflexivity|]. right. left. reflexivity. }
  destruct (Hall w' Hrun) as (new & Hh & Hf). cbn in Hh. rewrite Hh in Hsent.
  rewrite Forall_forall in Hf.
  specialize (Hf sent_q (proj2 (list_elem_of_In _ _) Hsent)). cbn in Hf.
  apply generated_final_sql in Hf as (pq & bsc & bv & w & Hpq & _ & Hsql).
  unfold final_sql in Hsql. cbn in Hpq, Hsql.
  destruct Hpq as [<- | [<- | [<- | []]]]; destruct bsc; discriminate Hsql.
Qed.
